(** * jprofile: the column classifier and the per-kind summarizers

    A shallow embedding of [jprofile/core.py] (class [JProfile]).

    The profiler is a thin layer over pandas: it classifies every column of
    a DataFrame by its dtype and content, and composes pandas aggregates
    into one dictionary per column.  This development therefore has two
    layers:

    - [pd], a model of the pandas operations the profiler calls, on six
      storage types (numeric, bool, datetime64 without and with a time
      zone, timedelta64, object);
    - the methods of [JProfile], transcribed statement by statement on top
      of [pd], with Python dictionaries as insertion-ordered association
      lists and exceptions as an error monad.

    Arithmetic is exact: numbers are rationals, timestamps and durations
    unbounded integers of nanoseconds, and NaN appears only where pandas
    produces it by rule (a sample variance of fewer than two values, an
    aggregate of nothing).  The code computes on float64 and int64, so a
    statement about computed numbers is proved here for the values on
    which the two agree, and carries that as a hypothesis ([moderate],
    [range_representable]).  Module [f64] evaluates the formulas of the
    code on binary64 floats, to show what happens beyond.  A null cell
    (None, NaN, NaT, pd.NA) is [None]. *)

From Stdlib Require Import PrimFloat Uint63.
From Stdlib Require Import List String Ascii ZArith QArith Qround Qabs Bool.
From Stdlib Require Import Lia Lqa.
From Stdlib Require Import Permutation Sorted DecimalString ZifyNat.
Import ListNotations.
Local Open Scope string_scope.
Local Open Scope Z_scope.

Set Implicit Arguments.

(** ** Python values *)

(** Exceptions the modelled code can raise. *)
Inductive exn :=
| TypeError | ValueError | KeyError | IndexError | AttributeError
| ZeroDivisionError.

Inductive result (A : Type) : Type :=
| Ok (a : A)
| Raise (e : exn).
Arguments Ok {A} a.
Arguments Raise {A} e.

Definition bind {A B} (m : result A) (k : A -> result B) : result B :=
  match m with
  | Ok a => k a
  | Raise e => Raise e
  end.

(** [try: body / except: handler], with Python's bare [except]. *)
Definition try_except {A} (body : result A) (handler : A) : A :=
  match body with
  | Ok a => a
  | Raise _ => handler
  end.

Declare Scope py_scope.
Delimit Scope py_scope with py.
Notation "x <- m ;; k" := (bind m (fun x => k))
  (at level 61, m at next level, right associativity) : py_scope.
Local Open Scope py_scope.

(** A cell value.  An integer and a float are both [SNum].  A timestamp
    is an instant in ns since the epoch, naive ([STimestamp]) or with a
    time zone ([STimestampTZ]), which changes how it is rendered but not
    the instant. *)
Inductive scalar :=
| SNum (q : Q)
| SBool (b : bool)
| SStr (s : string)
| STimestamp (ns : Z)
| STimedelta (ns : Z)
| STimestampTZ (tz : string) (ns : Z).

Definition num_of_bool (b : bool) : Q := if b then 1%Q else 0%Q.

(** Python [==] on cell values: [True == 1] and [False == 0]. *)
Definition py_eqb (x y : scalar) : bool :=
  match x, y with
  | SNum a, SNum b => Qeq_bool a b
  | SNum a, SBool b => Qeq_bool a (num_of_bool b)
  | SBool a, SNum b => Qeq_bool (num_of_bool a) b
  | SBool a, SBool b => Bool.eqb a b
  | SStr a, SStr b => String.eqb a b
  | STimestamp a, STimestamp b => Z.eqb a b
  | STimedelta a, STimedelta b => Z.eqb a b
  | STimestampTZ _ a, STimestampTZ _ b => Z.eqb a b
  | _, _ => false
  end.

(** A float computed by numpy, as the number it stands for: [Fin q] is
    the rational [q], not rounded to a float64.  [SqrtOf q] is the
    non-negative square root of [q], kept symbolic because it is
    irrational in general. *)
Inductive npfloat :=
| NaN
| Fin (q : Q)
| SqrtOf (q : Q).

(** A value stored in a summary record.  [PSeries] is a pandas Series of
    integers, one per label: what a count is when it is taken on a frame
    instead of a column. *)
Inductive pyval :=
| PNone
| PStr (s : string)
| PInt (n : Z)
| PFloat (x : npfloat)
| PTimestamp (ns : Z)
| PTimedelta (ns : Z)
| PNaT
| PDict (d : list (string * Z))
| PSeries (items : list (string * Z)).

(** A Python dict with string keys: insertion-ordered, keys unique. *)
Definition dict (V : Type) := list (string * V).

Fixpoint dict_get {V} (k : string) (d : dict V) : option V :=
  match d with
  | [] => None
  | (k', v) :: d' => if String.eqb k k' then Some v else dict_get k d'
  end.

(** [d[k] = v]: overwrite in place, or append a new key. *)
Fixpoint dict_set {V} (k : string) (v : V) (d : dict V) : dict V :=
  match d with
  | [] => [(k, v)]
  | (k', v') :: d' =>
      if String.eqb k k' then (k, v) :: d' else (k', v') :: dict_set k v d'
  end.

Definition keys {V} (d : dict V) : list string := map fst d.

(** ** Series *)

(** A column, by storage type.  [NumericSeries] is an int or float dtype
    with finite values, [BoolSeries] the bool dtype (nullable or not),
    [DatetimeSeries] datetime64[ns] (naive absolute timestamps, in ns),
    [TimedeltaSeries] timedelta64[ns] (durations, in ns), [ObjectSeries]
    the object dtype, whose cells are arbitrary, and [DatetimeTZSeries]
    datetime64[ns, tz] (absolute timestamps with a time zone).

    Storage types without a counterpart here: categorical, complex, string
    and other extension dtypes, and float columns that hold an infinity. *)
Inductive Series :=
| NumericSeries (xs : list (option Q))
| BoolSeries (xs : list (option bool))
| DatetimeSeries (xs : list (option Z))
| TimedeltaSeries (xs : list (option Z))
| ObjectSeries (xs : list (option scalar))
| DatetimeTZSeries (tz : string) (xs : list (option Z)).

Definition is_null {A} (c : option A) : bool :=
  match c with None => true | Some _ => false end.

Definition not_null {A} (c : option A) : bool := negb (is_null c).

(** The non-null values of a list of cells, in order. *)
Fixpoint present {A} (xs : list (option A)) : list A :=
  match xs with
  | [] => []
  | Some x :: t => x :: present t
  | None :: t => present t
  end.

(** The collaborator's operations that this model leaves open: how pandas
    renders a number, a timestamp (naive, or in a time zone) and a
    duration as text ([astype(str)]), and [Series.str.len()], which the
    profiler calls inside a [try]/[except] and which is therefore allowed
    to raise. *)
Class Pandas := {
  str_float : Q -> string;
  str_timestamp : Z -> string;
  str_timedelta : Z -> string;
  str_len : list string -> result (list Z);
  str_timestamp_tz : string -> Z -> string
}.

Module pd.

(** The cells of a series as Python values. *)
Definition values (s : Series) : list (option scalar) :=
  match s with
  | NumericSeries xs => map (option_map SNum) xs
  | BoolSeries xs => map (option_map SBool) xs
  | DatetimeSeries xs => map (option_map STimestamp) xs
  | TimedeltaSeries xs => map (option_map STimedelta) xs
  | ObjectSeries xs => xs
  | DatetimeTZSeries tz xs => map (option_map (STimestampTZ tz)) xs
  end.

(** [len(series)] *)
Definition len (s : Series) : Z := Z.of_nat (List.length (values s)).

(** [series.empty] *)
Definition empty (s : Series) : bool := len s =? 0.

(** [series.isna()] *)
Definition isna (s : Series) : list bool := map is_null (values s).

(** [.sum()] of a boolean mask *)
Definition mask_sum (m : list bool) : Z :=
  Z.of_nat (List.length (filter (fun b => b) m)).

(** [.all()] of a boolean mask *)
Definition mask_all (m : list bool) : bool := forallb (fun b => b) m.

(** [series.dropna()] keeps the dtype. *)
Definition dropna (s : Series) : Series :=
  match s with
  | NumericSeries xs => NumericSeries (filter not_null xs)
  | BoolSeries xs => BoolSeries (filter not_null xs)
  | DatetimeSeries xs => DatetimeSeries (filter not_null xs)
  | TimedeltaSeries xs => TimedeltaSeries (filter not_null xs)
  | ObjectSeries xs => ObjectSeries (filter not_null xs)
  | DatetimeTZSeries tz xs => DatetimeTZSeries tz (filter not_null xs)
  end.

(** The hash-table scan behind [unique], [nunique] and [value_counts]:
    a value is kept the first time it is seen. *)
Fixpoint unique_from {A} (eqb : A -> A -> bool) (seen l : list A) : list A :=
  match l with
  | [] => []
  | x :: t =>
      if existsb (eqb x) seen then unique_from eqb seen t
      else x :: unique_from eqb (x :: seen) t
  end.

(** [series.unique()]: distinct values in order of first appearance
    (on a series without nulls). *)
Definition unique (s : Series) : list scalar :=
  unique_from py_eqb [] (present (values s)).

(** [series.nunique()]: nulls are not counted. *)
Definition nunique (s : Series) : Z := Z.of_nat (List.length (unique s)).

(** [pd.api.types.is_numeric_dtype]: true of int and float dtypes and
    also of the bool dtype. *)
Definition is_numeric_dtype (s : Series) : bool :=
  match s with
  | NumericSeries _ | BoolSeries _ => true
  | _ => false
  end.

(** [pd.api.types.is_bool_dtype].  Among the storage types of this model
    it is true of the bool dtype only, which [is_numeric_dtype] accepts
    first.  (In pandas it is also true of a categorical column whose
    categories are booleans; categorical columns are not modelled.) *)
Definition is_bool_dtype (s : Series) : bool :=
  match s with
  | BoolSeries _ => true
  | _ => false
  end.

(** [pd.api.types.is_datetime64_dtype]: true of the naive datetime64
    dtype only; false of timedelta64 and of datetime64 with a time
    zone. *)
Definition is_datetime64_dtype (s : Series) : bool :=
  match s with
  | DatetimeSeries _ => true
  | _ => false
  end.

(** *** Aggregates

    The aggregates below are defined on the storage types on which the
    profiler's dispatch applies them.  On every other storage type they
    are represented as raising [TypeError]: an over-approximation of
    pandas' failures, so that a proof that the profiler never raises
    cannot lean on leniency of the model. *)

Definition size {A} (l : list A) : Q := inject_Z (Z.of_nat (List.length l)).

(** The exact sum and, below, the exact mean.  Those of the code are
    rounded on a float column, and its sum wraps beyond 2^63 on an int64
    column: no statement below is about the mean or the sum of a numeric
    column. *)
Definition qsum (l : list Q) : Q := fold_right Qplus 0%Q l.

Definition qmin (x : Q) (l : list Q) : Q :=
  fold_right (fun y m => if Qle_bool y m then y else m) x l.

Definition qmax (x : Q) (l : list Q) : Q :=
  fold_right (fun y m => if Qle_bool m y then y else m) x l.

Definition qmean (l : list Q) : Q := (qsum l / size l)%Q.

Fixpoint insert_asc (x : Q) (l : list Q) : list Q :=
  match l with
  | [] => [x]
  | y :: t => if Qle_bool x y then x :: l else y :: insert_asc x t
  end.

Definition sort_asc (l : list Q) : list Q := fold_right insert_asc [] l.

(** numpy's [_lerp], in exact arithmetic ([f64.lerp] is the same formula
    on binary64). *)
Definition lerp (a b t : Q) : Q :=
  if Qle_bool (1 # 2) t then (b - (b - a) * (1 - t))%Q
  else (a + (b - a) * t)%Q.

(** [np.percentile(..., method='linear')] at the fraction [q], on the
    sorted values: the virtual index [q * (n - 1)] is split into its
    floor and its fractional part, and the two neighbouring order
    statistics are interpolated. *)
Definition quantile_sorted (q : Q) (s : list Q) : Q :=
  let n := List.length s in
  let pos := (q * inject_Z (Z.of_nat (n - 1)))%Q in
  let lo := Z.to_nat (Qfloor pos) in
  let hi := Nat.min (lo + 1) (n - 1) in
  lerp (nth lo s 0%Q) (nth hi s 0%Q) (pos - inject_Z (Qfloor pos))%Q.

Definition qquantile (q : Q) (l : list Q) : Q :=
  quantile_sorted q (sort_asc l).

(** The median of sorted values: the middle order statistic, or the
    mean of the two middle ones, in exact arithmetic
    ([f64.median_sorted] is the same formula on binary64). *)
Definition median_sorted (s : list Q) : Q :=
  let n := List.length s in
  if Nat.even n
  then ((nth (n / 2 - 1) s 0%Q + nth (n / 2) s 0%Q) / 2)%Q
  else nth (n / 2) s 0%Q.

Definition qmedian (l : list Q) : Q := median_sorted (sort_asc l).

(** [nanvar] with [ddof = 1]: NaN when there are not more values than
    [ddof]. *)
Definition qvar (l : list Q) : npfloat :=
  if (List.length l <=? 1)%nat then NaN
  else
    let m := qmean l in
    Fin (qsum (map (fun x => (x - m) * (x - m))%Q l) / (size l - 1))%Q.

(** [nanstd]: the square root of [nanvar]. *)
Definition qstd (l : list Q) : npfloat :=
  match qvar l with
  | Fin v => SqrtOf v
  | other => other
  end.

Definition zmin (x : Z) (l : list Z) : Z := fold_right Z.min x l.
Definition zmax (x : Z) (l : list Z) : Z := fold_right Z.max x l.

(** A float cast to an integer number of nanoseconds: towards zero. *)
Definition trunc (q : Q) : Z := Z.quot (Qnum q) (Z.pos (Qden q)).

Definition min (s : Series) : result pyval :=
  match s with
  | NumericSeries xs =>
      match present xs with
      | [] => Ok (PFloat NaN)
      | x :: t => Ok (PFloat (Fin (qmin x t)))
      end
  | DatetimeSeries xs =>
      match present xs with
      | [] => Ok PNaT
      | x :: t => Ok (PTimestamp (zmin x t))
      end
  | TimedeltaSeries xs =>
      match present xs with
      | [] => Ok PNaT
      | x :: t => Ok (PTimedelta (zmin x t))
      end
  | _ => Raise TypeError
  end.

Definition max (s : Series) : result pyval :=
  match s with
  | NumericSeries xs =>
      match present xs with
      | [] => Ok (PFloat NaN)
      | x :: t => Ok (PFloat (Fin (qmax x t)))
      end
  | DatetimeSeries xs =>
      match present xs with
      | [] => Ok PNaT
      | x :: t => Ok (PTimestamp (zmax x t))
      end
  | TimedeltaSeries xs =>
      match present xs with
      | [] => Ok PNaT
      | x :: t => Ok (PTimedelta (zmax x t))
      end
  | _ => Raise TypeError
  end.

Definition mean (s : Series) : result pyval :=
  match s with
  | NumericSeries xs =>
      match present xs with
      | [] => Ok (PFloat NaN)
      | l => Ok (PFloat (Fin (qmean l)))
      end
  | TimedeltaSeries xs =>
      match present xs with
      | [] => Ok PNaT
      | l => Ok (PTimedelta (trunc (qmean (map inject_Z l))))
      end
  | _ => Raise TypeError
  end.

Definition median (s : Series) : result pyval :=
  match s with
  | NumericSeries xs =>
      match present xs with
      | [] => Ok (PFloat NaN)
      | l => Ok (PFloat (Fin (qmedian l)))
      end
  | TimedeltaSeries xs =>
      match present xs with
      | [] => Ok PNaT
      | l => Ok (PTimedelta (trunc (qmedian (map inject_Z l))))
      end
  | _ => Raise TypeError
  end.

Definition std (s : Series) : result pyval :=
  match s with
  | NumericSeries xs => Ok (PFloat (qstd (present xs)))
  | _ => Raise TypeError
  end.

Definition var (s : Series) : result pyval :=
  match s with
  | NumericSeries xs => Ok (PFloat (qvar (present xs)))
  | _ => Raise TypeError
  end.

Definition quantile (q : Q) (s : Series) : result pyval :=
  match s with
  | NumericSeries xs =>
      match present xs with
      | [] => Ok (PFloat NaN)
      | l => Ok (PFloat (Fin (qquantile q l)))
      end
  | _ => Raise TypeError
  end.

(** [series.sum()]: of a bool series, the number of [True]. *)
Definition sum (s : Series) : result pyval :=
  match s with
  | NumericSeries xs => Ok (PFloat (Fin (qsum (present xs))))
  | BoolSeries xs =>
      Ok (PInt (Z.of_nat (List.length (filter (fun b => b) (present xs)))))
  | _ => Raise TypeError
  end.

(** [series.astype(bool)]: a number is true when it is not zero. *)
Definition astype_bool (s : Series) : result Series :=
  match s with
  | NumericSeries xs =>
      Ok (BoolSeries (map (option_map (fun x => negb (Qeq_bool x 0))) xs))
  | BoolSeries xs => Ok (BoolSeries xs)
  | _ => Raise TypeError
  end.

(** [series.iloc[i]] *)
Definition iloc (s : Series) (i : nat) : result (option scalar) :=
  match nth_error (values s) i with
  | Some c => Ok c
  | None => Raise IndexError
  end.

(** *** Strings *)

(** [str(x)] of a non-null cell value. *)
Definition str `{Pandas} (x : scalar) : string :=
  match x with
  | SNum q => str_float q
  | SBool true => "True"
  | SBool false => "False"
  | SStr s => s
  | STimestamp t => str_timestamp t
  | STimedelta d => str_timedelta d
  | STimestampTZ tz t => str_timestamp_tz tz t
  end.

(** [series.astype(str)] of a series without nulls: an object series of
    [str], kept as the list of its strings. *)
Definition astype_str `{Pandas} (s : Series) : list string :=
  map str (present (values s)).

(** [(strings == '').sum()] *)
Definition count_empty (l : list string) : Z :=
  Z.of_nat (List.length (filter (String.eqb "") l)).

(** [nunique] of a string series. *)
Definition str_nunique (l : list string) : Z :=
  Z.of_nat (List.length (unique_from String.eqb [] l)).

(** [min], [max] and [mean] of an integer series; NaN of an empty one. *)
Definition int_min (l : list Z) : pyval :=
  match l with [] => PFloat NaN | x :: t => PInt (zmin x t) end.

Definition int_max (l : list Z) : pyval :=
  match l with [] => PFloat NaN | x :: t => PInt (zmax x t) end.

Definition int_mean (l : list Z) : pyval :=
  match l with
  | [] => PFloat NaN
  | _ => PFloat (Fin (qmean (map inject_Z l)))
  end.

Fixpoint count (k : string) (l : list string) : Z :=
  match l with
  | [] => 0
  | x :: t => (if String.eqb k x then 1 else 0) + count k t
  end.

(** The sort of [value_counts]: by descending count, stable, so equal
    counts stay in their order of first appearance. *)
Fixpoint insert_desc (x : string * Z) (l : list (string * Z)) :=
  match l with
  | [] => [x]
  | y :: t => if snd y <=? snd x then x :: l else y :: insert_desc x t
  end.

Definition sort_desc (l : list (string * Z)) : list (string * Z) :=
  fold_right insert_desc [] l.

(** [strings.value_counts()]: every distinct value with the number of
    its occurrences, most frequent first. *)
Definition value_counts (l : list string) : list (string * Z) :=
  sort_desc (map (fun k => (k, count k l)) (unique_from String.eqb [] l)).

(** [.head(n)] *)
Definition head {A} (n : nat) (l : list A) : list A := firstn n l.

End pd.

(** ** Binary64

    The formulas of the code that compute on floats, evaluated on the
    primitive binary64 floats: what numpy returns where exact arithmetic
    and float64 part, by rounding, by overflow, or on an infinity. *)

Module f64.

(** [np.float64(n)] of an integer; exact below 2^53. *)
Definition of_int (n : Z) : float :=
  if n <? 0 then PrimFloat.opp (PrimFloat.of_uint63 (Uint63.of_Z (- n)))
  else PrimFloat.of_uint63 (Uint63.of_Z n).

(** A fraction with small numerator and denominator, by one division. *)
Definition of_fraction (q : Q) : float :=
  PrimFloat.div (of_int (Qnum q)) (of_int (Z.pos (Qden q))).

(** [part / total * 100], lines 143 and 144: an int64 divided by an int
    is a float64. *)
Definition percentage (part total : Z) : float :=
  PrimFloat.mul (PrimFloat.div (of_int part) (of_int total)) (of_int 100).

(** numpy's [_lerp] *)
Definition lerp (a b t : float) : float :=
  if PrimFloat.leb 0.5%float t
  then PrimFloat.sub b
         (PrimFloat.mul (PrimFloat.sub b a) (PrimFloat.sub 1%float t))
  else PrimFloat.add a (PrimFloat.mul (PrimFloat.sub b a) t).

(** [np.percentile(..., method='linear')] on sorted values.  The virtual
    index of a quarter of fewer than 2^50 positions is exact on binary64,
    so its floor and fractional part are taken in exact arithmetic. *)
Definition quantile_sorted (q : Q) (s : list float) : float :=
  let n := List.length s in
  let pos := (q * inject_Z (Z.of_nat (n - 1)))%Q in
  let lo := Z.to_nat (Qfloor pos) in
  let hi := Nat.min (lo + 1) (n - 1) in
  lerp (nth lo s 0%float) (nth hi s 0%float)
    (of_fraction (pos - inject_Z (Qfloor pos))).

(** The median of sorted values. *)
Definition median_sorted (s : list float) : float :=
  let n := List.length s in
  if Nat.even n
  then PrimFloat.div
         (PrimFloat.add (nth (n / 2 - 1) s 0%float) (nth (n / 2) s 0%float))
         2%float
  else nth (n / 2) s 0%float.


End f64.

(** ** The classifier *)

(** [set(...).issubset(other)], both as lists, membership by [==]. *)
Definition issubset (vals other : list scalar) : bool :=
  forallb (fun v => existsb (py_eqb v) other) vals.

(** [_determine_type], lines 41-67. *)
Definition _determine_type (series : Series) : string :=
  if pd.empty series || pd.mask_all (pd.isna series) then "string"
  else if pd.is_numeric_dtype series then
    let unique_vals := pd.unique (pd.dropna series) in
    if issubset unique_vals [SNum 0; SNum 1; SBool true; SBool false]
    then "boolean"
    else "numeric"
  else if pd.is_bool_dtype series then "boolean"
  else if pd.is_datetime64_dtype series then "datetime"
  else "string".

(** ** Python arithmetic on record values *)

Definition as_number (v : pyval) : option Q :=
  match v with
  | PInt n => Some (inject_Z n)
  | PFloat (Fin q) => Some q
  | _ => None
  end.

(** [a - b].  Two integers give an integer, two timestamps or two
    durations a duration; anything else is a [TypeError] here.  The
    difference is exact; pandas raises on two timestamps that are more
    than 2^63 - 1 ns apart, which is what [range_representable]
    excludes. *)
Definition py_sub (a b : pyval) : result pyval :=
  match a, b with
  | PInt x, PInt y => Ok (PInt (x - y))
  | PTimestamp x, PTimestamp y => Ok (PTimedelta (x - y))
  | PTimedelta x, PTimedelta y => Ok (PTimedelta (x - y))
  | _, _ =>
      match as_number a, as_number b with
      | Some x, Some y => Ok (PFloat (Fin (x - y)))
      | _, _ => Raise TypeError
      end
  end.

(** [a / b]: true division, exact ([f64.percentage] has the quotient and
    the product on binary64). *)
Definition py_truediv (a b : pyval) : result pyval :=
  match as_number a, as_number b with
  | Some x, Some y =>
      if Qeq_bool y 0 then Raise ZeroDivisionError
      else Ok (PFloat (Fin (x / y)))
  | _, _ => Raise TypeError
  end.

(** [a * b] *)
Definition py_mul (a b : pyval) : result pyval :=
  match a, b with
  | PInt x, PInt y => Ok (PInt (x * y))
  | _, _ =>
      match as_number a, as_number b with
      | Some x, Some y => Ok (PFloat (Fin (x * y)))
      | _, _ => Raise TypeError
      end
  end.

(** [(null_count / total_count * 100) if total_count > 0 else 0], on
    integers. *)
Definition percentage (part total : Z) : pyval :=
  if total >? 0 then PFloat (Fin (inject_Z part / inject_Z total * 100))
  else PInt 0.

(** [isinstance(x, pd.Timedelta)] *)
Definition is_Timedelta (x : option scalar) : bool :=
  match x with
  | Some (STimedelta _) => true
  | _ => false
  end.

(** ** The summarizers *)

Definition record := dict pyval.

(** [value if not non_null.empty else None] *)
Definition unless_empty (non_null : Series) (value : result pyval)
  : result pyval :=
  if negb (pd.empty non_null) then value else Ok PNone.

(** [_analyze_numeric], lines 69-107. *)
Definition _analyze_numeric (series : Series) : result record :=
  let total_count := pd.len series in
  let null_count := pd.mask_sum (pd.isna series) in
  let non_null := pd.dropna series in
  let unique_count := pd.nunique non_null in
  let duplicate_count := pd.len non_null - unique_count in
  min_ <- unless_empty non_null (pd.min non_null) ;;
  max_ <- unless_empty non_null (pd.max non_null) ;;
  mean_ <- unless_empty non_null (pd.mean non_null) ;;
  median_ <- unless_empty non_null (pd.median non_null) ;;
  std_ <- unless_empty non_null (pd.std non_null) ;;
  variance_ <- unless_empty non_null (pd.var non_null) ;;
  q1_ <- unless_empty non_null (pd.quantile (1 # 4) non_null) ;;
  q3_ <- unless_empty non_null (pd.quantile (3 # 4) non_null) ;;
  iqr_ <- unless_empty non_null
            (a <- pd.quantile (3 # 4) non_null ;;
             b <- pd.quantile (1 # 4) non_null ;;
             py_sub a b) ;;
  sum_ <- unless_empty non_null (pd.sum non_null) ;;
  range_ <- (if negb (pd.empty non_null) && (pd.len non_null >? 1)
             then a <- pd.max non_null ;; b <- pd.min non_null ;; py_sub a b
             else Ok PNone) ;;
  Ok [ ("type", PStr "numeric");
       ("count", PInt (pd.len non_null));
       ("null_count", PInt null_count);
       ("null_percentage", percentage null_count total_count);
       ("unique_count", PInt unique_count);
       ("duplicate_count", PInt duplicate_count);
       ("min", min_);
       ("max", max_);
       ("mean", mean_);
       ("median", median_);
       ("std", std_);
       ("variance", variance_);
       ("q1", q1_);
       ("q3", q3_);
       ("iqr", iqr_);
       ("sum", sum_);
       ("range", range_) ].

(** [_analyze_boolean], lines 109-147. *)
Definition _analyze_boolean (series : Series) : result record :=
  let total_count := pd.len series in
  let null_count := pd.mask_sum (pd.isna series) in
  let non_null := pd.dropna series in
  non_null <- (if pd.is_numeric_dtype series then pd.astype_bool non_null
               else Ok non_null) ;;
  true_count <- pd.sum non_null ;;
  false_count <- py_sub (PInt (pd.len non_null)) true_count ;;
  let unique_count := pd.nunique non_null in
  let duplicate_count := pd.len non_null - unique_count in
  true_percentage <-
    (if pd.len non_null >? 0
     then r <- py_truediv true_count (PInt (pd.len non_null)) ;;
          py_mul r (PInt 100)
     else Ok (PInt 0)) ;;
  false_percentage <-
    (if pd.len non_null >? 0
     then r <- py_truediv false_count (PInt (pd.len non_null)) ;;
          py_mul r (PInt 100)
     else Ok (PInt 0)) ;;
  Ok [ ("type", PStr "boolean");
       ("count", PInt (pd.len non_null));
       ("null_count", PInt null_count);
       ("null_percentage", percentage null_count total_count);
       ("unique_count", PInt unique_count);
       ("duplicate_count", PInt duplicate_count);
       ("true_count", true_count);
       ("false_count", false_count);
       ("true_percentage", true_percentage);
       ("false_percentage", false_percentage) ].

(** [_analyze_datetime], lines 206-242. *)
Definition _analyze_datetime (series : Series) : result record :=
  let total_count := pd.len series in
  let null_count := pd.mask_sum (pd.isna series) in
  let non_null := pd.dropna series in
  let unique_count := pd.nunique non_null in
  let duplicate_count := pd.len non_null - unique_count in
  min_ <- unless_empty non_null (pd.min non_null) ;;
  max_ <- unless_empty non_null (pd.max non_null) ;;
  range_ <- (if negb (pd.empty non_null) && (pd.len non_null >? 1)
             then a <- pd.max non_null ;; b <- pd.min non_null ;; py_sub a b
             else Ok PNone) ;;
  let results :=
    [ ("type", PStr "datetime");
      ("count", PInt (pd.len non_null));
      ("null_count", PInt null_count);
      ("null_percentage", percentage null_count total_count);
      ("unique_count", PInt unique_count);
      ("duplicate_count", PInt duplicate_count);
      ("min", min_);
      ("max", max_);
      ("range", range_) ] in
  if negb (pd.empty non_null) then
    first <- pd.iloc non_null 0 ;;
    if is_Timedelta first then
      mean_ <- pd.mean non_null ;;
      let results := dict_set "mean" mean_ results in
      median_ <- pd.median non_null ;;
      Ok (dict_set "median" median_ results)
    else Ok results
  else Ok results.

Section Profiler.

Context {pandas : Pandas}.

(** [_analyze_string], lines 149-204. *)
Definition _analyze_string (series : Series) : result record :=
  let total_count := pd.len series in
  let null_count := pd.mask_sum (pd.isna series) in
  let non_null := pd.dropna series in
  let non_null := pd.astype_str non_null in
  let empty_count := pd.count_empty non_null in
  let '(min_length, max_length, mean_length) :=
    if negb (Nat.eqb (List.length non_null) 0) then
      try_except
        (lengths <- str_len non_null ;;
         Ok (pd.int_min lengths, pd.int_max lengths, pd.int_mean lengths))
        (PNone, PNone, PNone)
    else (PNone, PNone, PNone) in
  let unique_count := pd.str_nunique non_null in
  let duplicate_count := Z.of_nat (List.length non_null) - unique_count in
  let top_values :=
    if negb (Nat.eqb (List.length non_null) 0)
    then pd.head 5 (pd.value_counts non_null)
    else [] in
  Ok [ ("type", PStr "string");
       ("count", PInt (Z.of_nat (List.length non_null)));
       ("null_count", PInt null_count);
       ("null_percentage", percentage null_count total_count);
       ("empty_count", PInt empty_count);
       ("unique_count", PInt unique_count);
       ("duplicate_count", PInt duplicate_count);
       ("min_length", min_length);
       ("max_length", max_length);
       ("mean_length", mean_length);
       ("top_frequencies", PDict top_values) ].

(** ** The engine *)

(** A DataFrame: its columns in order, each with its label. *)
Definition DataFrame := list (string * Series).

(** [df.columns] *)
Definition columns (df : DataFrame) : list string := map fst df.

(** What [df[column]] selects: the column that carries the label or,
    when several columns carry it, the frame of these columns. *)
Inductive selection :=
| Column (s : Series)
| SubFrame (cols : list (string * Series)).

(** [df[column]] *)
Definition getitem (df : DataFrame) (column : string) : result selection :=
  match filter (fun c => String.eqb column (fst c)) df with
  | [] => Raise KeyError
  | [c] => Ok (Column (snd c))
  | cols => Ok (SubFrame cols)
  end.

Record JProfile := {
  df : DataFrame;
  results : dict record
}.

Fixpoint for_each {A S} (l : list A) (body : S -> A -> result S) (s : S)
  : result S :=
  match l with
  | [] => Ok s
  | x :: t => s' <- body s x ;; for_each t body s'
  end.

(** [self.results[column] = value] *)
Definition set_result (self : JProfile) (column : string) (value : record)
  : JProfile :=
  {| df := df self; results := dict_set column value (results self) |}.

(** The classification and dispatch of one column: the body of the loop
    of [_analyze] after the selection.  [None] when no branch of the
    [if]/[elif] chain is taken. *)
Definition summarize (col_data : Series) : result (option record) :=
  let col_type := _determine_type col_data in
  if String.eqb col_type "numeric" then
    r <- _analyze_numeric col_data ;; Ok (Some r)
  else if String.eqb col_type "boolean" then
    r <- _analyze_boolean col_data ;; Ok (Some r)
  else if String.eqb col_type "string" then
    r <- _analyze_string col_data ;; Ok (Some r)
  else if String.eqb col_type "datetime" then
    r <- _analyze_datetime col_data ;; Ok (Some r)
  else Ok None.

(** The same statements when the selection is a frame of several
    columns.  In [_determine_type], [series.empty] is true of a frame
    without rows, which is then 'string'; on a frame with rows,
    [series.isna().all()] is a Series of one boolean per column, and the
    [if] that asks for its truth value raises ValueError.  In
    [_analyze_string] on a frame without rows, the lengths and the
    frequencies are those of no value, and each count taken with
    [.sum()] or [.nunique()] is a Series of one zero per column. *)
Definition summarize_frame (cols : list (string * Series))
  : result (option record) :=
  if forallb (fun c => pd.empty (snd c)) cols then
    let zeros := PSeries (map (fun c => (fst c, 0)) cols) in
    Ok (Some [ ("type", PStr "string");
               ("count", PInt 0);
               ("null_count", zeros);
               ("null_percentage", PInt 0);
               ("empty_count", zeros);
               ("unique_count", zeros);
               ("duplicate_count", zeros);
               ("min_length", PNone);
               ("max_length", PNone);
               ("mean_length", PNone);
               ("top_frequencies", PDict []) ])
  else Raise ValueError.

(** The body of the loop of [_analyze] after the selection, by what was
    selected. *)
Definition summarize_selection (col_data : selection)
  : result (option record) :=
  match col_data with
  | Column s => summarize s
  | SubFrame cols => summarize_frame cols
  end.

(** [_analyze], lines 23-39. *)
Definition _analyze (self : JProfile) : result JProfile :=
  for_each (columns (df self))
    (fun self column =>
       col_data <- getitem (df self) column ;;
       r <- summarize_selection col_data ;;
       match r with
       | Some value => Ok (set_result self column value)
       | None => Ok self
       end)
    self.

(** [__init__], lines 12-21. *)
Definition __init__ (df : DataFrame) : result JProfile :=
  _analyze {| df := df; results := [] |}.

(** [get_profile], lines 244-251. *)
Definition get_profile (self : JProfile) : dict record := results self.

End Profiler.

(** ** A collaborator to run the model on *)

Definition digits (z : Z) : string :=
  DecimalString.NilZero.string_of_int (Z.to_int z).

(** A collaborator whose [str.len()] returns the length of each string.
    It renders a number as a fraction and a time as its count of
    nanoseconds, where pandas prints decimals and calendar dates: the
    rendering is left open by the model and only examples use this one. *)
Definition plain_pandas : Pandas := {|
  str_float := fun q => digits (Qnum q) ++ "/" ++ digits (Z.pos (Qden q));
  str_timestamp := fun t => digits t;
  str_timedelta := fun d => digits d ++ "ns";
  str_len := fun l => Ok (map (fun s => Z.of_nat (String.length s)) l);
  str_timestamp_tz := fun tz t => digits t ++ " " ++ tz
|}.

(** A collaborator whose [str.len()] raises. *)
Definition failing_len_pandas : Pandas := {|
  str_float := @str_float plain_pandas;
  str_timestamp := @str_timestamp plain_pandas;
  str_timedelta := @str_timedelta plain_pandas;
  str_len := fun _ => Raise AttributeError;
  str_timestamp_tz := @str_timestamp_tz plain_pandas
|}.

(** ** The classification rule as the specification words it *)

Inductive Kind := Numeric | Boolean | String_ | Datetime.

Definition tag (k : Kind) : string :=
  match k with
  | Numeric => "numeric"
  | Boolean => "boolean"
  | String_ => "string"
  | Datetime => "datetime"
  end.

(** A column with zero values, or whose values are all null. *)
Definition degenerate (s : Series) : Prop :=
  pd.values s = [] \/ Forall (fun c => c = None) (pd.values s).

Definition zero_or_one (x : Q) : Prop := (x == 0 \/ x == 1)%Q.

(** Storage of date/time values: absolute timestamps, naive or with a
    time zone, and durations.  Section 4.6 has both sub-kinds, absolute
    and elapsed time, under the Datetime kind. *)
Definition date_or_time (s : Series) : Prop :=
  match s with
  | DatetimeSeries _ | DatetimeTZSeries _ _ | TimedeltaSeries _ => True
  | _ => False
  end.

(** The priority order of section 4.1, one rule per outcome, in the
    words of the specification. *)
Inductive classified : Series -> Kind -> Prop :=
| classified_degenerate s :
    degenerate s -> classified s String_
| classified_flags xs :
    ~ degenerate (NumericSeries xs) ->
    Forall zero_or_one (present xs) ->
    classified (NumericSeries xs) Boolean
| classified_numeric xs :
    ~ degenerate (NumericSeries xs) ->
    ~ Forall zero_or_one (present xs) ->
    classified (NumericSeries xs) Numeric
| classified_bool xs :
    ~ degenerate (BoolSeries xs) ->
    classified (BoolSeries xs) Boolean
| classified_temporal s :
    ~ degenerate s ->
    date_or_time s ->
    classified s Datetime
| classified_remaining xs :
    ~ degenerate (ObjectSeries xs) ->
    classified (ObjectSeries xs) String_.

(** The date/time columns that the test of the classifier,
    [is_datetime64_dtype], does not accept: durations and timestamps with
    a time zone, when they have a non-null value. *)
Definition missed (s : Series) : Prop :=
  ~ degenerate s /\
  match s with
  | TimedeltaSeries _ | DatetimeTZSeries _ _ => True
  | _ => False
  end.

(** What [_determine_type] decides, by storage type: a description of the
    code, not of the specification, from which it departs on the columns
    that are [missed]. *)
Inductive decides : Series -> Kind -> Prop :=
| decides_degenerate s :
    degenerate s -> decides s String_
| decides_flags xs :
    ~ degenerate (NumericSeries xs) ->
    Forall zero_or_one (present xs) ->
    decides (NumericSeries xs) Boolean
| decides_numeric xs :
    ~ degenerate (NumericSeries xs) ->
    ~ Forall zero_or_one (present xs) ->
    decides (NumericSeries xs) Numeric
| decides_bool xs :
    ~ degenerate (BoolSeries xs) ->
    decides (BoolSeries xs) Boolean
| decides_datetime xs :
    ~ degenerate (DatetimeSeries xs) ->
    decides (DatetimeSeries xs) Datetime
| decides_timedelta xs :
    ~ degenerate (TimedeltaSeries xs) ->
    decides (TimedeltaSeries xs) String_
| decides_object xs :
    ~ degenerate (ObjectSeries xs) ->
    decides (ObjectSeries xs) String_
| decides_datetimetz tz xs :
    ~ degenerate (DatetimeTZSeries tz xs) ->
    decides (DatetimeTZSeries tz xs) String_.

(** ** Notions the claims are stated with *)

(** The set literal of [_determine_type]. *)
Definition flag_values : list scalar :=
  [SNum 0; SNum 1; SBool true; SBool false].

(** The fields common to the four kinds, as section 4.2 relates them to
    the column. *)
Definition shared_invariants (series : Series) (r : record) : Prop :=
  exists count null_count unique_count duplicate_count,
    dict_get "count" r = Some (PInt count) /\
    dict_get "null_count" r = Some (PInt null_count) /\
    dict_get "unique_count" r = Some (PInt unique_count) /\
    dict_get "duplicate_count" r = Some (PInt duplicate_count) /\
    count = Z.of_nat (List.length (present (pd.values series))) /\
    null_count + count = pd.len series /\
    (pd.len series = 0 -> dict_get "null_percentage" r = Some (PInt 0)) /\
    (pd.len series <> 0 ->
     dict_get "null_percentage" r =
       Some (PFloat (Fin (inject_Z null_count / inject_Z (pd.len series)
                          * 100)))) /\
    unique_count + duplicate_count = count.

(** The non-null values as [astype(bool)] coerces them. *)
Definition truth_values (s : Series) : list bool :=
  match s with
  | NumericSeries xs => map (fun x => negb (Qeq_bool x 0)) (present xs)
  | BoolSeries xs => present xs
  | _ => []
  end.

(** The number of [True] among coerced values. *)
Definition count_true (bs : list bool) : Z :=
  Z.of_nat (List.length (filter (fun b => b) bs)).

(** The summarizer that [_analyze] calls for a kind. *)
Definition summarizer {pandas : Pandas} (k : Kind) : Series -> result record :=
  match k with
  | Numeric => _analyze_numeric
  | Boolean => _analyze_boolean
  | String_ => _analyze_string
  | Datetime => _analyze_datetime
  end.

(** One entry of the profile: the label of the column and the record of
    its summarizer. *)
Definition profiles {pandas : Pandas} (c : string * Series)
  (e : string * record) : Prop :=
  fst e = fst c /\ summarize (snd c) = Ok (Some (snd e)).

(** One day, in nanoseconds. *)
Definition one_day : Z := 86400000000000.




(** The position at which a string is first encountered. *)
Fixpoint index_of (k : string) (l : list string) : nat :=
  match l with
  | [] => 0
  | x :: t => if String.eqb k x then 0 else S (index_of k t)
  end.

(** The order of [value_counts]: by descending count, and among equal
    counts by first encounter in [strings]. *)
Definition precedes (strings : list string) (a b : string * Z) : Prop :=
  snd b < snd a \/
  (snd a = snd b /\
   (index_of (fst a) strings < index_of (fst b) strings)%nat).


(** A number of magnitude at most 2^53.  An integer of this size is the
    same number as int64 and as float64, and no sum or difference of two
    such numbers overflows either type. *)
Definition moderate (x : Q) : Prop := (Qabs x <= inject_Z (2 ^ 53))%Q.

(** The largest duration pandas represents, in ns. *)
Definition timedelta_max : Z := 2 ^ 63 - 1.

(** A column whose range the datetime summarizer can compute: no two
    timestamps of a naive datetime64 column are more than [timedelta_max]
    apart.  (For two that are, [max - min] at line 233 raises.) *)
Definition range_representable (s : Series) : Prop :=
  match s with
  | DatetimeSeries xs =>
      forall a b, In a (present xs) -> In b (present xs) ->
                  a - b <= timedelta_max
  | _ => True
  end.


(** What sections 4.4 and 8 ask of the record of a boolean column, but
    for the sum of the two percentages, which float64 rounding moves off
    100. *)
Definition boolean_summary (s : Series) (r : record) : Prop :=
  exists count trues falses,
    dict_get "count" r = Some (PInt count) /\
    dict_get "true_count" r = Some (PInt trues) /\
    dict_get "false_count" r = Some (PInt falses) /\
    count = Z.of_nat (List.length (present (pd.values s))) /\
    trues = count_true (truth_values s) /\
    trues + falses = count /\
    (0 < count ->
     exists tp fp,
       dict_get "true_percentage" r = Some (PFloat (Fin tp)) /\
       dict_get "false_percentage" r = Some (PFloat (Fin fp)) /\
       tp = (inject_Z trues / inject_Z count * 100)%Q /\
       fp = (inject_Z falses / inject_Z count * 100)%Q) /\
    (count = 0 ->
     dict_get "true_percentage" r = Some (PInt 0) /\
     dict_get "false_percentage" r = Some (PInt 0)).

(** What the spread fields of a numeric record are when the column has a
    single non-null value. *)
Definition single_value_summary (r : record) : Prop :=
  dict_get "range" r = Some PNone /\
  dict_get "std" r = Some (PFloat NaN) /\
  dict_get "variance" r = Some (PFloat NaN).


(** ** Columns to run the model on *)

(** The columns [id], [is_valid] and [name] of [test.py]. *)
Definition id_cells : list (option Q) :=
  [Some 1; Some 2; Some 3; Some 4; Some 5; None; Some 7; Some 8; Some 8;
   Some 10]%Q.

Definition is_valid_cells : list (option scalar) :=
  [Some (SBool true); Some (SBool false); Some (SBool true); None;
   Some (SBool false); Some (SBool true); Some (SBool true);
   Some (SBool true); Some (SBool false); Some (SBool false)].

Definition name_cells : list (option scalar) :=
  [Some (SStr "Alice"); Some (SStr "Bob"); Some (SStr "Charlie");
   Some (SStr ""); None; Some (SStr "Eve"); Some (SStr "Dave");
   Some (SStr "Alice"); Some (SStr "Frank"); Some (SStr "Grace")].

(** A column of 0/1 flags with a null. *)
Definition flag_cells : list (option Q) :=
  [Some 1; Some 0; None; Some 1; Some 1]%Q.

(** A column of two durations: one day and two days. *)
Definition duration_cells : list (option Z) :=
  [Some one_day; Some (2 * one_day)].

Definition sample_frame : DataFrame :=
  [ ("id", NumericSeries id_cells);
    ("is_valid", ObjectSeries is_valid_cells);
    ("name", ObjectSeries name_cells);
    ("flag", NumericSeries flag_cells);
    ("elapsed", TimedeltaSeries duration_cells) ].


(** ** The key lists of the records *)

(** The keys of the dictionary literal of each summarizer, in order. *)
Definition schema (k : Kind) : list string :=
  match k with
  | Numeric =>
      [ "type"; "count"; "null_count"; "null_percentage"; "unique_count";
        "duplicate_count"; "min"; "max"; "mean"; "median"; "std";
        "variance"; "q1"; "q3"; "iqr"; "sum"; "range" ]
  | Boolean =>
      [ "type"; "count"; "null_count"; "null_percentage"; "unique_count";
        "duplicate_count"; "true_count"; "false_count"; "true_percentage";
        "false_percentage" ]
  | String_ =>
      [ "type"; "count"; "null_count"; "null_percentage"; "empty_count";
        "unique_count"; "duplicate_count"; "min_length"; "max_length";
        "mean_length"; "top_frequencies" ]
  | Datetime =>
      [ "type"; "count"; "null_count"; "null_percentage"; "unique_count";
        "duplicate_count"; "min"; "max"; "range" ]
  end.

(** The first non-null value of a column, if any. *)
Definition first_value (s : Series) : option scalar :=
  hd_error (present (pd.values s)).

(** ** The display *)

(** What an f-string prints for a float, a timestamp, a duration, a
    dictionary and a Series: left open, like the rendering of cells. *)
Class Console := {
  format_float : npfloat -> string;
  format_timestamp : Z -> string;
  format_timedelta : Z -> string;
  format_dict : list (string * Z) -> string;
  format_series : list (string * Z) -> string
}.

(** [f"{value}"] *)
Definition py_format {console : Console} (value : pyval) : string :=
  match value with
  | PNone => "None"
  | PStr s => s
  | PInt n => digits n
  | PFloat x => format_float x
  | PTimestamp t => format_timestamp t
  | PTimedelta d => format_timedelta d
  | PNaT => "NaT"
  | PDict d => format_dict d
  | PSeries items => format_series items
  end.

Definition newline : string := String (ascii_of_nat 10) EmptyString.

(** [s * n] on a string. *)
Fixpoint str_times (s : string) (n : nat) : string :=
  match n with
  | O => ""
  | S n' => s ++ str_times s n'
  end.

(** The standard output: the arguments of the calls to [print], in
    order. *)
Definition stdout := list string.

Definition print (line : string) (out : stdout) : stdout :=
  (out ++ [line])%list.

(** The body of the inner loop of [display_profile], lines 263-276, for a
    key other than ['type'].  No value of a record is a list, so the
    branch that truncates lists has no counterpart. *)
Definition display_value {console : Console} (key : string) (value : pyval)
  (out : stdout) : stdout :=
  match value with
  | PTimestamp _ | PTimedelta _ =>
      print ("  " ++ key ++ ": " ++ py_format value) out
  | PDict d =>
      fold_left
        (fun out entry =>
           print ("    " ++ fst entry ++ ": " ++ py_format (PInt (snd entry)))
             out)
        d (print ("  " ++ key ++ ":") out)
  | _ => print ("  " ++ key ++ ": " ++ py_format value) out
  end.

(** The inner loop of [display_profile], lines 262-276. *)
Definition display_stats {console : Console} (stats : record) (out : stdout)
  : stdout :=
  fold_left
    (fun out item =>
       if String.eqb (fst item) "type" then out
       else display_value (fst item) (snd item) out)
    stats out.

(** The body of the outer loop, lines 258-276: the output and the
    exception that interrupted it, if any.  [stats['type']] raises
    [KeyError] when the key is missing. *)
Definition display_column {console : Console} (column : string)
  (stats : record) (out : stdout) : stdout * option exn :=
  let out := print (newline ++ str_times "=" 50) out in
  match dict_get "type" stats with
  | None => (out, Some KeyError)
  | Some kind =>
      let out :=
        print ("Column: " ++ column ++ " (Type: " ++ py_format kind ++ ")")
          out in
      let out := print (str_times "=" 50) out in
      (display_stats stats out, None)
  end.

Fixpoint display_items {console : Console} (items : dict record)
  (out : stdout) : stdout * option exn :=
  match items with
  | [] => (out, None)
  | (column, stats) :: rest =>
      match display_column column stats out with
      | (out', None) => display_items rest out'
      | interrupted => interrupted
      end
  end.

(** [display_profile], lines 253-276. *)
Definition display_profile {console : Console} (self : JProfile)
  : stdout * option exn :=
  display_items (results self) [].

(** A console to run the display on. *)
Definition plain_console : Console := {|
  format_float := fun x =>
    match x with
    | NaN => "nan"
    | Fin q => @str_float plain_pandas q
    | SqrtOf q => "sqrt(" ++ @str_float plain_pandas q ++ ")"
    end;
  format_timestamp := @str_timestamp plain_pandas;
  format_timedelta := @str_timedelta plain_pandas;
  format_dict := fun d => "{...}";
  format_series := fun items => "Series(...)"
|}.

(** The number of calls to [print] for a column of the given kind whose
    mapping of frequencies has [top] entries. *)
Definition printed_lines (k : Kind) (top : nat) : nat :=
  match k with
  | Numeric => 19
  | Boolean => 12
  | String_ => 13 + top
  | Datetime => 11
  end.

(** The header line of a column. *)
Definition header_line (column kind : string) : string :=
  "Column: " ++ column ++ " (Type: " ++ kind ++ ")".

(** ** Bounds on the counts *)

(** The distinct values are at most as many as the non-null values, at
    least one when there is a non-null value, and the duplicates are
    what is left. *)
Definition count_bounds (r : record) : Prop :=
  exists count unique_count duplicate_count,
    dict_get "count" r = Some (PInt count) /\
    dict_get "unique_count" r = Some (PInt unique_count) /\
    dict_get "duplicate_count" r = Some (PInt duplicate_count) /\
    0 <= unique_count <= count /\
    0 <= duplicate_count /\
    (0 < count -> 1 <= unique_count /\ duplicate_count < count).

(** ** The profile as a function of the frame *)

(** The record of a column: what the loop of [_analyze] stores for it. *)
Definition record_of {pandas : Pandas} (s : Series) : record :=
  match summarize s with
  | Ok (Some r) => r
  | _ => []
  end.

(** The profile of a frame, column by column. *)
Definition profile_of {pandas : Pandas} (frame : DataFrame) : dict record :=
  map (fun c => (fst c, record_of (snd c))) frame.

(** The number of lines [display_profile] prints for a value. *)
Definition lines_of_value (value : pyval) : nat :=
  match value with
  | PDict d => 1 + List.length d
  | _ => 1
  end.

(** The number of lines it prints for the metrics of a record. *)
Definition metric_lines (stats : record) : nat :=
  list_sum
    (map (fun item =>
            if String.eqb (fst item) "type" then 0%nat
            else lines_of_value (snd item))
       stats).

(** The number of lines it prints for a column: three of header, one per
    metric, and one more per entry of the mapping of frequencies. *)
Definition column_lines {pandas : Pandas} (s : Series) : nat :=
  let kind := _determine_type s in
  if String.eqb kind "numeric" then 19
  else if String.eqb kind "boolean" then 12
  else if String.eqb kind "datetime" then 11
  else 13 + Nat.min 5 (Z.to_nat (pd.str_nunique (pd.astype_str (pd.dropna s)))).

(** A record with the key ['type']. *)
Definition has_type (item : string * record) : Prop :=
  dict_get "type" (snd item) <> None.

(** A header line of the display. *)
Definition is_header (line : string) : bool := String.prefix "Column: " line.

(** A value printed on one line. *)
Definition flat (value : pyval) : Prop := lines_of_value value = 1%nat.

(** ** Relations between the numeric statistics *)

(** What the extremes and the spread fields of a numeric record are to
    the non-null values [values] of the column.  Mean and sum are left
    out: on float64 they are rounded, and a rounded mean can lie outside
    the extremes. *)
Definition spread_summary (values : list Q) (r : record) : Prop :=
  exists mn mx,
    dict_get "min" r = Some (PFloat (Fin mn)) /\
    dict_get "max" r = Some (PFloat (Fin mx)) /\
    In mn values /\
    In mx values /\
    Forall (fun v => mn <= v /\ v <= mx)%Q values /\
    ((2 <= List.length values)%nat ->
     exists v,
       dict_get "variance" r = Some (PFloat (Fin v)) /\
       dict_get "std" r = Some (PFloat (SqrtOf v)) /\
       (0 <= v)%Q).

(** ** Ranges of the boolean statistics *)

Definition boolean_bounds (r : record) : Prop :=
  exists count trues falses unique_count,
    dict_get "count" r = Some (PInt count) /\
    dict_get "true_count" r = Some (PInt trues) /\
    dict_get "false_count" r = Some (PInt falses) /\
    dict_get "unique_count" r = Some (PInt unique_count) /\
    0 <= trues <= count /\
    0 <= falses <= count /\
    0 <= unique_count <= 2 /\
    (0 < count ->
     exists tp fp,
       dict_get "true_percentage" r = Some (PFloat (Fin tp)) /\
       dict_get "false_percentage" r = Some (PFloat (Fin fp)) /\
       (0 <= tp /\ tp <= 100)%Q /\
       (0 <= fp /\ fp <= 100)%Q).

(** [astype(bool)] on a cell of a numeric column. *)
Definition truth (x : Q) : bool := negb (Qeq_bool x 0).

(** How many of the two booleans the scan for distinct values has seen. *)
Definition seen_count (seen : list scalar) : nat :=
  ((if existsb (py_eqb (SBool true)) seen then 1 else 0)
   + (if existsb (py_eqb (SBool false)) seen then 1 else 0))%nat.


(** ** The mapping of frequencies and the lengths *)

(** The sum of the counts of a mapping of frequencies. *)
Definition frequency_total (top : list (string * Z)) : Z :=
  fold_right Z.add 0 (map snd top).

(** What the mapping of frequencies of a string record is to its counts. *)
Definition frequency_cover (r : record) : Prop :=
  exists top count unique_count,
    dict_get "top_frequencies" r = Some (PDict top) /\
    dict_get "count" r = Some (PInt count) /\
    dict_get "unique_count" r = Some (PInt unique_count) /\
    List.length top = Nat.min 5 (Z.to_nat unique_count) /\
    frequency_total top <= count /\
    (unique_count <= 5 -> frequency_total top = count).

(** A collaborator whose [str.len()] measures every string. *)
Definition measures (pandas : Pandas) : Prop :=
  forall l, str_len l = Ok (map (fun s => Z.of_nat (String.length s)) l).

(** What the length fields of a string record are to one another and to
    empty_count. *)
Definition length_summary (r : record) : Prop :=
  exists mn mx mean empty_count count,
    dict_get "min_length" r = Some (PInt mn) /\
    dict_get "max_length" r = Some (PInt mx) /\
    dict_get "mean_length" r = Some (PFloat (Fin mean)) /\
    dict_get "empty_count" r = Some (PInt empty_count) /\
    dict_get "count" r = Some (PInt count) /\
    0 <= mn /\
    (inject_Z mn <= mean /\ mean <= inject_Z mx)%Q /\
    0 <= empty_count <= count /\
    (mn = 0 <-> 0 < empty_count).

(** ** Extremes of a datetime column *)

(** What min, max and range of a datetime record are to the non-null
    timestamps [values] of the column: the range is a duration that
    pandas represents. *)
Definition timestamp_summary (values : list Z) (r : record) : Prop :=
  exists mn mx,
    dict_get "min" r = Some (PTimestamp mn) /\
    dict_get "max" r = Some (PTimestamp mx) /\
    In mn values /\
    In mx values /\
    Forall (fun v => mn <= v <= mx) values /\
    ((2 <= List.length values)%nat ->
     dict_get "range" r = Some (PTimedelta (mx - mn)) /\
     0 <= mx - mn <= timedelta_max) /\
    ((List.length values < 2)%nat -> dict_get "range" r = Some PNone).

(** ** Storage types *)

Inductive dtype :=
| numeric_dtype | bool_dtype | datetime64_dtype | timedelta64_dtype
| object_dtype | datetime64tz_dtype (tz : string).

Definition dtype_of (s : Series) : dtype :=
  match s with
  | NumericSeries _ => numeric_dtype
  | BoolSeries _ => bool_dtype
  | DatetimeSeries _ => datetime64_dtype
  | TimedeltaSeries _ => timedelta64_dtype
  | ObjectSeries _ => object_dtype
  | DatetimeTZSeries tz _ => datetime64tz_dtype tz
  end.

(** ** Nulls *)

(** What null_count and null_percentage of a record are to the column. *)
Definition null_bounds (s : Series) (r : record) : Prop :=
  exists null_count,
    dict_get "null_count" r = Some (PInt null_count) /\
    0 <= null_count <= pd.len s /\
    (pd.len s = 0 -> dict_get "null_percentage" r = Some (PInt 0)) /\
    (pd.len s <> 0 ->
     exists q,
       dict_get "null_percentage" r = Some (PFloat (Fin q)) /\
       (0 <= q /\ q <= 100)%Q).

(** The statistics of the numeric summarizer that are None for a column
    without a non-null value. *)
Definition numeric_statistics : list string :=
  [ "min"; "max"; "mean"; "median"; "std"; "variance"; "q1"; "q3"; "iqr";
    "sum"; "range" ].

(** What the quartiles of a numeric record are when every non-null value
    of the column equals [v]. *)
Definition constant_summary (v : Q) (r : record) : Prop :=
  exists mn q1 med q3 mx iqr,
    dict_get "min" r = Some (PFloat (Fin mn)) /\
    dict_get "q1" r = Some (PFloat (Fin q1)) /\
    dict_get "median" r = Some (PFloat (Fin med)) /\
    dict_get "q3" r = Some (PFloat (Fin q3)) /\
    dict_get "max" r = Some (PFloat (Fin mx)) /\
    dict_get "iqr" r = Some (PFloat (Fin iqr)) /\
    (mn == v /\ q1 == v /\ med == v /\ q3 == v /\ mx == v /\ iqr == 0)%Q.

(** * Properties *)

(** ** Cells and masks *)

Lemma present_filter_not_null {A} (xs : list (option A)) :
  present (filter not_null xs) = present xs.
Proof.
  induction xs as [|[x|] xs IH]; simpl; [reflexivity| |assumption].
  now rewrite IH.
Qed.

Lemma present_map {A B} (f : A -> B) (xs : list (option A)) :
  present (map (option_map f) xs) = map f (present xs).
Proof.
  induction xs as [|[x|] xs IH]; simpl; [reflexivity| |assumption].
  now rewrite IH.
Qed.

Lemma values_dropna s :
  present (pd.values (pd.dropna s)) = present (pd.values s).
Proof.
  destruct s; simpl; rewrite ?present_map;
    now rewrite present_filter_not_null.
Qed.

Lemma present_length {A} (xs : list (option A)) :
  List.length (present xs) = List.length (filter not_null xs).
Proof.
  induction xs as [|[x|] xs IH]; simpl; auto.
Qed.

Lemma filter_not_null_present_id {A} (xs : list (option A)) :
  filter not_null xs = map Some (present xs).
Proof.
  induction xs as [|[x|] xs IH]; simpl; auto. now rewrite IH.
Qed.

Lemma values_dropna_Some s :
  pd.values (pd.dropna s) = map Some (present (pd.values s)).
Proof.
  destruct s; simpl; rewrite ?present_map, filter_not_null_present_id;
    now rewrite ?map_map.
Qed.

Lemma len_dropna s :
  pd.len (pd.dropna s) = Z.of_nat (List.length (present (pd.values s))).
Proof.
  unfold pd.len. now rewrite values_dropna_Some, length_map.
Qed.

Lemma null_count_plus_present {A} (xs : list (option A)) :
  (List.length (filter (fun b : bool => b) (map is_null xs))
   + List.length (present xs) = List.length xs)%nat.
Proof.
  induction xs as [|[x|] xs IH]; simpl; lia.
Qed.

Lemma all_null_present {A} (xs : list (option A)) :
  forallb (fun b : bool => b) (map is_null xs) = true <-> present xs = [].
Proof.
  induction xs as [|[x|] xs IH]; simpl.
  - tauto.
  - split; discriminate.
  - exact IH.
Qed.

Lemma degenerate_present s :
  degenerate s <-> present (pd.values s) = [].
Proof.
  unfold degenerate. split.
  - intros [H | H].
    + now rewrite H.
    + induction H as [|c l Hc _ IH]; [reflexivity|]. now subst c.
  - intros H. right.
    induction (pd.values s) as [|[x|] l IH]; simpl in *;
      [constructor | discriminate | constructor; auto].
Qed.

Lemma degenerate_test s :
  pd.empty s || pd.mask_all (pd.isna s) = true <-> degenerate s.
Proof.
  rewrite degenerate_present.
  unfold pd.empty, pd.len, pd.mask_all, pd.isna.
  rewrite orb_true_iff, all_null_present, Z.eqb_eq.
  split; [intros [H | H]; auto | auto].
  destruct (pd.values s); [reflexivity | discriminate].
Qed.

(** ** Distinct values *)

Lemma num_of_bool_eq a b :
  (num_of_bool a == num_of_bool b)%Q -> a = b.
Proof. destruct a, b; simpl; intros H; try reflexivity; discriminate H. Qed.

Lemma py_eqb_trans x y z :
  py_eqb x y = true -> py_eqb y z = true -> py_eqb x z = true.
Proof.
  destruct x, y, z; simpl; try discriminate;
    rewrite ?Qeq_bool_iff, ?eqb_true_iff, ?String.eqb_eq, ?Z.eqb_eq;
    intros H1 H2; try congruence.
  all: try (now rewrite H1).
  all: try (now rewrite <- H2).
  all: try (apply num_of_bool_eq; now rewrite <- H1).
  apply num_of_bool_eq. now rewrite H1.
Qed.

Lemma unique_from_In {A} (eqb : A -> A -> bool) l : forall seen x,
  In x (pd.unique_from eqb seen l) -> In x l.
Proof.
  induction l as [|a l IH]; simpl; intros seen x H; [assumption|].
  destruct (existsb (eqb a) seen).
  - right. eauto.
  - destruct H as [H | H]; [now left | right; eauto].
Qed.

Lemma unique_from_length {A} (eqb : A -> A -> bool) l : forall seen,
  (List.length (pd.unique_from eqb seen l) <= List.length l)%nat.
Proof.
  induction l as [|a l IH]; simpl; intros seen; [lia|].
  destruct (existsb (eqb a) seen); simpl.
  - specialize (IH seen). lia.
  - specialize (IH (a :: seen)). lia.
Qed.

(** A test that cannot tell equal values apart holds of all the values
    when it holds of the distinct ones. *)
Lemma forallb_unique_from {A} (eqb : A -> A -> bool) (P : A -> bool) :
  (forall x y, eqb x y = true -> P y = true -> P x = true) ->
  forall l seen,
    forallb P seen = true ->
    (forallb P (pd.unique_from eqb seen l) = true <-> forallb P l = true).
Proof.
  intros compat. induction l as [|a l IH]; simpl; intros seen Hseen.
  - tauto.
  - destruct (existsb (eqb a) seen) eqn:E.
    + rewrite (IH seen Hseen), andb_true_iff.
      apply existsb_exists in E. destruct E as (y & Hy & Hay).
      assert (P a = true).
      { apply (compat a y Hay). rewrite forallb_forall in Hseen. auto. }
      tauto.
    + simpl. rewrite !andb_true_iff. split.
      * intros [Ha H]. split; [assumption|].
        apply (IH (a :: seen)); [simpl; now rewrite Ha | assumption].
      * intros [Ha H]. split; [assumption|].
        apply (IH (a :: seen)); [simpl; now rewrite Ha | assumption].
Qed.

Lemma flag_test_compat x y :
  py_eqb x y = true ->
  existsb (py_eqb y) flag_values = true ->
  existsb (py_eqb x) flag_values = true.
Proof.
  intros Hxy H. apply existsb_exists in H. destruct H as (z & Hz & Hyz).
  apply existsb_exists. exists z. split; [assumption|].
  eapply py_eqb_trans; eassumption.
Qed.

Lemma flag_test_num x :
  existsb (py_eqb (SNum x)) flag_values = true <-> zero_or_one x.
Proof.
  unfold zero_or_one. simpl.
  rewrite !orb_true_iff, !Qeq_bool_iff. simpl.
  intuition discriminate.
Qed.

Lemma issubset_numbers (xs : list Q) :
  issubset (pd.unique_from py_eqb [] (map SNum xs)) flag_values = true
  <-> Forall zero_or_one xs.
Proof.
  unfold issubset.
  rewrite (forallb_unique_from py_eqb _ flag_test_compat _ [] eq_refl).
  rewrite forallb_forall, Forall_forall. split.
  - intros H x Hx. apply flag_test_num, H, in_map, Hx.
  - intros H y Hy. apply in_map_iff in Hy. destruct Hy as (x & <- & Hx).
    apply flag_test_num, H, Hx.
Qed.

Lemma issubset_bools (bs : list bool) :
  issubset (pd.unique_from py_eqb [] (map SBool bs)) flag_values = true.
Proof.
  unfold issubset.
  rewrite (forallb_unique_from py_eqb _ flag_test_compat _ [] eq_refl).
  apply forallb_forall. intros y Hy.
  apply in_map_iff in Hy. destruct Hy as ([|] & <- & _); reflexivity.
Qed.

(** ** The classifier *)

Lemma tag_inj k k' : tag k = tag k' -> k = k'.
Proof. destruct k, k'; simpl; intros H; try reflexivity; discriminate H. Qed.

Lemma determine_type_degenerate s :
  degenerate s -> _determine_type s = "string".
Proof.
  intros H. apply degenerate_test in H.
  unfold _determine_type. now rewrite H.
Qed.

Lemma determine_type_regular s :
  ~ degenerate s ->
  _determine_type s =
    if pd.is_numeric_dtype s then
      if issubset (pd.unique (pd.dropna s)) flag_values
      then "boolean" else "numeric"
    else if pd.is_bool_dtype s then "boolean"
    else if pd.is_datetime64_dtype s then "datetime"
    else "string".
Proof.
  intros H. unfold _determine_type.
  destruct (pd.empty s || pd.mask_all (pd.isna s)) eqn:E; [|reflexivity].
  apply degenerate_test in E. contradiction.
Qed.

Lemma determine_type_numeric xs :
  ~ degenerate (NumericSeries xs) ->
  _determine_type (NumericSeries xs) =
    if issubset (pd.unique_from py_eqb [] (map SNum (present xs))) flag_values
    then "boolean" else "numeric".
Proof.
  intros H. rewrite (determine_type_regular H).
  cbn [pd.is_numeric_dtype]. unfold pd.unique.
  rewrite values_dropna. cbn [pd.values].
  now rewrite present_map.
Qed.

Lemma determine_type_sound s k :
  decides s k -> _determine_type s = tag k.
Proof.
  intros H.
  destruct H as [s H | xs H F | xs H F | xs H | xs H | xs H | xs H | tz xs H].
  - now apply determine_type_degenerate.
  - rewrite (determine_type_numeric H).
    apply issubset_numbers in F. now rewrite F.
  - rewrite (determine_type_numeric H).
    destruct (issubset _ flag_values) eqn:E; [|reflexivity].
    apply issubset_numbers in E. contradiction.
  - rewrite (determine_type_regular H).
    cbn [pd.is_numeric_dtype]. unfold pd.unique.
    rewrite values_dropna. cbn [pd.values].
    now rewrite present_map, issubset_bools.
  - now rewrite (determine_type_regular H).
  - now rewrite (determine_type_regular H).
  - now rewrite (determine_type_regular H).
  - now rewrite (determine_type_regular H).
Qed.

Lemma degenerate_dec s : {degenerate s} + {~ degenerate s}.
Proof.
  destruct (pd.empty s || pd.mask_all (pd.isna s)) eqn:E.
  - left. now apply degenerate_test.
  - right. intros H. apply degenerate_test in H. congruence.
Qed.

Lemma decides_total s : exists k, decides s k.
Proof.
  destruct (degenerate_dec s) as [H | H].
  - exists String_. now constructor.
  - destruct s.
    + destruct (issubset (pd.unique_from py_eqb [] (map SNum (present xs)))
                  flag_values) eqn:E.
      * exists Boolean. constructor; [assumption|].
        now apply issubset_numbers.
      * exists Numeric. constructor; [assumption|].
        intros F. apply issubset_numbers in F. congruence.
    + exists Boolean. now constructor.
    + exists Datetime. now constructor.
    + exists String_. now constructor.
    + exists String_. now constructor.
    + exists String_. now constructor.
Qed.

Lemma decides_iff s k : decides s k <-> _determine_type s = tag k.
Proof.
  split; [apply determine_type_sound|].
  intros E. destruct (decides_total s) as (k' & Hk).
  pose proof (determine_type_sound Hk) as E'.
  assert (k = k') as -> by (apply tag_inj; congruence).
  assumption.
Qed.

(** The rule of the specification gives every column one kind. *)
Lemma classified_functional s k k' :
  classified s k -> classified s k' -> k = k'.
Proof.
  intros H H'.
  destruct H as [s H | xs H F | xs H F | xs H | s H T | xs H];
    inversion H'; subst; try reflexivity; try contradiction;
    try (exfalso; simpl in *; tauto).
Qed.

(** Where the column is not one that the test misses, the rule of the
    specification and the decisions of the code are the same relation. *)
Lemma classified_decides s k :
  ~ missed s -> (classified s k <-> decides s k).
Proof.
  unfold missed. intros M. split; intros H.
  - destruct H as [s H | xs H F | xs H F | xs H | s H T | xs H];
      try (constructor; assumption).
    destruct s; simpl in T; try contradiction;
      [now constructor | exfalso; tauto | exfalso; tauto].
  - destruct H as [s H | xs H F | xs H F | xs H | xs H | xs H | xs H
                   | tz xs H];
      try (constructor; assumption).
    + apply classified_temporal; [assumption | exact I].
    + exfalso. tauto.
    + exfalso. tauto.
Qed.

Lemma missed_string s : missed s -> _determine_type s = "string".
Proof.
  intros [H T]. destruct s; simpl in T; try contradiction;
    now rewrite (determine_type_regular H).
Qed.

Lemma missed_datetime s : missed s -> classified s Datetime.
Proof.
  intros [H T]. apply classified_temporal; [assumption|].
  destruct s; simpl in *; tauto.
Qed.

Lemma duration_cells_regular : ~ degenerate (TimedeltaSeries duration_cells).
Proof. rewrite degenerate_present. discriminate. Qed.

(** C1. [_determine_type] is a total function that gives every column
    exactly one of the four kinds, and so does the priority order of the
    specification.  The two agree on every column except the date/time
    columns that [is_datetime64_dtype] does not accept: a column of
    durations (timedelta64) or of timestamps with a time zone that has a
    non-null value is Datetime by the specification and 'string' by the
    code.  So it is for the column of the two durations of one and two
    days, and for a column of one timestamp in UTC. *)
Theorem determine_type_misses_durations (s : Series) :
  (exists k, _determine_type s = tag k /\
             forall k', _determine_type s = tag k' <-> k' = k) /\
  (exists k, classified s k /\ forall k', classified s k' -> k' = k) /\
  (~ missed s -> forall k, classified s k <-> _determine_type s = tag k) /\
  (missed s -> classified s Datetime /\ _determine_type s = tag String_) /\
  (classified (TimedeltaSeries duration_cells) Datetime /\
   _determine_type (TimedeltaSeries duration_cells) = "string") /\
  (classified (DatetimeTZSeries "UTC" [Some 0]) Datetime /\
   _determine_type (DatetimeTZSeries "UTC" [Some 0]) = "string").
Proof.
  destruct (decides_total s) as (k & Hk).
  pose proof (determine_type_sound Hk) as E.
  split; [|split; [|split; [|split; [|split]]]].
  - exists k. split; [assumption|]. intros k'. split.
    + intros E'. apply tag_inj. congruence.
    + intros ->. assumption.
  - destruct (degenerate_dec s) as [D | D].
    + exists String_. split; [now constructor|].
      intros k' H'. eapply classified_functional; [eassumption|].
      now constructor.
    + destruct s;
        try (exists Datetime; split;
             [apply classified_temporal; [assumption | exact I]
             | intros k' H'; eapply classified_functional; [eassumption|];
               apply classified_temporal; [assumption | exact I]]).
      * exists k. assert (classified (NumericSeries xs) k) as C.
        { apply classified_decides; [|assumption].
          unfold missed. tauto. }
        split; [assumption|].
        intros k' H'. eapply classified_functional; eassumption.
      * exists k. assert (classified (BoolSeries xs) k) as C.
        { apply classified_decides; [|assumption].
          unfold missed. tauto. }
        split; [assumption|].
        intros k' H'. eapply classified_functional; eassumption.
      * exists k. assert (classified (ObjectSeries xs) k) as C.
        { apply classified_decides; [|assumption].
          unfold missed. tauto. }
        split; [assumption|].
        intros k' H'. eapply classified_functional; eassumption.
  - intros M k'. rewrite (classified_decides k' M). apply decides_iff.
  - intros M. split; [now apply missed_datetime | now apply missed_string].
  - split; [apply classified_temporal;
            [apply duration_cells_regular | exact I] | reflexivity].
  - split; [apply classified_temporal; [|exact I] | reflexivity].
    rewrite degenerate_present. discriminate.
Qed.

(** ** What every summary record shares *)

Ltac invert_binds H :=
  repeat match type of H with
         | bind ?m _ = Ok _ =>
             let E := fresh "E" in
             destruct m eqn:E; cbn [bind] in H; [|discriminate H]
         end.

Lemma null_count_plus_count s :
  pd.mask_sum (pd.isna s) + Z.of_nat (List.length (present (pd.values s)))
  = pd.len s.
Proof.
  unfold pd.mask_sum, pd.isna, pd.len.
  rewrite <- (null_count_plus_present (pd.values s)). lia.
Qed.

Lemma percentage_zero part total :
  total = 0 -> percentage part total = PInt 0.
Proof. intros ->. reflexivity. Qed.

Lemma percentage_positive part total :
  0 <= total -> total <> 0 ->
  percentage part total
  = PFloat (Fin (inject_Z part / inject_Z total * 100)).
Proof.
  intros H0 H. unfold percentage.
  destruct (total >? 0) eqn:E; [reflexivity|].
  rewrite Z.gtb_ltb in E. apply Z.ltb_ge in E. lia.
Qed.

Lemma len_nonneg s : 0 <= pd.len s.
Proof. unfold pd.len. lia. Qed.

Lemma shared_fields s r count unique_count :
  dict_get "count" r = Some (PInt count) ->
  dict_get "null_count" r = Some (PInt (pd.mask_sum (pd.isna s))) ->
  dict_get "unique_count" r = Some (PInt unique_count) ->
  dict_get "duplicate_count" r = Some (PInt (count - unique_count)) ->
  dict_get "null_percentage" r
  = Some (percentage (pd.mask_sum (pd.isna s)) (pd.len s)) ->
  count = Z.of_nat (List.length (present (pd.values s))) ->
  shared_invariants s r.
Proof.
  intros Hc Hn Hu Hd Hp E.
  exists count, (pd.mask_sum (pd.isna s)), unique_count, (count - unique_count).
  repeat split; try assumption.
  - rewrite E. apply null_count_plus_count.
  - intros Z0. now rewrite Hp, percentage_zero.
  - intros NZ. rewrite Hp, percentage_positive; auto using len_nonneg.
  - lia.
Qed.

Lemma analyze_numeric_shared s r :
  _analyze_numeric s = Ok r -> shared_invariants s r.
Proof.
  unfold _analyze_numeric. intros H. invert_binds H.
  injection H as <-.
  apply shared_fields with (count := pd.len (pd.dropna s))
                           (unique_count := pd.nunique (pd.dropna s));
    try reflexivity.
  apply len_dropna.
Qed.

Lemma len_astype_bool s b :
  pd.astype_bool s = Ok b -> pd.len b = pd.len s.
Proof.
  destruct s; simpl; intros H; try discriminate H; injection H as <-;
    unfold pd.len; simpl; now rewrite ?length_map.
Qed.

Lemma analyze_boolean_shared s r :
  _analyze_boolean s = Ok r -> shared_invariants s r.
Proof.
  unfold _analyze_boolean. intros H. invert_binds H.
  injection H as <-.
  apply shared_fields with (count := pd.len a)
                           (unique_count := pd.nunique a);
    try reflexivity.
  rewrite <- len_dropna.
  destruct (pd.is_numeric_dtype s).
  - now apply len_astype_bool.
  - now injection E as <-.
Qed.

Lemma analyze_datetime_shared s r :
  _analyze_datetime s = Ok r -> shared_invariants s r.
Proof.
  unfold _analyze_datetime. intros H. invert_binds H.
  destruct (negb (pd.empty (pd.dropna s))).
  - invert_binds H. destruct (is_Timedelta a2).
    + invert_binds H. injection H as <-.
      apply shared_fields with (count := pd.len (pd.dropna s))
                               (unique_count := pd.nunique (pd.dropna s));
        try reflexivity.
      apply len_dropna.
    + injection H as <-.
      apply shared_fields with (count := pd.len (pd.dropna s))
                               (unique_count := pd.nunique (pd.dropna s));
        try reflexivity.
      apply len_dropna.
  - injection H as <-.
    apply shared_fields with (count := pd.len (pd.dropna s))
                             (unique_count := pd.nunique (pd.dropna s));
      try reflexivity.
    apply len_dropna.
Qed.

Lemma astype_str_length {pandas : Pandas} s :
  List.length (pd.astype_str (pd.dropna s))
  = List.length (present (pd.values s)).
Proof. unfold pd.astype_str. now rewrite length_map, values_dropna. Qed.

Lemma analyze_string_shared {pandas : Pandas} s r :
  _analyze_string s = Ok r -> shared_invariants s r.
Proof.
  unfold _analyze_string. intros E.
  destruct (if negb (List.length (pd.astype_str (pd.dropna s)) =? 0)%nat
            then _ else _) as [[mn mx] me].
  injection E as <-.
  apply shared_fields
    with (count := Z.of_nat (List.length (pd.astype_str (pd.dropna s))))
         (unique_count := pd.str_nunique (pd.astype_str (pd.dropna s)));
    try reflexivity.
  now rewrite astype_str_length.
Qed.

(** ** The numeric summarizer on numeric storage *)

Lemma empty_dropna s :
  pd.empty (pd.dropna s)
  = (List.length (present (pd.values s)) =? 0)%nat.
Proof.
  unfold pd.empty. rewrite len_dropna.
  destruct (present (pd.values s)); reflexivity.
Qed.

Lemma numeric_present xs :
  present (pd.values (NumericSeries xs)) = map SNum (present xs).
Proof. apply present_map. Qed.

Lemma numeric_nonempty xs x t :
  present xs = x :: t ->
  pd.empty (pd.dropna (NumericSeries xs)) = false.
Proof.
  intros H. now rewrite empty_dropna, numeric_present, H.
Qed.

Lemma numeric_len xs :
  pd.len (pd.dropna (NumericSeries xs))
  = Z.of_nat (List.length (present xs)).
Proof. now rewrite len_dropna, numeric_present, length_map. Qed.

(** The record of a numeric column that has a non-null value. *)
Lemma analyze_numeric_nonempty xs x t :
  present xs = x :: t ->
  let s := NumericSeries xs in
  let l := x :: t in
  _analyze_numeric s =
  Ok [ ("type", PStr "numeric");
       ("count", PInt (pd.len (pd.dropna s)));
       ("null_count", PInt (pd.mask_sum (pd.isna s)));
       ("null_percentage", percentage (pd.mask_sum (pd.isna s)) (pd.len s));
       ("unique_count", PInt (pd.nunique (pd.dropna s)));
       ("duplicate_count",
         PInt (pd.len (pd.dropna s) - pd.nunique (pd.dropna s)));
       ("min", PFloat (Fin (pd.qmin x t)));
       ("max", PFloat (Fin (pd.qmax x t)));
       ("mean", PFloat (Fin (pd.qmean l)));
       ("median", PFloat (Fin (pd.qmedian l)));
       ("std", PFloat (pd.qstd l));
       ("variance", PFloat (pd.qvar l));
       ("q1", PFloat (Fin (pd.qquantile (1 # 4) l)));
       ("q3", PFloat (Fin (pd.qquantile (3 # 4) l)));
       ("iqr", PFloat (Fin (pd.qquantile (3 # 4) l
                            - pd.qquantile (1 # 4) l)));
       ("sum", PFloat (Fin (pd.qsum l)));
       ("range", if (List.length t =? 0)%nat then PNone
                 else PFloat (Fin (pd.qmax x t - pd.qmin x t))) ].
Proof.
  intros H s l. unfold _analyze_numeric, unless_empty.
  assert (Hemp : pd.empty (pd.dropna s) = false)
    by apply (numeric_nonempty xs H).
  assert (Hmin : pd.min (pd.dropna s) = Ok (PFloat (Fin (pd.qmin x t))))
    by (unfold s; cbn [pd.dropna pd.min];
        now rewrite present_filter_not_null, H).
  assert (Hmax : pd.max (pd.dropna s) = Ok (PFloat (Fin (pd.qmax x t))))
    by (unfold s; cbn [pd.dropna pd.max];
        now rewrite present_filter_not_null, H).
  assert (Hmean : pd.mean (pd.dropna s) = Ok (PFloat (Fin (pd.qmean l))))
    by (unfold s; cbn [pd.dropna pd.mean];
        now rewrite present_filter_not_null, H).
  assert (Hmed : pd.median (pd.dropna s) = Ok (PFloat (Fin (pd.qmedian l))))
    by (unfold s; cbn [pd.dropna pd.median];
        now rewrite present_filter_not_null, H).
  assert (Hstd : pd.std (pd.dropna s) = Ok (PFloat (pd.qstd l)))
    by (unfold s; cbn [pd.dropna pd.std];
        now rewrite present_filter_not_null, H).
  assert (Hvar : pd.var (pd.dropna s) = Ok (PFloat (pd.qvar l)))
    by (unfold s; cbn [pd.dropna pd.var];
        now rewrite present_filter_not_null, H).
  assert (Hq : forall q, pd.quantile q (pd.dropna s)
                         = Ok (PFloat (Fin (pd.qquantile q l))))
    by (intros q; unfold s; cbn [pd.dropna pd.quantile];
        now rewrite present_filter_not_null, H).
  assert (Hsum : pd.sum (pd.dropna s) = Ok (PFloat (Fin (pd.qsum l))))
    by (unfold s; cbn [pd.dropna pd.sum];
        now rewrite present_filter_not_null, H).
  assert (Hlen : (pd.len (pd.dropna s) >? 1)
                 = negb (List.length t =? 0)%nat).
  { unfold s. rewrite numeric_len, H. destruct t; [reflexivity|].
    cbn [List.length]. rewrite Z.gtb_ltb. apply Z.ltb_lt. lia. }
  rewrite Hemp, Hmin, Hmax, Hmean, Hmed, Hstd, Hvar, !Hq, Hsum, Hlen.
  cbn [bind py_sub as_number negb andb].
  destruct t; reflexivity.
Qed.

(** The record of a numeric column without a non-null value. *)
Lemma analyze_numeric_empty xs :
  present xs = [] ->
  let s := NumericSeries xs in
  _analyze_numeric s =
  Ok [ ("type", PStr "numeric");
       ("count", PInt (pd.len (pd.dropna s)));
       ("null_count", PInt (pd.mask_sum (pd.isna s)));
       ("null_percentage", percentage (pd.mask_sum (pd.isna s)) (pd.len s));
       ("unique_count", PInt (pd.nunique (pd.dropna s)));
       ("duplicate_count",
         PInt (pd.len (pd.dropna s) - pd.nunique (pd.dropna s)));
       ("min", PNone); ("max", PNone); ("mean", PNone); ("median", PNone);
       ("std", PNone); ("variance", PNone); ("q1", PNone); ("q3", PNone);
       ("iqr", PNone); ("sum", PNone); ("range", PNone) ].
Proof.
  intros H s. unfold _analyze_numeric, unless_empty.
  assert (E : pd.empty (pd.dropna s) = true)
    by (unfold s; now rewrite empty_dropna, numeric_present, H).
  rewrite E. reflexivity.
Qed.

Lemma analyze_numeric_total xs :
  exists r, _analyze_numeric (NumericSeries xs) = Ok r.
Proof.
  destruct (present xs) as [|x t] eqn:H.
  - eexists. exact (analyze_numeric_empty xs H).
  - eexists. exact (analyze_numeric_nonempty xs H).
Qed.

(** ** The boolean summarizer on numeric and bool storage *)

Lemma astype_bool_dropna s :
  pd.is_numeric_dtype s = true ->
  exists cells,
    pd.astype_bool (pd.dropna s) = Ok (BoolSeries cells) /\
    present cells = truth_values s /\
    List.length cells = List.length (truth_values s).
Proof.
  destruct s; try discriminate; intros _;
    cbn [pd.dropna pd.astype_bool truth_values].
  - eexists. split; [reflexivity|].
    rewrite present_map, present_filter_not_null. split; [reflexivity|].
    now rewrite filter_not_null_present_id, !length_map.
  - eexists. split; [reflexivity|].
    rewrite present_filter_not_null. split; [reflexivity|].
    now rewrite filter_not_null_present_id, !length_map.
Qed.

Lemma inject_Z_nonzero n : 0 < n -> Qeq_bool (inject_Z n) 0 = false.
Proof.
  intros H. destruct (Qeq_bool (inject_Z n) 0) eqn:E; [|reflexivity].
  apply Qeq_bool_iff in E. unfold Qeq in E. simpl in E. lia.
Qed.

(** The record of a column of numeric or bool storage. *)
Lemma analyze_boolean_flags s :
  pd.is_numeric_dtype s = true ->
  let n := Z.of_nat (List.length (truth_values s)) in
  let trues := count_true (truth_values s) in
  exists unique_count,
    _analyze_boolean s =
    Ok [ ("type", PStr "boolean");
         ("count", PInt n);
         ("null_count", PInt (pd.mask_sum (pd.isna s)));
         ("null_percentage",
           percentage (pd.mask_sum (pd.isna s)) (pd.len s));
         ("unique_count", PInt unique_count);
         ("duplicate_count", PInt (n - unique_count));
         ("true_count", PInt trues);
         ("false_count", PInt (n - trues));
         ("true_percentage",
           if n >? 0 then PFloat (Fin (inject_Z trues / inject_Z n * 100))
           else PInt 0);
         ("false_percentage",
           if n >? 0
           then PFloat (Fin (inject_Z (n - trues) / inject_Z n * 100))
           else PInt 0) ].
Proof.
  intros Hnum n trues.
  destruct (astype_bool_dropna s Hnum) as (cells & Hb & Hp & Hl).
  exists (pd.nunique (BoolSeries cells)).
  unfold _analyze_boolean. rewrite Hnum, Hb. cbn [bind pd.sum].
  rewrite Hp. fold (count_true (truth_values s)). fold trues.
  assert (Hlen : pd.len (BoolSeries cells) = n)
    by (unfold pd.len; cbn [pd.values]; now rewrite length_map, Hl).
  rewrite Hlen. cbn [py_sub bind].
  destruct (n >? 0) eqn:Hn; [|reflexivity].
  rewrite Z.gtb_ltb in Hn. apply Z.ltb_lt in Hn.
  unfold py_truediv. cbn [as_number].
  rewrite (inject_Z_nonzero Hn). reflexivity.
Qed.

(** ** The datetime summarizer on datetime64 storage *)

Lemma analyze_datetime_timestamps xs :
  let s := DatetimeSeries xs in
  exists min_ max_ range_,
    _analyze_datetime s =
    Ok [ ("type", PStr "datetime");
         ("count", PInt (pd.len (pd.dropna s)));
         ("null_count", PInt (pd.mask_sum (pd.isna s)));
         ("null_percentage",
           percentage (pd.mask_sum (pd.isna s)) (pd.len s));
         ("unique_count", PInt (pd.nunique (pd.dropna s)));
         ("duplicate_count",
           PInt (pd.len (pd.dropna s) - pd.nunique (pd.dropna s)));
         ("min", min_); ("max", max_); ("range", range_) ].
Proof.
  intros s. unfold _analyze_datetime, unless_empty.
  assert (Hmin : exists v, pd.min (pd.dropna s) = Ok v
                           /\ (v = PNaT \/ exists z, v = PTimestamp z)).
  { unfold s. cbn [pd.dropna pd.min].
    destruct (present (filter not_null xs)); eauto. }
  assert (Hmax : exists v, pd.max (pd.dropna s) = Ok v
                           /\ (v = PNaT \/ exists z, v = PTimestamp z)).
  { unfold s. cbn [pd.dropna pd.max].
    destruct (present (filter not_null xs)); eauto. }
  destruct Hmin as (mn & Hmin & Hmn), Hmax as (mx & Hmax & Hmx).
  rewrite Hmin, Hmax.
  destruct (pd.empty (pd.dropna s)) eqn:Hemp; cbn [negb andb bind].
  - eauto.
  - assert (Hpresent : exists z t, present xs = z :: t).
    { rewrite empty_dropna in Hemp. unfold s in Hemp. cbn [pd.values] in Hemp.
      rewrite present_map in Hemp.
      destruct (present xs) as [|z t]; [discriminate Hemp | eauto]. }
    destruct Hpresent as (z & t & Hz).
    assert (Hfirst : pd.iloc (pd.dropna s) 0 = Ok (Some (STimestamp z))).
    { unfold pd.iloc. rewrite values_dropna_Some. unfold s.
      cbn [pd.values]. now rewrite present_map, Hz. }
    rewrite Hfirst. cbn [bind is_Timedelta].
    assert (Hsub : exists v, py_sub mx mn = Ok v).
    { unfold s in Hmin, Hmax. cbn [pd.dropna pd.min pd.max] in Hmin, Hmax.
      rewrite present_filter_not_null, Hz in Hmin, Hmax.
      injection Hmin as <-. injection Hmax as <-. cbn. eauto. }
    destruct Hsub as (v & Hv). rewrite Hv.
    destruct (pd.len (pd.dropna s) >? 1); cbn [bind]; eauto.
Qed.

(** ** Dispatch *)

Lemma analyze_string_total {pandas : Pandas} s :
  exists r, _analyze_string s = Ok r
            /\ dict_get "type" r = Some (PStr "string").
Proof.
  unfold _analyze_string.
  destruct (if negb (List.length (pd.astype_str (pd.dropna s)) =? 0)%nat
            then _ else _) as [[mn mx] me].
  eexists. split; reflexivity.
Qed.

Lemma summarize_kind {pandas : Pandas} s k :
  _determine_type s = tag k ->
  summarize s = (r <- summarizer k s ;; Ok (Some r)).
Proof.
  intros E. unfold summarize. rewrite E. now destruct k.
Qed.

(** Every column is classified, its kind has a summarizer, and the
    summarizer returns a record of that kind. *)
Lemma summarize_dispatch {pandas : Pandas} s :
  exists k r,
    decides s k /\
    summarizer k s = Ok r /\
    summarize s = Ok (Some r) /\
    dict_get "type" r = Some (PStr (tag k)).
Proof.
  destruct (decides_total s) as (k & Hk). exists k.
  assert (exists r, summarizer k s = Ok r
                    /\ dict_get "type" r = Some (PStr (tag k)))
    as (r & Hr & Ht).
  { destruct Hk as [s H | xs H F | xs H F | xs H | xs H | xs H | xs H
                    | tz xs H];
      cbn [summarizer tag]; try apply analyze_string_total.
    - destruct (analyze_boolean_flags (NumericSeries xs) eq_refl) as (u & E).
      rewrite E. eexists. split; reflexivity.
    - destruct (analyze_numeric_total xs) as (r & E). exists r.
      split; [assumption|].
      unfold _analyze_numeric in E. invert_binds E. now injection E as <-.
    - destruct (analyze_boolean_flags (BoolSeries xs) eq_refl) as (u & E).
      rewrite E. eexists. split; reflexivity.
    - destruct (analyze_datetime_timestamps xs) as (mn & mx & rg & E).
      rewrite E. eexists. split; reflexivity. }
  exists r. repeat split; try assumption.
  rewrite (summarize_kind s k (determine_type_sound Hk)), Hr. reflexivity.
Qed.

(** ** The loop over the columns *)

Lemma filter_label_absent (name : string) (l : list (string * Series)) :
  ~ In name (map fst l) ->
  filter (fun c => String.eqb name (fst c)) l = [].
Proof.
  induction l as [|[n s] l IH]; simpl; intros H; [reflexivity|].
  destruct (String.eqb_spec name n) as [-> | _]; [tauto|].
  apply IH. tauto.
Qed.

Lemma getitem_unique done name s rest :
  NoDup (map fst (done ++ (name, s) :: rest)%list) ->
  getitem (done ++ (name, s) :: rest)%list name = Ok (Column s).
Proof.
  intros H. unfold getitem.
  rewrite map_app in H. cbn [map fst] in H.
  pose proof (NoDup_remove_2 _ _ _ H) as Hnot.
  rewrite filter_app. cbn [filter fst]. rewrite String.eqb_refl.
  rewrite !filter_label_absent; [reflexivity | |];
    intros Hin; apply Hnot, in_or_app; tauto.
Qed.

Lemma dict_set_fresh {V} (k : string) (v : V) (d : dict V) :
  ~ In k (keys d) -> dict_set k v d = (d ++ [(k, v)])%list.
Proof.
  induction d as [|[k' v'] d IH]; simpl; intros H; [reflexivity|].
  destruct (String.eqb_spec k k') as [-> | _]; [tauto|].
  rewrite IH; tauto.
Qed.

Lemma analyze_loop {pandas : Pandas} frame :
  NoDup (columns frame) ->
  forall rest done acc,
    frame = (done ++ rest)%list ->
    keys acc = columns done ->
    exists recs,
      for_each (columns rest)
        (fun self column =>
           col_data <- getitem (df self) column ;;
           r <- summarize_selection col_data ;;
           match r with
           | Some value => Ok (set_result self column value)
           | None => Ok self
           end)
        {| df := frame; results := acc |}
      = Ok {| df := frame; results := (acc ++ recs)%list |}
      /\ Forall2 profiles rest recs.
Proof.
  intros Hnd. induction rest as [|[name s] rest IH]; intros done acc Hf Hk.
  - exists []. rewrite app_nil_r. split; [reflexivity | constructor].
  - cbn [columns map fst for_each df].
    assert (Hget : getitem frame name = Ok (Column s)).
    { rewrite Hf. apply getitem_unique. rewrite <- Hf. exact Hnd. }
    rewrite Hget. cbn [bind summarize_selection].
    destruct (summarize_dispatch s) as (k & r & _ & _ & Hs & _).
    rewrite Hs. cbn [bind]. unfold set_result. cbn [df results].
    assert (Hfresh : ~ In name (keys acc)).
    { rewrite Hk. unfold columns in Hnd. rewrite Hf, map_app in Hnd.
      cbn [map fst] in Hnd. apply NoDup_remove_2 in Hnd.
      intros Hin. apply Hnd, in_or_app. now left. }
    rewrite dict_set_fresh by exact Hfresh.
    destruct (IH (done ++ [(name, s)])%list (acc ++ [(name, r)])%list)
      as (recs & E & F).
    + now rewrite <- app_assoc.
    + unfold keys, columns in *. now rewrite !map_app, Hk.
    + exists ((name, r) :: recs). rewrite <- app_assoc in E. split.
      * exact E.
      * constructor; [split; [reflexivity | exact Hs] | exact F].
Qed.

(** Construction on a frame with distinct labels: the profile has one
    entry per column, in column order. *)
Lemma init_profile {pandas : Pandas} frame :
  NoDup (columns frame) ->
  exists recs,
    __init__ frame = Ok {| df := frame; results := recs |}
    /\ Forall2 profiles frame recs.
Proof.
  intros Hnd. unfold __init__, _analyze. cbn [df].
  apply (analyze_loop Hnd frame [] []); reflexivity.
Qed.

Lemma profiles_keys {pandas : Pandas} frame recs :
  Forall2 profiles frame recs -> keys recs = columns frame.
Proof.
  induction 1 as [|c e frame recs [Hc _] _ IH]; [reflexivity|].
  unfold keys, columns in *. cbn [map]. now rewrite Hc, IH.
Qed.

(** ** Claims on the records *)

(** C2. Whatever the column and its kind, the record the engine produces
    for it satisfies: null_count + count = length of the column;
    null_percentage = null_count / total_count * 100, or 0 when the column
    has no cell; unique_count + duplicate_count = count, where count is
    the number of non-null values.  The same holds of the record of any of
    the four summarizers called on its own. *)
Theorem shared_counts {pandas : Pandas} (s : Series) :
  (exists k r, _determine_type s = tag k /\ summarize s = Ok (Some r)
               /\ shared_invariants s r) /\
  (forall k r, summarizer k s = Ok r -> shared_invariants s r).
Proof.
  assert (forall k r, summarizer k s = Ok r -> shared_invariants s r) as Hall.
  { intros [] r; cbn [summarizer].
    - apply analyze_numeric_shared.
    - apply analyze_boolean_shared.
    - apply analyze_string_shared.
    - apply analyze_datetime_shared. }
  split; [|exact Hall].
  destruct (summarize_dispatch s) as (k & r & Hk & Hr & Hs & _).
  exists k, r. repeat split.
  - now apply determine_type_sound.
  - exact Hs.
  - now apply (Hall k).
Qed.

Lemma inject_Z_minus a b : (inject_Z (a - b) == inject_Z a - inject_Z b)%Q.
Proof.
  unfold Z.sub, Qminus. now rewrite inject_Z_plus, inject_Z_opp.
Qed.

(** On the bool column [True, False, True] the boolean summarizer counts
    2 true and 1 false of 3.  The two percentages, computed as lines 143
    and 144 compute them on float64, are 66.66666666666666 and
    33.33333333333333 (to 16 digits), and their float64 sum is below 100:
    it is 99.99999999999999. *)
Lemma boolean_percentages_rounded :
  (_determine_type (BoolSeries [Some true; Some false; Some true])
   = "boolean" /\
   exists r,
     _analyze_boolean (BoolSeries [Some true; Some false; Some true])
     = Ok r /\
     dict_get "count" r = Some (PInt 3) /\
     dict_get "true_count" r = Some (PInt 2) /\
     dict_get "false_count" r = Some (PInt 1)) /\
  PrimFloat.eqb
    (PrimFloat.add (f64.percentage 2 3) (f64.percentage 1 3))
    (f64.of_int 100) = false /\
  PrimFloat.ltb
    (PrimFloat.add (f64.percentage 2 3) (f64.percentage 1 3))
    (f64.of_int 100) = true.
Proof.
  split; [split; [reflexivity|]|split; vm_compute; reflexivity].
  eexists. split; [vm_compute; reflexivity|].
  repeat split.
Qed.

(** C7, but for the sum of the percentages.  The record of the boolean
    summarizer on a column of numeric or bool storage (non-null numbers
    coerced: 0 to false, anything else, hence 1, to true) has
    true_count + false_count = count; when count is positive,
    true_percentage is the quotient true_count / count * 100 and
    false_percentage the quotient false_count / count * 100; when count
    is 0 both percentages are the integer 0, not None.  A column
    classified Boolean is of such storage and this is its record.
    Nothing is said of the sum of the two percentages: each is rounded to
    a float64 and the sum of the two floats need not be 100. *)
Theorem boolean_counts {pandas : Pandas} (s : Series) :
  pd.is_numeric_dtype s = true ->
  exists r,
    _analyze_boolean s = Ok r /\
    (_determine_type s = "boolean" -> summarize s = Ok (Some r)) /\
    boolean_summary s r.
Proof.
  intros Hnum.
  destruct (analyze_boolean_flags s Hnum) as (u & E).
  set (n := Z.of_nat (List.length (truth_values s))) in *.
  set (trues := count_true (truth_values s)) in *.
  eexists.
  split; [exact E|].
  split.
  { intros Hb. rewrite (summarize_kind s Boolean Hb).
    cbn [summarizer]. now rewrite E. }
  exists n, trues, (n - trues).
  do 3 (split; [reflexivity|]).
  split.
  { unfold n. destruct s; try discriminate Hnum;
      cbn [pd.values truth_values]; now rewrite present_map, !length_map. }
  split; [reflexivity|].
  split; [lia|].
  split.
  - intros Hpos.
    assert (Hn : (n >? 0) = true) by (rewrite Z.gtb_ltb; now apply Z.ltb_lt).
    rewrite Hn. do 2 eexists.
    do 3 (split; [reflexivity|]). reflexivity.
  - intros H0. rewrite H0. split; reflexivity.
Qed.

Lemma boolean_counts_witness :
  pd.is_numeric_dtype (NumericSeries flag_cells) = true /\
  exists r,
    _analyze_boolean (NumericSeries flag_cells) = Ok r /\
    (_determine_type (NumericSeries flag_cells) = "boolean" ->
     @summarize plain_pandas (NumericSeries flag_cells) = Ok (Some r)) /\
    boolean_summary (NumericSeries flag_cells) r.
Proof.
  split; [reflexivity|].
  apply (@boolean_counts plain_pandas). reflexivity.
Defined.

(** C9. A numeric column with exactly one non-null value has a record
    whose range is None while std and variance are NaN, not None: the
    sample variance with the N-1 denominator is undefined for one value.
    When the value is neither 0 nor 1 the column is classified Numeric and
    this is the record the engine produces. *)
Theorem single_value_spread {pandas : Pandas} (xs : list (option Q)) v :
  present xs = [v] ->
  exists r,
    _analyze_numeric (NumericSeries xs) = Ok r /\
    single_value_summary r /\
    (~ zero_or_one v ->
     _determine_type (NumericSeries xs) = "numeric" /\
     summarize (NumericSeries xs) = Ok (Some r)).
Proof.
  intros H. eexists. split; [exact (analyze_numeric_nonempty xs H)|].
  split; [repeat split|].
  intros Hv.
  assert (Hc : _determine_type (NumericSeries xs) = tag Numeric).
  { apply determine_type_sound. constructor.
    - rewrite degenerate_present, numeric_present, H. discriminate.
    - rewrite H. intros F. inversion F. contradiction. }
  split; [exact Hc|].
  rewrite (summarize_kind _ Numeric Hc). cbn [summarizer].
  now rewrite (analyze_numeric_nonempty xs H).
Qed.

Lemma single_value_spread_witness :
  present [None; Some (5 # 2)]%Q = [(5 # 2)%Q] /\
  exists r,
    _analyze_numeric (NumericSeries [None; Some (5 # 2)]%Q) = Ok r /\
    single_value_summary r /\
    (~ zero_or_one (5 # 2) ->
     _determine_type (NumericSeries [None; Some (5 # 2)]%Q) = "numeric" /\
     @summarize plain_pandas (NumericSeries [None; Some (5 # 2)]%Q)
     = Ok (Some r)).
Proof.
  split; [reflexivity|].
  apply (@single_value_spread plain_pandas). reflexivity.
Defined.


(** ** Durations *)

Lemma dict_get_absent {V} (k : string) (d : dict V) :
  ~ In k (keys d) -> dict_get k d = None.
Proof.
  induction d as [|[k' v] d IH]; simpl; intros H; [reflexivity|].
  destruct (String.eqb_spec k k') as [-> | _]; [tauto|].
  apply IH. tauto.
Qed.

Lemma analyze_string_keys {pandas : Pandas} s :
  exists r,
    _analyze_string s = Ok r /\
    keys r = [ "type"; "count"; "null_count"; "null_percentage";
               "empty_count"; "unique_count"; "duplicate_count";
               "min_length"; "max_length"; "mean_length";
               "top_frequencies" ] /\
    dict_get "type" r = Some (PStr "string").
Proof.
  unfold _analyze_string.
  destruct (if negb (List.length (pd.astype_str (pd.dropna s)) =? 0)%nat
            then _ else _) as [[mn mx] me].
  eexists. repeat split.
Qed.

(** A timedelta64 column is never classified Datetime: the engine hands
    it to the string summarizer, whose record has neither a mean nor a
    median. *)
Lemma timedelta_profiled_as_string {pandas : Pandas} xs :
  exists r,
    _determine_type (TimedeltaSeries xs) = "string" /\
    summarize (TimedeltaSeries xs) = Ok (Some r) /\
    dict_get "type" r = Some (PStr "string") /\
    dict_get "mean" r = None /\
    dict_get "median" r = None.
Proof.
  destruct (analyze_string_keys (TimedeltaSeries xs)) as (r & E & K & T).
  assert (Hc : _determine_type (TimedeltaSeries xs) = tag String_).
  { destruct (degenerate_dec (TimedeltaSeries xs)) as [H | H];
      apply determine_type_sound; now constructor. }
  exists r. split; [exact Hc|]. split.
  { rewrite (summarize_kind _ String_ Hc). cbn [summarizer]. now rewrite E. }
  split; [exact T|].
  split; apply dict_get_absent; rewrite K; simpl;
    intros H; repeat (destruct H as [H | H]; [discriminate H|]); exact H.
Qed.

(** The record of a datetime64 column has neither a mean nor a median. *)
Lemma timestamps_have_no_mean xs r :
  _analyze_datetime (DatetimeSeries xs) = Ok r ->
  dict_get "mean" r = None /\ dict_get "median" r = None.
Proof.
  destruct (analyze_datetime_timestamps xs) as (mn & mx & rg & E).
  cbv zeta in E. rewrite E. intros H. injection H as <-.
  split; reflexivity.
Qed.

(** C3, on the column of the two durations of one day and two days.  The
    datetime summarizer called on it gives a datetime record with the
    mean and the median duration (one day and a half); the engine,
    however, classifies the column String and gives the record of the
    string summarizer, which has neither field. *)
Theorem duration_column_record {pandas : Pandas} :
  let s := TimedeltaSeries [Some one_day; Some (2 * one_day)] in
  (exists d,
     _analyze_datetime s = Ok d /\
     dict_get "type" d = Some (PStr "datetime") /\
     dict_get "mean" d = Some (PTimedelta 129600000000000) /\
     dict_get "median" d = Some (PTimedelta 129600000000000)) /\
  (exists r,
     _determine_type s = "string" /\
     summarize s = Ok (Some r) /\
     dict_get "type" r = Some (PStr "string") /\
     dict_get "mean" r = None /\
     dict_get "median" r = None).
Proof.
  split.
  - eexists. split; [vm_compute; reflexivity|].
    repeat split.
  - apply timedelta_profiled_as_string.
Qed.

(** ** The engine *)


(** On a frame without rows in which two columns carry the label a,
    construction raises nothing and the profile has the one key a, with
    a record of type 'string' whose counts are Series. *)
Lemma duplicate_labels_without_rows :
  exists p r,
    @__init__ plain_pandas [("a", NumericSeries []); ("a", ObjectSeries [])]
    = Ok p /\
    get_profile p = [("a", r)] /\
    dict_get "type" r = Some (PStr "string") /\
    dict_get "null_count" r = Some (PSeries [("a", 0); ("a", 0)]).
Proof. do 2 eexists. repeat split. Qed.


Lemma sample_frame_labels : NoDup (columns sample_frame).
Proof.
  repeat (constructor; [simpl; intuition discriminate|]). constructor.
Defined.




(** C10. On a frame whose labels are distinct, [get_profile] returns the
    mapping stored at construction: its keys are the labels of the
    columns, in column order, each with the record computed for that
    column; for a frame without columns it is the empty mapping. *)
Theorem get_profile_at_construction {pandas : Pandas} (frame : DataFrame) :
  NoDup (columns frame) ->
  exists p,
    __init__ frame = Ok p /\
    df p = frame /\
    get_profile p = results p /\
    keys (get_profile p) = columns frame /\
    Forall2 profiles frame (get_profile p) /\
    (frame = [] -> get_profile p = []).
Proof.
  intros Hnd. destruct (init_profile frame Hnd) as (recs & E & F).
  eexists. split; [exact E|]. unfold get_profile. cbn [df results].
  do 2 (split; [reflexivity|]).
  split; [exact (profiles_keys F)|].
  split; [exact F|].
  intros ->. now inversion F.
Qed.

Lemma get_profile_at_construction_witness :
  NoDup (columns sample_frame) /\
  exists p,
    @__init__ plain_pandas sample_frame = Ok p /\
    df p = sample_frame /\
    get_profile p = results p /\
    keys (get_profile p) = columns sample_frame /\
    Forall2 (@profiles plain_pandas) sample_frame (get_profile p) /\
    (sample_frame = [] -> get_profile p = []).
Proof.
  split; [exact sample_frame_labels|].
  apply (@get_profile_at_construction plain_pandas).
  exact sample_frame_labels.
Defined.

(** ** Order statistics *)

Lemma Qle_bool_false x y : Qle_bool x y = false -> (y < x)%Q.
Proof.
  intros H. apply Qnot_le_lt. intros Hle.
  apply Qle_bool_iff in Hle. congruence.
Qed.

Lemma insert_asc_perm x l : Permutation (pd.insert_asc x l) (x :: l).
Proof.
  induction l as [|y l IH]; simpl; [reflexivity|].
  destruct (Qle_bool x y); [reflexivity|].
  rewrite IH. apply perm_swap.
Qed.

Lemma sort_asc_perm l : Permutation (pd.sort_asc l) l.
Proof.
  induction l as [|x l IH]; simpl; [reflexivity|].
  rewrite insert_asc_perm. now constructor.
Qed.

Lemma sort_asc_length l : List.length (pd.sort_asc l) = List.length l.
Proof. apply Permutation_length, sort_asc_perm. Qed.

Lemma insert_asc_sorted x l :
  StronglySorted Qle l -> StronglySorted Qle (pd.insert_asc x l).
Proof.
  induction 1 as [|y l Hs IH Hy]; simpl.
  - repeat constructor.
  - destruct (Qle_bool x y) eqn:E.
    + apply Qle_bool_iff in E. constructor.
      * now constructor.
      * constructor; [assumption|].
        eapply Forall_impl; [|exact Hy].
        intros z Hz. now apply Qle_trans with y.
    + apply Qle_bool_false in E. constructor; [assumption|].
      apply (Permutation_Forall (Permutation_sym (insert_asc_perm x l))).
      constructor; [now apply Qlt_le_weak | assumption].
Qed.

Lemma sort_asc_sorted l : StronglySorted Qle (pd.sort_asc l).
Proof.
  induction l as [|x l IH]; simpl; [constructor|].
  now apply insert_asc_sorted.
Qed.

Lemma sorted_nth_le s :
  StronglySorted Qle s ->
  forall i j, (i <= j < List.length s)%nat ->
              (nth i s 0 <= nth j s 0)%Q.
Proof.
  induction 1 as [|x s Hs IH Hx]; intros i j [Hij Hj]; simpl in Hj; [lia|].
  destruct j as [|j].
  - replace i with 0%nat by lia. apply Qle_refl.
  - destruct i as [|i]; simpl.
    + rewrite Forall_forall in Hx. apply Hx, nth_In. lia.
    + apply IH. lia.
Qed.

Lemma lerp_between a b t :
  (a <= b)%Q -> (0 <= t)%Q -> (t <= 1)%Q ->
  (a <= pd.lerp a b t /\ pd.lerp a b t <= b)%Q.
Proof.
  intros Hab H0 H1. unfold pd.lerp.
  assert (0 <= (b - a) * t)%Q by (apply Qmult_le_0_compat; lra).
  assert (0 <= (b - a) * (1 - t))%Q by (apply Qmult_le_0_compat; lra).
  destruct (Qle_bool (1 # 2) t); split; lra.
Qed.

Lemma qmin_le x t y : In y (x :: t) -> (pd.qmin x t <= y)%Q.
Proof.
  induction t as [|z t IH]; simpl.
  - intros [<- | []]. apply Qle_refl.
  - destruct (Qle_bool z (pd.qmin x t)) eqn:E.
    + apply Qle_bool_iff in E. intros [<- | [<- | H]].
      * apply Qle_trans with (pd.qmin x t); [assumption|].
        apply IH. now left.
      * apply Qle_refl.
      * apply Qle_trans with (pd.qmin x t); [assumption|].
        apply IH. now right.
    + apply Qle_bool_false in E. intros [<- | [<- | H]].
      * apply IH. now left.
      * now apply Qlt_le_weak.
      * apply IH. now right.
Qed.

Lemma qmax_ge x t y : In y (x :: t) -> (y <= pd.qmax x t)%Q.
Proof.
  induction t as [|z t IH]; simpl.
  - intros [<- | []]. apply Qle_refl.
  - destruct (Qle_bool (pd.qmax x t) z) eqn:E.
    + apply Qle_bool_iff in E. intros [<- | [<- | H]].
      * apply Qle_trans with (pd.qmax x t); [|assumption].
        apply IH. now left.
      * apply Qle_refl.
      * apply Qle_trans with (pd.qmax x t); [|assumption].
        apply IH. now right.
    + apply Qle_bool_false in E. intros [<- | [<- | H]].
      * apply IH. now left.
      * now apply Qlt_le_weak.
      * apply IH. now right.
Qed.

Lemma floor_fraction x :
  (0 <= x - inject_Z (Qfloor x) /\ x - inject_Z (Qfloor x) <= 1)%Q.
Proof.
  pose proof (Qfloor_le x). pose proof (Qlt_floor x) as Hlt.
  rewrite inject_Z_plus in Hlt.
  change (inject_Z 1) with 1%Q in Hlt. split; lra.
Qed.

(** A quantile lies between the order statistics at the floor of its
    virtual index and at the next index. *)
Lemma quantile_sorted_between (num : Z) (den : positive) s :
  StronglySorted Qle s -> s <> [] ->
  0 <= num <= Z.pos den ->
  let m := Z.of_nat (List.length s - 1) in
  let lo := Z.to_nat (num * m / Z.pos den) in
  let hi := Nat.min (lo + 1) (List.length s - 1) in
  (nth lo s 0 <= pd.quantile_sorted (num # den) s
   /\ pd.quantile_sorted (num # den) s <= nth hi s 0)%Q.
Proof.
  intros Hs Hne Hq m lo hi.
  unfold pd.quantile_sorted.
  assert (Hfloor : Qfloor ((num # den) * inject_Z m) = num * m / Z.pos den).
  { unfold Qmult, inject_Z, Qfloor. cbn [Qnum Qden].
    now rewrite Pos.mul_1_r. }
  fold m. rewrite Hfloor. fold lo. fold hi.
  rewrite <- Hfloor.
  destruct (floor_fraction ((num # den) * inject_Z m)) as [H0 H1].
  assert (Hlo : (lo <= List.length s - 1)%nat).
  { unfold lo, m. apply Nat2Z.inj_le. rewrite Z2Nat.id.
    - apply Z.div_le_upper_bound; [lia|]. nia.
    - apply Z.div_pos; [nia | lia]. }
  assert (Hlen : (0 < List.length s)%nat) by (destruct s; simpl; [tauto | lia]).
  apply lerp_between; try assumption.
  apply sorted_nth_le; [assumption|]. unfold hi. lia.
Qed.

Lemma mean_of_two_between a b :
  (a <= b)%Q -> (a <= (a + b) / 2 /\ (a + b) / 2 <= b)%Q.
Proof.
  intros H. unfold Qdiv.
  setoid_replace (/ 2)%Q with (1 # 2)%Q by reflexivity.
  split; lra.
Qed.

Ltac div_lia := zify; Z.div_mod_to_equations; lia.

Lemma median_sorted_between s :
  StronglySorted Qle s -> s <> [] ->
  let n := List.length s in
  (nth ((n - 1) / 2) s 0 <= pd.median_sorted s
   /\ pd.median_sorted s <= nth (n / 2) s 0)%Q.
Proof.
  intros Hs Hne n. unfold pd.median_sorted. fold n.
  assert (Hlen : (0 < n)%nat) by (unfold n; destruct s; simpl; [tauto | lia]).
  destruct (Nat.even n) eqn:E.
  - apply Nat.even_spec in E. destruct E as (k & Hk).
    replace ((n - 1) / 2)%nat with (n / 2 - 1)%nat by div_lia.
    apply mean_of_two_between.
    apply sorted_nth_le; [assumption|]. fold n. div_lia.
  - assert (Ho : Nat.odd n = true) by (unfold Nat.odd; now rewrite E).
    apply Nat.odd_spec in Ho. destruct Ho as (k & Hk).
    replace ((n - 1) / 2)%nat with (n / 2)%nat by div_lia.
    split; apply Qle_refl.
Qed.

Lemma quartiles_of_two a b :
  (a <= b)%Q ->
  (a <= pd.quantile_sorted (1 # 4) [a; b]
   /\ pd.quantile_sorted (1 # 4) [a; b] <= pd.median_sorted [a; b]
   /\ pd.median_sorted [a; b] <= pd.quantile_sorted (3 # 4) [a; b]
   /\ pd.quantile_sorted (3 # 4) [a; b] <= b)%Q.
Proof.
  intros H.
  change (pd.quantile_sorted (1 # 4) [a; b]) with (a + (b - a) * (1 # 4))%Q.
  change (pd.quantile_sorted (3 # 4) [a; b]) with (b - (b - a) * (1 # 4))%Q.
  change (pd.median_sorted [a; b]) with ((a + b) / 2)%Q.
  unfold Qdiv. setoid_replace (/ 2)%Q with (1 # 2)%Q by reflexivity.
  repeat split; lra.
Qed.

(** On a sorted non-empty list: first element <= q1 <= median <= q3 <=
    last element. *)
Lemma quartiles_ordered s :
  StronglySorted Qle s -> s <> [] ->
  (nth 0 s 0 <= pd.quantile_sorted (1 # 4) s
   /\ pd.quantile_sorted (1 # 4) s <= pd.median_sorted s
   /\ pd.median_sorted s <= pd.quantile_sorted (3 # 4) s
   /\ pd.quantile_sorted (3 # 4) s <= nth (List.length s - 1) s 0)%Q.
Proof.
  intros Hs Hne.
  destruct s as [|a [|b [|c s]]]; [tauto | | |].
  - (* one value *)
    change (pd.quantile_sorted (1 # 4) [a]) with (a + (a - a) * (0 # 4))%Q.
    change (pd.quantile_sorted (3 # 4) [a]) with (a + (a - a) * (0 # 4))%Q.
    change (pd.median_sorted [a]) with a.
    cbn [List.length Nat.sub nth].
    repeat split; lra.
  - (* two values *)
    apply quartiles_of_two. inversion Hs as [|? ? _ F]. now inversion F.
  - (* three values or more *)
    set (s' := a :: b :: c :: s) in *.
    destruct (quantile_sorted_between (num := 1) (den := 4) Hs Hne)
      as [L1 U1]; [lia|].
    destruct (quantile_sorted_between (num := 3) (den := 4) Hs Hne)
      as [L3 U3]; [lia|].
    destruct (median_sorted_between Hs Hne) as [Lm Um].
    cbv zeta in L1, U1, L3, U3, Lm, Um.
    assert (Hn : (3 <= List.length s')%nat) by (unfold s'; simpl; lia).
    set (n := List.length s') in *.
    repeat split.
    + eapply Qle_trans; [|exact L1]. apply sorted_nth_le; [assumption|].
      fold n. div_lia.
    + eapply Qle_trans; [exact U1|]. eapply Qle_trans; [|exact Lm].
      apply sorted_nth_le; [assumption|]. fold n. div_lia.
    + eapply Qle_trans; [exact Um|]. eapply Qle_trans; [|exact L3].
      apply sorted_nth_le; [assumption|]. fold n. div_lia.
    + eapply Qle_trans; [exact U3|].
      apply sorted_nth_le; [assumption|]. fold n. div_lia.
Qed.

(** The same on the values as they come: minimum <= q1 <= median <= q3
    <= maximum. *)
Lemma quartiles_chain x t :
  let l := x :: t in
  (pd.qmin x t <= pd.qquantile (1 # 4) l
   /\ pd.qquantile (1 # 4) l <= pd.qmedian l
   /\ pd.qmedian l <= pd.qquantile (3 # 4) l
   /\ pd.qquantile (3 # 4) l <= pd.qmax x t)%Q.
Proof.
  intros l.
  assert (Hne : pd.sort_asc l <> []).
  { intros E. pose proof (sort_asc_length l) as Hl. rewrite E in Hl.
    discriminate Hl. }
  destruct (quartiles_ordered (sort_asc_sorted l) Hne) as (H1 & H2 & H3 & H4).
  unfold pd.qquantile, pd.qmedian.
  assert (Hin : forall i, (i < List.length (pd.sort_asc l))%nat ->
                          In (nth i (pd.sort_asc l) 0%Q) (x :: t)).
  { intros i Hi. apply (Permutation_in _ (sort_asc_perm l)), nth_In, Hi. }
  assert (Hlen : (0 < List.length (pd.sort_asc l))%nat)
    by (rewrite sort_asc_length; simpl; lia).
  repeat split; try assumption.
  - eapply Qle_trans; [|exact H1]. apply qmin_le, Hin, Hlen.
  - eapply Qle_trans; [exact H4|]. apply qmax_ge, Hin. lia.
Qed.





(** ** Frequencies *)




Lemma existsb_eqb_In (x : string) seen :
  existsb (String.eqb x) seen = true <-> In x seen.
Proof.
  rewrite existsb_exists. split.
  - intros (y & Hy & E). apply String.eqb_eq in E. now subst.
  - intros H. exists x. split; [assumption | apply String.eqb_refl].
Qed.

Lemma unique_from_spec l : forall seen x,
  In x (pd.unique_from String.eqb seen l) <-> In x l /\ ~ In x seen.
Proof.
  induction l as [|a l IH]; simpl; intros seen x; [tauto|].
  destruct (existsb (String.eqb a) seen) eqn:E.
  - apply existsb_eqb_In in E. rewrite IH. split.
    + tauto.
    + intros [[<- | H] Hn]; tauto.
  - assert (~ In a seen) by (rewrite <- existsb_eqb_In; congruence).
    simpl. rewrite IH. simpl. split.
    + intros [<- | [H1 H2]]; tauto.
    + intros [[<- | H1] H2]; [tauto|].
      destruct (string_dec a x); [tauto|]. right. tauto.
Qed.

Lemma unique_from_NoDup l : forall seen,
  NoDup (pd.unique_from String.eqb seen l).
Proof.
  induction l as [|a l IH]; simpl; intros seen; [constructor|].
  destruct (existsb (String.eqb a) seen); [apply IH|].
  constructor; [|apply IH].
  rewrite unique_from_spec. simpl. tauto.
Qed.

Lemma index_of_tail k x t :
  k <> x -> index_of k (x :: t) = S (index_of k t).
Proof.
  intros H. simpl. destruct (String.eqb_spec k x); [contradiction|reflexivity].
Qed.


Lemma count_nonneg k l : 0 <= pd.count k l.
Proof.
  induction l as [|x l IH]; simpl; [lia|]. destruct (k =? x)%string; lia.
Qed.



Lemma insert_desc_perm x l : Permutation (pd.insert_desc x l) (x :: l).
Proof.
  induction l as [|y l IH]; simpl; [reflexivity|].
  destruct (snd y <=? snd x); [reflexivity|].
  rewrite IH. apply perm_swap.
Qed.

Lemma sort_desc_perm l : Permutation (pd.sort_desc l) l.
Proof.
  induction l as [|x l IH]; simpl; [reflexivity|].
  rewrite insert_desc_perm. now constructor.
Qed.

Section StableSort.

Variable strings : list string.

Lemma precedes_count a b : precedes strings a b -> snd b <= snd a.
Proof. unfold precedes. lia. Qed.



End StableSort.


Lemma value_counts_entries strings k c :
  In (k, c) (pd.value_counts strings)
  <-> In k strings /\ c = pd.count k strings.
Proof.
  unfold pd.value_counts. split.
  - intros H. apply (Permutation_in _ (sort_desc_perm _)) in H.
    apply in_map_iff in H. destruct H as (k' & E & H).
    injection E as -> <-. apply unique_from_spec in H. tauto.
  - intros [H ->].
    apply (Permutation_in _ (Permutation_sym (sort_desc_perm _))).
    apply in_map_iff. exists k. split; [reflexivity|].
    apply unique_from_spec. simpl. tauto.
Qed.


Lemma NoDup_app_left {A} (l1 l2 : list A) :
  NoDup (l1 ++ l2) -> NoDup l1.
Proof.
  induction l1 as [|x l1 IH]; simpl; intros H; [constructor|].
  inversion H as [|? ? Hx Hn]; subst. constructor; [|auto].
  intros Hin. apply Hx, in_or_app. now left.
Qed.






(** ** The columns of [test.py] *)

(** A frame without columns: construction succeeds and the profile is
    the empty mapping. *)
Example empty_frame_profile :
  exists p, @__init__ plain_pandas [] = Ok p /\ get_profile p = [].
Proof. eexists. split; reflexivity. Qed.

(** The column [id]: Numeric, one null, eight distinct values with one
    duplicate, minimum 1 and maximum 10. *)
Example id_column_profile :
  exists r,
    @summarize plain_pandas (NumericSeries id_cells) = Ok (Some r) /\
    dict_get "type" r = Some (PStr "numeric") /\
    dict_get "null_count" r = Some (PInt 1) /\
    dict_get "unique_count" r = Some (PInt 8) /\
    dict_get "duplicate_count" r = Some (PInt 1) /\
    dict_get "min" r = Some (PFloat (Fin 1)) /\
    dict_get "max" r = Some (PFloat (Fin 10)).
Proof. eexists. split; [vm_compute; reflexivity|]. repeat split. Qed.

(** The column [name]: String, one null, one empty string, and Alice
    first among the frequencies, with 2 occurrences. *)
Example name_column_profile :
  exists r top,
    @summarize plain_pandas (ObjectSeries name_cells) = Ok (Some r) /\
    dict_get "type" r = Some (PStr "string") /\
    dict_get "null_count" r = Some (PInt 1) /\
    dict_get "empty_count" r = Some (PInt 1) /\
    dict_get "min_length" r = Some (PInt 0) /\
    dict_get "max_length" r = Some (PInt 7) /\
    dict_get "top_frequencies" r = Some (PDict (("Alice", 2) :: top)) /\
    List.length top = 4%nat.
Proof. do 2 eexists. split; [vm_compute; reflexivity|]. repeat split. Qed.

(** The column [is_valid] holds booleans and a None, so its dtype is
    object: it is classified String. *)
Example is_valid_column_kind :
  _determine_type (ObjectSeries is_valid_cells) = "string".
Proof. reflexivity. Qed.

(** A numeric column of 0/1 flags is Boolean; {0, 1, 2} is Numeric. *)
Example flag_column_kind :
  _determine_type (NumericSeries flag_cells) = "boolean" /\
  _determine_type (NumericSeries [Some 0; Some 1; Some 2]%Q) = "numeric".
Proof. split; reflexivity. Qed.

(** When [str.len()] raises, the three length fields are None and the
    rest of the record is there. *)
Example lengths_when_len_raises :
  exists r,
    @_analyze_string failing_len_pandas (ObjectSeries name_cells) = Ok r /\
    dict_get "min_length" r = Some PNone /\
    dict_get "max_length" r = Some PNone /\
    dict_get "mean_length" r = Some PNone /\
    dict_get "count" r = Some (PInt 9).
Proof. eexists. split; [vm_compute; reflexivity|]. repeat split. Qed.

(** ** The key lists *)

Lemma analyze_numeric_schema s r :
  _analyze_numeric s = Ok r -> keys r = schema Numeric.
Proof.
  unfold _analyze_numeric. intros H. invert_binds H.
  now injection H as <-.
Qed.

Lemma analyze_boolean_schema s r :
  _analyze_boolean s = Ok r -> keys r = schema Boolean.
Proof.
  unfold _analyze_boolean. intros H. invert_binds H.
  now injection H as <-.
Qed.

Lemma analyze_string_schema {pandas : Pandas} s r :
  _analyze_string s = Ok r -> keys r = schema String_.
Proof.
  destruct (analyze_string_keys s) as (r' & E & K & _).
  rewrite E. intros H. now injection H as <-.
Qed.

Lemma iloc_first s :
  pd.empty (pd.dropna s) = false ->
  pd.iloc (pd.dropna s) 0 = Ok (first_value s).
Proof.
  intros H. rewrite empty_dropna in H.
  unfold pd.iloc, first_value. rewrite values_dropna_Some.
  destruct (present (pd.values s)); [discriminate H | reflexivity].
Qed.

Lemma first_value_empty s :
  pd.empty (pd.dropna s) = true -> first_value s = None.
Proof.
  rewrite empty_dropna. unfold first_value.
  destruct (present (pd.values s)); [reflexivity | discriminate].
Qed.

(** X1. The keys of the record of the datetime summarizer are the nine
    keys of its dictionary literal, followed by mean and median exactly
    when the first non-null value of the column is a duration. *)
Theorem datetime_record_keys (s : Series) (r : record) :
  _analyze_datetime s = Ok r ->
  keys r = (schema Datetime
            ++ if is_Timedelta (first_value s) then ["mean"; "median"]
               else [])%list.
Proof.
  unfold _analyze_datetime. intros H. invert_binds H.
  destruct (pd.empty (pd.dropna s)) eqn:Hemp; cbn [negb] in H.
  - injection H as <-. now rewrite (first_value_empty s Hemp).
  - rewrite (iloc_first s Hemp) in H. cbn [bind] in H.
    destruct (is_Timedelta (first_value s)).
    + invert_binds H. now injection H as <-.
    + now injection H as <-.
Qed.

Lemma datetime_record_keys_witness :
  exists r,
    _analyze_datetime (TimedeltaSeries duration_cells) = Ok r /\
    keys r = (schema Datetime
              ++ if is_Timedelta (first_value (TimedeltaSeries duration_cells))
                 then ["mean"; "median"] else [])%list.
Proof.
  eexists. split; [vm_compute; reflexivity|].
  apply datetime_record_keys. vm_compute. reflexivity.
Defined.

(** X2. The record the engine produces for a column has the keys of the
    dictionary literal of the column's kind, in that order, whatever the
    content: no engine record has a key of another kind, and none has the
    mean or median of the datetime summarizer. *)
Theorem engine_record_keys {pandas : Pandas} (s : Series) :
  exists k r,
    _determine_type s = tag k /\
    summarize s = Ok (Some r) /\
    keys r = schema k /\
    NoDup (keys r).
Proof.
  destruct (summarize_dispatch s) as (k & r & Hk & Hr & Hs & _).
  exists k, r. split; [now apply determine_type_sound|].
  split; [exact Hs|].
  assert (K : keys r = schema k).
  { destruct Hk as [s H | xs H F | xs H F | xs H | xs H | xs H | xs H
                    | tz xs H];
      cbn [summarizer] in Hr;
      try (now apply (analyze_string_schema _ Hr));
      try (now apply (analyze_boolean_schema _ Hr));
      try (now apply (analyze_numeric_schema _ Hr)).
    destruct (analyze_datetime_timestamps xs) as (mn & mx & rg & E).
    cbv zeta in E. rewrite E in Hr. now injection Hr as <-. }
  split; [exact K|].
  rewrite K. destruct k; cbn [schema];
    repeat (constructor; [simpl; intuition discriminate|]); constructor.
Qed.
(** ** Bounds on the counts *)

Lemma unique_from_nonempty {A} (eqb : A -> A -> bool) x t :
  (1 <= List.length (pd.unique_from eqb [] (x :: t)))%nat.
Proof. simpl. lia. Qed.

Lemma nunique_bounds t :
  List.length (present (pd.values t)) = List.length (pd.values t) ->
  0 <= pd.nunique t <= pd.len t /\ (0 < pd.len t -> 1 <= pd.nunique t).
Proof.
  intros H. unfold pd.nunique, pd.unique, pd.len. rewrite <- H.
  pose proof (unique_from_length py_eqb (present (pd.values t)) []) as Hle.
  split; [lia|]. intros Hpos.
  destruct (present (pd.values t)) as [|x l]; [simpl in Hpos; lia|].
  pose proof (unique_from_nonempty py_eqb x l). lia.
Qed.

Lemma dropna_all_present s :
  List.length (present (pd.values (pd.dropna s)))
  = List.length (pd.values (pd.dropna s)).
Proof.
  rewrite values_dropna_Some, length_map.
  induction (present (pd.values s)) as [|x l IH]; simpl; auto.
Qed.

Lemma count_bounds_fields r count unique_count :
  dict_get "count" r = Some (PInt count) ->
  dict_get "unique_count" r = Some (PInt unique_count) ->
  dict_get "duplicate_count" r = Some (PInt (count - unique_count)) ->
  0 <= unique_count <= count /\ (0 < count -> 1 <= unique_count) ->
  count_bounds r.
Proof.
  intros Hc Hu Hd [H1 H2].
  exists count, unique_count, (count - unique_count).
  repeat split; try assumption; lia.
Qed.

Lemma astype_bool_all_present s b :
  pd.astype_bool (pd.dropna s) = Ok b ->
  List.length (present (pd.values b)) = List.length (pd.values b).
Proof.
  intros H. pose proof (dropna_all_present s) as Hd.
  destruct s; cbn [pd.dropna pd.astype_bool] in H; try discriminate H;
    injection H as <-; cbn [pd.dropna pd.values] in *;
    rewrite !present_map, !length_map in *; rewrite ?present_map, ?length_map;
    exact Hd.
Qed.

Lemma str_nunique_bounds l :
  0 <= pd.str_nunique l <= Z.of_nat (List.length l)
  /\ (0 < Z.of_nat (List.length l) -> 1 <= pd.str_nunique l).
Proof.
  unfold pd.str_nunique.
  pose proof (unique_from_length String.eqb l []) as Hle.
  split; [lia|]. intros Hpos.
  destruct l as [|x l]; [simpl in Hpos; lia|].
  pose proof (unique_from_nonempty String.eqb x l). lia.
Qed.

(** X3. In the record of any of the four summarizers, and so in every
    record of the engine, 0 <= unique_count <= count and duplicate_count
    >= 0; when there is a non-null value, unique_count >= 1 and
    duplicate_count < count. *)
Theorem counts_bounded {pandas : Pandas} (k : Kind) (s : Series) (r : record) :
  summarizer k s = Ok r -> count_bounds r.
Proof.
  destruct k; cbn [summarizer].
  - unfold _analyze_numeric. intros H. invert_binds H. injection H as <-.
    apply count_bounds_fields with (count := pd.len (pd.dropna s))
                                   (unique_count := pd.nunique (pd.dropna s));
      try reflexivity.
    apply nunique_bounds, dropna_all_present.
  - unfold _analyze_boolean. intros H. invert_binds H. injection H as <-.
    apply count_bounds_fields with (count := pd.len a)
                                   (unique_count := pd.nunique a);
      try reflexivity.
    apply nunique_bounds.
    destruct (pd.is_numeric_dtype s).
    + now apply (astype_bool_all_present s).
    + injection E as <-. apply dropna_all_present.
  - unfold _analyze_string. intros H.
    destruct (if negb (List.length (pd.astype_str (pd.dropna s)) =? 0)%nat
              then _ else _) as [[mn mx] me].
    injection H as <-.
    apply count_bounds_fields
      with (count := Z.of_nat (List.length (pd.astype_str (pd.dropna s))))
           (unique_count := pd.str_nunique (pd.astype_str (pd.dropna s)));
      try reflexivity.
    apply str_nunique_bounds.
  - unfold _analyze_datetime. intros H. invert_binds H.
    destruct (negb (pd.empty (pd.dropna s))).
    + invert_binds H. destruct (is_Timedelta a2).
      * invert_binds H. injection H as <-.
        apply count_bounds_fields
          with (count := pd.len (pd.dropna s))
               (unique_count := pd.nunique (pd.dropna s));
          try reflexivity.
        apply nunique_bounds, dropna_all_present.
      * injection H as <-.
        apply count_bounds_fields
          with (count := pd.len (pd.dropna s))
               (unique_count := pd.nunique (pd.dropna s));
          try reflexivity.
        apply nunique_bounds, dropna_all_present.
    + injection H as <-.
      apply count_bounds_fields
        with (count := pd.len (pd.dropna s))
             (unique_count := pd.nunique (pd.dropna s));
        try reflexivity.
      apply nunique_bounds, dropna_all_present.
Qed.

Lemma counts_bounded_witness :
  exists r,
    @summarizer plain_pandas Numeric (NumericSeries id_cells) = Ok r /\
    count_bounds r.
Proof.
  eexists. split; [vm_compute; reflexivity|].
  apply (@counts_bounded plain_pandas Numeric (NumericSeries id_cells)).
  vm_compute. reflexivity.
Defined.
(** ** Columns without a value *)

Lemma degenerate_null_count s :
  degenerate s -> pd.mask_sum (pd.isna s) = pd.len s.
Proof.
  intros H. apply degenerate_present in H.
  rewrite <- (null_count_plus_count s), H. simpl. lia.
Qed.

Lemma degenerate_strings {pandas : Pandas} s :
  degenerate s -> pd.astype_str (pd.dropna s) = [].
Proof.
  intros H. apply degenerate_present in H.
  pose proof (astype_str_length s) as Hl. rewrite H in Hl.
  now destruct (pd.astype_str (pd.dropna s)).
Qed.

(** X4. A column with no value or only nulls, of any storage type, gets
    from the engine a string record with count, empty_count, unique_count
    and duplicate_count 0, null_count the length of the column, the three
    lengths None and an empty mapping of frequencies; null_percentage is
    the integer 0 for a column without cells and 100 otherwise. *)
Theorem null_column_record {pandas : Pandas} (s : Series) :
  degenerate s ->
  exists pct,
    summarize s =
    Ok (Some [ ("type", PStr "string");
               ("count", PInt 0);
               ("null_count", PInt (pd.len s));
               ("null_percentage", pct);
               ("empty_count", PInt 0);
               ("unique_count", PInt 0);
               ("duplicate_count", PInt 0);
               ("min_length", PNone);
               ("max_length", PNone);
               ("mean_length", PNone);
               ("top_frequencies", PDict []) ]) /\
    (pd.len s = 0 -> pct = PInt 0) /\
    (pd.len s <> 0 -> exists q, pct = PFloat (Fin q) /\ (q == 100)%Q).
Proof.
  intros H.
  exists (percentage (pd.len s) (pd.len s)). split; [|split].
  - rewrite (summarize_kind s String_ (determine_type_degenerate H)).
    cbn [summarizer]. unfold _analyze_string.
    rewrite (degenerate_strings H), (degenerate_null_count H).
    reflexivity.
  - intros Z0. now rewrite percentage_zero.
  - intros NZ. rewrite percentage_positive; auto using len_nonneg.
    eexists. split; [reflexivity|].
    assert (~ (inject_Z (pd.len s) == 0)%Q).
    { intros H0. unfold Qeq in H0. simpl in H0. lia. }
    field. assumption.
Qed.

Lemma null_column_record_witness :
  degenerate (DatetimeSeries [None; None]) /\
  exists pct,
    @summarize plain_pandas (DatetimeSeries [None; None]) =
    Ok (Some [ ("type", PStr "string");
               ("count", PInt 0);
               ("null_count", PInt (pd.len (DatetimeSeries [None; None])));
               ("null_percentage", pct);
               ("empty_count", PInt 0);
               ("unique_count", PInt 0);
               ("duplicate_count", PInt 0);
               ("min_length", PNone);
               ("max_length", PNone);
               ("mean_length", PNone);
               ("top_frequencies", PDict []) ]) /\
    (pd.len (DatetimeSeries [None; None]) = 0 -> pct = PInt 0) /\
    (pd.len (DatetimeSeries [None; None]) <> 0 ->
     exists q, pct = PFloat (Fin q) /\ (q == 100)%Q).
Proof.
  assert (H : degenerate (DatetimeSeries [None; None]))
    by (right; repeat constructor).
  split; [exact H|].
  exact (@null_column_record plain_pandas _ H).
Defined.

(** ** The profile as a function of the frame *)

Lemma profiles_record_of {pandas : Pandas} frame recs :
  Forall2 profiles frame recs -> recs = profile_of frame.
Proof.
  induction 1 as [|c e frame recs [Hc Hs] _ IH]; [reflexivity|].
  cbn [profile_of map]. unfold record_of at 1. rewrite Hs.
  fold (profile_of frame). rewrite <- IH, <- Hc. now destruct e.
Qed.

Lemma init_profile_of {pandas : Pandas} frame :
  NoDup (columns frame) ->
  __init__ frame = Ok {| df := frame; results := profile_of frame |}.
Proof.
  intros Hnd. destruct (init_profile frame Hnd) as (recs & E & F).
  now rewrite <- (profiles_record_of F).
Qed.

Lemma profile_of_keys {pandas : Pandas} frame :
  keys (profile_of frame) = columns frame.
Proof.
  unfold keys, columns, profile_of. rewrite map_map. reflexivity.
Qed.

Lemma record_of_summarize {pandas : Pandas} s :
  summarize s = Ok (Some (record_of s)).
Proof.
  destruct (summarize_dispatch s) as (k & r & _ & _ & Hs & _).
  unfold record_of. now rewrite Hs.
Qed.

Lemma profile_of_lookup {pandas : Pandas} frame name s :
  NoDup (columns frame) -> In (name, s) frame ->
  dict_get name (profile_of frame) = Some (record_of s).
Proof.
  induction frame as [|[n s'] frame IH]; intros Hnd Hin; [contradiction|].
  cbn [profile_of map fst snd dict_get]. fold (profile_of frame).
  cbn [columns map fst] in Hnd. inversion Hnd as [|? ? Hn Hnd']; subst.
  destruct Hin as [E | Hin].
  - injection E as -> ->. now rewrite String.eqb_refl.
  - destruct (String.eqb_spec name n) as [-> | _].
    + exfalso. apply Hn. change n with (fst (n, s)). now apply in_map.
    + now apply IH.
Qed.

(** X5. After construction on a frame with distinct labels, looking up
    the label of a column in the profile gives the record the engine
    computes for that column alone, and looking up any other key gives
    nothing. *)
Theorem profile_lookup {pandas : Pandas} (frame : DataFrame) :
  NoDup (columns frame) ->
  exists p,
    __init__ frame = Ok p /\
    (forall name s,
       In (name, s) frame ->
       exists r, dict_get name (get_profile p) = Some r
                 /\ summarize s = Ok (Some r)) /\
    (forall name,
       ~ In name (columns frame) -> dict_get name (get_profile p) = None).
Proof.
  intros Hnd. eexists. split; [exact (init_profile_of frame Hnd)|].
  unfold get_profile. cbn [results]. split.
  - intros name s Hin. exists (record_of s). split.
    + now apply (@profile_of_lookup _ frame name s).
    + apply record_of_summarize.
  - intros name Hnot. apply dict_get_absent.
    now rewrite profile_of_keys.
Qed.

Lemma profile_lookup_witness :
  NoDup (columns sample_frame) /\
  exists p,
    @__init__ plain_pandas sample_frame = Ok p /\
    (forall name s,
       In (name, s) sample_frame ->
       exists r, dict_get name (get_profile p) = Some r
                 /\ @summarize plain_pandas s = Ok (Some r)) /\
    (forall name,
       ~ In name (columns sample_frame) ->
       dict_get name (get_profile p) = None).
Proof.
  split; [exact sample_frame_labels|].
  exact (@profile_lookup plain_pandas _ sample_frame_labels).
Defined.

(** X6. Columns are profiled independently: on frames with distinct
    labels, the profile of two frames put side by side is the profile of
    the first followed by the profile of the second. *)
Theorem profile_of_concatenation {pandas : Pandas} (left right : DataFrame) :
  NoDup (columns (left ++ right)%list) ->
  exists pl pr p,
    __init__ left = Ok pl /\
    __init__ right = Ok pr /\
    __init__ (left ++ right)%list = Ok p /\
    get_profile p = (get_profile pl ++ get_profile pr)%list.
Proof.
  intros Hnd.
  assert (Hl : NoDup (columns left)).
  { unfold columns in *. rewrite map_app in Hnd.
    exact (NoDup_app_left _ _ Hnd). }
  assert (Hr : NoDup (columns right)).
  { unfold columns in *. rewrite map_app in Hnd.
    exact (NoDup_app_remove_l _ _ Hnd). }
  do 3 eexists.
  split; [exact (init_profile_of left Hl)|].
  split; [exact (init_profile_of right Hr)|].
  split; [exact (init_profile_of _ Hnd)|].
  unfold get_profile, profile_of. cbn [results]. apply map_app.
Qed.

Lemma profile_of_concatenation_witness :
  NoDup (columns (firstn 2 sample_frame ++ skipn 2 sample_frame)%list) /\
  exists pl pr p,
    @__init__ plain_pandas (firstn 2 sample_frame) = Ok pl /\
    @__init__ plain_pandas (skipn 2 sample_frame) = Ok pr /\
    @__init__ plain_pandas
      (firstn 2 sample_frame ++ skipn 2 sample_frame)%list = Ok p /\
    get_profile p = (get_profile pl ++ get_profile pr)%list.
Proof.
  split; [exact sample_frame_labels|].
  exact (@profile_of_concatenation plain_pandas (firstn 2 sample_frame)
           (skipn 2 sample_frame) sample_frame_labels).
Defined.

Lemma dict_set_same {V} (k : string) (v : V) (d : dict V) :
  dict_get k d = Some v -> dict_set k v d = d.
Proof.
  induction d as [|[k' v'] d IH]; simpl; [discriminate|].
  destruct (String.eqb_spec k k') as [-> | _].
  - intros H. now injection H as ->.
  - intros H. now rewrite IH.
Qed.

Lemma getitem_member frame name s :
  NoDup (columns frame) -> In (name, s) frame ->
  getitem frame name = Ok (Column s).
Proof.
  intros Hnd Hin. apply in_split in Hin. destruct Hin as (done & rest & ->).
  now apply getitem_unique.
Qed.

Lemma analyze_again {pandas : Pandas} frame :
  NoDup (columns frame) ->
  forall cols,
    incl cols frame ->
    for_each (columns cols)
      (fun self column =>
         col_data <- getitem (df self) column ;;
         r <- summarize_selection col_data ;;
         match r with
         | Some value => Ok (set_result self column value)
         | None => Ok self
         end)
      {| df := frame; results := profile_of frame |}
    = Ok {| df := frame; results := profile_of frame |}.
Proof.
  intros Hnd. induction cols as [|[name s] cols IH]; intros Hincl;
    [reflexivity|].
  cbn [columns map fst for_each df].
  assert (Hin : In (name, s) frame) by (apply Hincl; now left).
  rewrite (@getitem_member frame name s Hnd Hin).
  cbn [bind summarize_selection].
  rewrite (record_of_summarize s). cbn [bind].
  unfold set_result. cbn [df results].
  rewrite (dict_set_same _ _ (@profile_of_lookup _ frame name s Hnd Hin)).
  apply IH. intros c Hc. apply Hincl. now right.
Qed.

(** X7. Running [_analyze] again on a constructed profiler changes
    nothing: every record is overwritten in place by the same record, and
    the order of the keys is kept. *)
Theorem analyze_idempotent {pandas : Pandas} (frame : DataFrame) :
  NoDup (columns frame) ->
  exists p, __init__ frame = Ok p /\ _analyze p = Ok p.
Proof.
  intros Hnd. eexists. split; [exact (init_profile_of frame Hnd)|].
  unfold _analyze. cbn [df].
  apply (analyze_again Hnd). apply incl_refl.
Qed.

Lemma analyze_idempotent_witness :
  NoDup (columns sample_frame) /\
  exists p,
    @__init__ plain_pandas sample_frame = Ok p
    /\ @_analyze plain_pandas p = Ok p.
Proof.
  split; [exact sample_frame_labels|].
  exact (@analyze_idempotent plain_pandas _ sample_frame_labels).
Defined.
(** ** The display *)

Lemma print_length line out :
  List.length (print line out) = S (List.length out).
Proof. unfold print. rewrite length_app. simpl. lia. Qed.

Lemma display_value_length {console : Console} key value out :
  List.length (display_value key value out)
  = (List.length out + lines_of_value value)%nat.
Proof.
  destruct value; cbn [display_value lines_of_value];
    try (rewrite print_length; lia).
  assert (forall d' out',
             List.length
               (fold_left
                  (fun out entry =>
                     print ("    " ++ fst entry ++ ": "
                            ++ py_format (PInt (snd entry))) out) d' out')
             = (List.length out' + List.length d')%nat) as H.
  { induction d' as [|e d' IH]; intros out'; simpl; [lia|].
    rewrite IH, print_length. lia. }
  rewrite H, print_length. lia.
Qed.

Lemma display_stats_length {console : Console} stats : forall out,
  List.length (display_stats stats out)
  = (List.length out + metric_lines stats)%nat.
Proof.
  unfold display_stats, metric_lines.
  induction stats as [|[k v] stats IH]; intros out; simpl; [lia|].
  rewrite IH. destruct (k =? "type")%string; [lia|].
  rewrite display_value_length. cbn [fst snd]. lia.
Qed.

Lemma headers_print line out :
  filter is_header (print line out)
  = (filter is_header out ++ if is_header line then [line] else [])%list.
Proof.
  unfold print. rewrite filter_app. simpl. now destruct (is_header line).
Qed.

Lemma headers_display_value {console : Console} key value out :
  filter is_header (display_value key value out) = filter is_header out.
Proof.
  assert (Hline : forall x, is_header ("  " ++ x) = false) by reflexivity.
  assert (Hsub : forall x, is_header ("    " ++ x) = false) by reflexivity.
  destruct value; cbn [display_value];
    try (rewrite headers_print, Hline; apply app_nil_r).
  assert (forall d' out',
             filter is_header
               (fold_left
                  (fun out entry =>
                     print ("    " ++ fst entry ++ ": "
                            ++ py_format (PInt (snd entry))) out) d' out')
             = filter is_header out') as H.
  { induction d' as [|e d' IH]; intros out'; cbn [fold_left];
      [reflexivity|].
    rewrite IH, headers_print, Hsub. apply app_nil_r. }
  rewrite H, headers_print, Hline. apply app_nil_r.
Qed.

Lemma headers_display_stats {console : Console} stats : forall out,
  filter is_header (display_stats stats out) = filter is_header out.
Proof.
  unfold display_stats.
  induction stats as [|[k v] stats IH]; intros out; cbn [fold_left fst snd];
    [reflexivity|].
  rewrite IH. destruct (k =? "type")%string; [reflexivity|].
  apply headers_display_value.
Qed.

(** The display of a record that has a type. *)
Lemma display_column_typed {console : Console} column stats kind out :
  dict_get "type" stats = Some (PStr kind) ->
  exists out',
    display_column column stats out = (out', None) /\
    List.length out' = (List.length out + 3 + metric_lines stats)%nat /\
    filter is_header out'
    = (filter is_header out ++ [header_line column kind])%list.
Proof.
  intros H. unfold display_column. rewrite H. eexists.
  split; [reflexivity|]. split.
  - rewrite display_stats_length, !print_length. lia.
  - rewrite headers_display_stats, !headers_print.
    cbn [py_format]. fold (header_line column kind).
    assert (H1 : is_header (str_times "=" 50) = false) by reflexivity.
    assert (H2 : is_header (newline ++ str_times "=" 50) = false)
      by reflexivity.
    assert (H3 : is_header (header_line column kind) = true).
    { unfold is_header, header_line. cbn.
      now destruct (column ++ _). }
    rewrite H1, H2, H3. now rewrite !app_nil_r.
Qed.

(** *** The number of lines of the records *)

Lemma unless_empty_flat non_null value a :
  (forall v, value = Ok v -> flat v) ->
  unless_empty non_null value = Ok a -> flat a.
Proof.
  unfold unless_empty. intros Hv.
  destruct (negb (pd.empty non_null)); [apply Hv|].
  intros H. now injection H as <-.
Qed.

Lemma py_sub_flat a b v : py_sub a b = Ok v -> flat v.
Proof.
  unfold py_sub. intros H.
  destruct a, b; cbn [as_number] in H;
    repeat match type of H with
           | context [match ?x with _ => _ end] => destruct x
           end;
    try discriminate H; now injection H as <-.
Qed.

Lemma py_truediv_flat a b v : py_truediv a b = Ok v -> flat v.
Proof.
  unfold py_truediv. intros H.
  destruct (as_number a), (as_number b); try discriminate H.
  destruct (Qeq_bool q0 0); [discriminate H|]. now injection H as <-.
Qed.

Lemma py_mul_flat a b v : py_mul a b = Ok v -> flat v.
Proof.
  unfold py_mul. intros H.
  destruct a, b; cbn [as_number] in H;
    repeat match type of H with
           | context [match ?x with _ => _ end] => destruct x
           end;
    try discriminate H; now injection H as <-.
Qed.

Lemma aggregate_flat s v :
  pd.min s = Ok v \/ pd.max s = Ok v \/ pd.mean s = Ok v \/
  pd.median s = Ok v \/ pd.std s = Ok v \/ pd.var s = Ok v \/
  pd.sum s = Ok v ->
  flat v.
Proof.
  intros H.
  repeat (destruct H as [H | H]);
    destruct s; cbn in H; try discriminate H;
    try (destruct (present xs); injection H as <-; reflexivity);
    injection H as <-; reflexivity.
Qed.

Lemma quantile_flat q s v : pd.quantile q s = Ok v -> flat v.
Proof.
  destruct s; cbn; intros H; try discriminate H.
  destruct (present xs); injection H as <-; reflexivity.
Qed.

Lemma difference_flat s q1 q2 v :
  (a <- pd.max s ;; b <- pd.min s ;; py_sub a b) = Ok v \/
  (a <- pd.quantile q1 s ;; b <- pd.quantile q2 s ;; py_sub a b) = Ok v ->
  flat v.
Proof.
  intros [H | H]; invert_binds H; now apply py_sub_flat in H.
Qed.

Lemma percentage_flat part total : flat (percentage part total).
Proof. unfold percentage. now destruct (total >? 0). Qed.

Ltac flat_field s :=
  intros ? ?;
  first [ solve [apply (aggregate_flat (pd.dropna s)); tauto]
        | solve [eapply quantile_flat; eassumption]
        | solve [eapply (difference_flat (pd.dropna s)); eauto] ].

Lemma range_flat s v :
  (if negb (pd.empty (pd.dropna s)) && (pd.len (pd.dropna s) >? 1)
   then a <- pd.max (pd.dropna s) ;; b <- pd.min (pd.dropna s) ;; py_sub a b
   else Ok PNone) = Ok v ->
  flat v.
Proof.
  destruct (negb (pd.empty (pd.dropna s)) && (pd.len (pd.dropna s) >? 1)).
  - intros H. apply (difference_flat (pd.dropna s) 0 0). now left.
  - intros H. now injection H as <-.
Qed.

Lemma analyze_numeric_lines s r :
  _analyze_numeric s = Ok r -> metric_lines r = 16%nat.
Proof.
  unfold _analyze_numeric. intros H. invert_binds H.
  repeat match goal with
         | E : unless_empty _ _ = Ok _ |- _ =>
             apply unless_empty_flat in E; [|flat_field s]
         end.
  apply range_flat in E9.
  injection H as <-.
  pose proof (percentage_flat (pd.mask_sum (pd.isna s)) (pd.len s)) as Hp.
  unfold flat in *. unfold metric_lines.
  cbn [map fst snd String.eqb Ascii.eqb Bool.eqb list_sum fold_right
       lines_of_value].
  lia.
Qed.

Lemma analyze_boolean_lines s r :
  _analyze_boolean s = Ok r -> metric_lines r = 9%nat.
Proof.
  unfold _analyze_boolean. intros H. invert_binds H.
  assert (F0 : flat a0) by (apply (aggregate_flat a); tauto).
  apply py_sub_flat in E1.
  assert (F2 : flat a2).
  { destruct (pd.len a >? 0).
    - invert_binds E2. now apply py_mul_flat in E2.
    - now injection E2 as <-. }
  assert (F3 : flat a3).
  { destruct (pd.len a >? 0).
    - invert_binds E3. now apply py_mul_flat in E3.
    - now injection E3 as <-. }
  injection H as <-.
  pose proof (percentage_flat (pd.mask_sum (pd.isna s)) (pd.len s)) as Hp.
  unfold flat in *. unfold metric_lines.
  cbn [map fst snd String.eqb Ascii.eqb Bool.eqb list_sum fold_right
       lines_of_value].
  lia.
Qed.

Lemma analyze_datetime_lines s r :
  _analyze_datetime s = Ok r ->
  metric_lines r
  = (8 + if is_Timedelta (first_value s) then 2 else 0)%nat.
Proof.
  unfold _analyze_datetime. intros H. invert_binds H.
  apply unless_empty_flat in E; [|flat_field s].
  apply unless_empty_flat in E0; [|flat_field s].
  apply range_flat in E1.
  pose proof (percentage_flat (pd.mask_sum (pd.isna s)) (pd.len s)) as Hp.
  destruct (pd.empty (pd.dropna s)) eqn:Hemp; cbn [negb] in H.
  - injection H as <-. rewrite (first_value_empty s Hemp).
    cbn [is_Timedelta]. unfold flat in *. unfold metric_lines.
    cbn [map fst snd String.eqb Ascii.eqb Bool.eqb list_sum fold_right
         lines_of_value].
    lia.
  - rewrite (iloc_first s Hemp) in H. cbn [bind] in H.
    destruct (is_Timedelta (first_value s)).
    + invert_binds H. injection H as <-.
      assert (F2 : flat a2) by (apply (aggregate_flat (pd.dropna s)); tauto).
      assert (F3 : flat a3) by (apply (aggregate_flat (pd.dropna s)); tauto).
      unfold flat in *. unfold metric_lines.
      cbn [map fst snd String.eqb Ascii.eqb Bool.eqb list_sum fold_right
           lines_of_value dict_set].
      lia.
    + injection H as <-.
      unfold flat in *. unfold metric_lines.
      cbn [map fst snd String.eqb Ascii.eqb Bool.eqb list_sum fold_right
           lines_of_value].
      lia.
Qed.

Lemma int_aggregates_flat l :
  flat (pd.int_min l) /\ flat (pd.int_max l) /\ flat (pd.int_mean l).
Proof. now destruct l. Qed.

Lemma value_counts_length l :
  List.length (pd.value_counts l)
  = Z.to_nat (pd.str_nunique l).
Proof.
  unfold pd.value_counts, pd.str_nunique.
  rewrite (Permutation_length (sort_desc_perm _)), length_map. lia.
Qed.

Lemma analyze_string_lines {pandas : Pandas} s r :
  _analyze_string s = Ok r ->
  metric_lines r
  = (10 + Nat.min 5 (Z.to_nat (pd.str_nunique
                                 (pd.astype_str (pd.dropna s)))))%nat.
Proof.
  unfold _analyze_string. set (strings := pd.astype_str (pd.dropna s)).
  assert (Hlen :
    flat (fst (fst (if negb (List.length strings =? 0)%nat
                    then try_except
                           (lengths <- str_len strings ;;
                            Ok (pd.int_min lengths, pd.int_max lengths,
                                pd.int_mean lengths))
                           (PNone, PNone, PNone)
                    else (PNone, PNone, PNone)))) /\
    flat (snd (fst (if negb (List.length strings =? 0)%nat
                    then try_except
                           (lengths <- str_len strings ;;
                            Ok (pd.int_min lengths, pd.int_max lengths,
                                pd.int_mean lengths))
                           (PNone, PNone, PNone)
                    else (PNone, PNone, PNone)))) /\
    flat (snd (if negb (List.length strings =? 0)%nat
               then try_except
                      (lengths <- str_len strings ;;
                       Ok (pd.int_min lengths, pd.int_max lengths,
                           pd.int_mean lengths))
                      (PNone, PNone, PNone)
               else (PNone, PNone, PNone)))).
  { destruct (negb (List.length strings =? 0)%nat); [|now repeat split].
    destruct (str_len strings) as [lengths|e]; cbn; [|now repeat split].
    apply int_aggregates_flat. }
  destruct (if negb (List.length strings =? 0)%nat then _ else _)
    as [[mn mx] me].
  cbn [fst snd] in Hlen. destruct Hlen as (F1 & F2 & F3).
  assert (Htop :
    List.length (if negb (List.length strings =? 0)%nat
                 then pd.head 5 (pd.value_counts strings) else [])
    = Nat.min 5 (Z.to_nat (pd.str_nunique strings))).
  { destruct strings as [|x l]; [reflexivity|].
    cbn [List.length Nat.eqb negb]. unfold pd.head.
    now rewrite length_firstn, value_counts_length. }
  set (top := if negb (List.length strings =? 0)%nat
              then pd.head 5 (pd.value_counts strings) else []) in *.
  clearbody top.
  intros H. injection H as <-.
  pose proof (percentage_flat (pd.mask_sum (pd.isna s)) (pd.len s)) as Hp.
  unfold flat in *. unfold metric_lines.
  cbn [map fst snd String.eqb Ascii.eqb Bool.eqb list_sum fold_right
       lines_of_value].
  rewrite Htop. lia.
Qed.

Lemma record_of_kind {pandas : Pandas} s :
  exists k,
    _determine_type s = tag k /\
    summarizer k s = Ok (record_of s) /\
    dict_get "type" (record_of s) = Some (PStr (_determine_type s)).
Proof.
  destruct (summarize_dispatch s) as (k & r & Hk & Hr & Hs & Ht).
  exists k. unfold record_of. rewrite Hs.
  rewrite (determine_type_sound Hk). repeat split; assumption.
Qed.

Lemma record_of_lines {pandas : Pandas} s :
  (3 + metric_lines (record_of s))%nat = column_lines s.
Proof.
  destruct (record_of_kind s) as (k & Hk & Hr & _).
  unfold column_lines. rewrite Hk.
  destruct k; cbn [tag summarizer String.eqb Ascii.eqb Bool.eqb] in *.
  - now rewrite (analyze_numeric_lines _ Hr).
  - now rewrite (analyze_boolean_lines _ Hr).
  - rewrite (analyze_string_lines _ Hr). lia.
  - rewrite (analyze_datetime_lines _ Hr).
    destruct (summarize_dispatch s) as (k' & r' & Hc & _).
    assert (k' = Datetime) as ->
      by (apply tag_inj; rewrite <- (determine_type_sound Hc); exact Hk).
    inversion Hc; subst.
    assert (E : is_Timedelta (first_value (DatetimeSeries xs)) = false).
    { unfold first_value. cbn [pd.values]. rewrite present_map.
      now destruct (present xs). }
    now rewrite E.
Qed.

Lemma display_profile_of {pandas : Pandas} {console : Console} frame :
  forall out,
  exists out',
    display_items (profile_of frame) out = (out', None) /\
    filter is_header out'
    = (filter is_header out
       ++ map (fun c => header_line (fst c) (_determine_type (snd c)))
            frame)%list
    /\
    List.length out'
    = (List.length out
       + list_sum (map (fun c => column_lines (snd c)) frame))%nat.
Proof.
  induction frame as [|[name s] frame IH]; intros out.
  - exists out. cbn. rewrite app_nil_r. repeat split. lia.
  - cbn [profile_of map fst snd display_items]. fold (profile_of frame).
    destruct (record_of_kind s) as (k & _ & _ & Ht).
    destruct (display_column_typed name (record_of s) out Ht)
      as (out1 & E1 & L1 & H1).
    rewrite E1.
    destruct (IH out1) as (out2 & E2 & H2 & L2).
    exists out2. split; [exact E2|]. split.
    + rewrite H2, H1, <- app_assoc. reflexivity.
    + rewrite L2, L1, <- (record_of_lines s). cbn [list_sum fold_right].
      unfold list_sum. lia.
Qed.

(** X8. On the profile of a frame with distinct labels,
    [display_profile] runs to the end without an exception, and the lines
    it prints that start with "Column: " are, in column order, one header
    per column giving the label of the column and the kind the classifier
    gives it. *)
Theorem display_headers {pandas : Pandas} {console : Console}
  (frame : DataFrame) :
  NoDup (columns frame) ->
  exists p out,
    __init__ frame = Ok p /\
    display_profile p = (out, None) /\
    filter (String.prefix "Column: ") out
    = map (fun c => header_line (fst c) (_determine_type (snd c))) frame.
Proof.
  intros Hnd.
  destruct (display_profile_of frame []) as (out & E & H & _).
  eexists. exists out. split; [exact (init_profile_of frame Hnd)|].
  split; [exact E|]. exact H.
Qed.

Lemma display_headers_witness :
  NoDup (columns sample_frame) /\
  exists p out,
    @__init__ plain_pandas sample_frame = Ok p /\
    @display_profile plain_console p = (out, None) /\
    filter (String.prefix "Column: ") out
    = map (fun c => header_line (fst c) (_determine_type (snd c)))
        sample_frame.
Proof.
  split; [exact sample_frame_labels|].
  exact (@display_headers plain_pandas plain_console _ sample_frame_labels).
Defined.

(** X9. On the profile of a frame with distinct labels,
    [display_profile] prints for each column three lines of header and
    one line per key other than type, plus one line per entry of the
    mapping of frequencies: 19 lines for a Numeric column, 12 for a
    Boolean one, 11 for a Datetime one, and 13 plus the number of
    distinct texts, at most 5, for a String one. *)
Theorem display_line_count {pandas : Pandas} {console : Console}
  (frame : DataFrame) :
  NoDup (columns frame) ->
  exists p out,
    __init__ frame = Ok p /\
    display_profile p = (out, None) /\
    List.length out = list_sum (map (fun c => column_lines (snd c)) frame).
Proof.
  intros Hnd.
  destruct (display_profile_of frame []) as (out & E & _ & L).
  eexists. exists out. split; [exact (init_profile_of frame Hnd)|].
  split; [exact E|]. exact L.
Qed.

Lemma display_line_count_witness :
  NoDup (columns sample_frame) /\
  exists p out,
    @__init__ plain_pandas sample_frame = Ok p /\
    @display_profile plain_console p = (out, None) /\
    List.length out
    = list_sum (map (fun c => @column_lines plain_pandas (snd c))
                  sample_frame).
Proof.
  split; [exact sample_frame_labels|].
  exact (@display_line_count plain_pandas plain_console _
           sample_frame_labels).
Defined.

(** X10. [display_profile] raises nothing when every record has the key
    type.  Otherwise it raises [KeyError] at the first record without it:
    the records before are displayed in full, then the separator line of
    that record is printed, and nothing after. *)
Theorem display_key_error {console : Console} (items : dict record)
  (out : stdout) :
  (Forall has_type items -> snd (display_items items out) = None) /\
  (forall before column stats rest,
     items = (before ++ (column, stats) :: rest)%list ->
     Forall has_type before ->
     dict_get "type" stats = None ->
     exists shown,
       display_items before out = (shown, None) /\
       display_items items out
       = (print (newline ++ str_times "=" 50) shown, Some KeyError)).
Proof.
  assert (Hok : forall l o, Forall has_type l ->
                            exists o', display_items l o = (o', None)).
  { induction l as [|[c st] l IH]; intros o Hl; [now exists o|].
    inversion Hl as [|? ? Hc Hl']; subst. cbn [display_items].
    unfold display_column. unfold has_type in Hc. cbn [snd] in Hc.
    destruct (dict_get "type" st); [|contradiction]. now apply IH. }
  split.
  - intros H. destruct (Hok items out H) as (o' & E). now rewrite E.
  - intros before column stats rest -> Hb Ht. revert out.
    induction before as [|[c st] before IH]; intros out.
    + exists out. split; [reflexivity|].
      cbn [app display_items]. unfold display_column. now rewrite Ht.
    + inversion Hb as [|? ? Hc Hb']; subst.
      cbn [app display_items]. unfold display_column.
      unfold has_type in Hc. cbn [snd] in Hc.
      destruct (dict_get "type" st); [|contradiction].
      now apply IH.
Qed.
(** ** Relations between the numeric statistics *)

Lemma qmin_In x t : In (pd.qmin x t) (x :: t).
Proof.
  induction t as [|z t IH]; simpl; [now left|].
  destruct (Qle_bool z (pd.qmin x t)); [now right; left|].
  destruct IH as [IH | IH]; [now left | now right; right].
Qed.

Lemma qmax_In x t : In (pd.qmax x t) (x :: t).
Proof.
  induction t as [|z t IH]; simpl; [now left|].
  destruct (Qle_bool (pd.qmax x t) z); [now right; left|].
  destruct IH as [IH | IH]; [now left | now right; right].
Qed.

Lemma size_cons {A} (x : A) l : (pd.size (x :: l) == pd.size l + 1)%Q.
Proof.
  unfold pd.size. cbn [List.length]. rewrite Nat2Z.inj_succ.
  unfold Z.succ. rewrite inject_Z_plus. reflexivity.
Qed.

Lemma size_nonneg {A} (l : list A) : (0 <= pd.size l)%Q.
Proof.
  unfold pd.size. change 0%Q with (inject_Z 0).
  rewrite <- Zle_Qle. lia.
Qed.

Lemma qsum_lower a l :
  Forall (fun y => a <= y)%Q l -> (a * pd.size l <= pd.qsum l)%Q.
Proof.
  induction 1 as [|y l Hy _ IH];
    [unfold pd.size; cbn [List.length pd.qsum fold_right Z.of_nat];
     change (inject_Z 0) with 0%Q; lra|].
  cbn [pd.qsum fold_right]. fold (pd.qsum l). rewrite size_cons. lra.
Qed.

Lemma qsum_upper b l :
  Forall (fun y => y <= b)%Q l -> (pd.qsum l <= b * pd.size l)%Q.
Proof.
  induction 1 as [|y l Hy _ IH];
    [unfold pd.size; cbn [List.length pd.qsum fold_right Z.of_nat];
     change (inject_Z 0) with 0%Q; lra|].
  cbn [pd.qsum fold_right]. fold (pd.qsum l). rewrite size_cons. lra.
Qed.

Lemma size_positive {A} (x : A) l : (0 < pd.size (x :: l))%Q.
Proof. rewrite size_cons. pose proof (size_nonneg l). lra. Qed.

Lemma qmean_between a b x t :
  Forall (fun y => a <= y /\ y <= b)%Q (x :: t) ->
  (a <= pd.qmean (x :: t) /\ pd.qmean (x :: t) <= b)%Q.
Proof.
  intros H. unfold pd.qmean.
  pose proof (size_positive x t) as Hpos.
  split.
  - apply Qle_shift_div_l; [assumption|]. apply qsum_lower.
    eapply Forall_impl; [|exact H]. intros y Hy. apply Hy.
  - apply Qle_shift_div_r; [assumption|]. apply qsum_upper.
    eapply Forall_impl; [|exact H]. intros y Hy. apply Hy.
Qed.

Lemma square_nonneg y : (0 <= y * y)%Q.
Proof.
  destruct (Qlt_le_dec y 0) as [H | H].
  - setoid_replace (y * y)%Q with ((- y) * (- y))%Q by ring.
    apply Qmult_le_0_compat; lra.
  - now apply Qmult_le_0_compat.
Qed.

Lemma qsum_squares_nonneg m l :
  (0 <= pd.qsum (map (fun x => (x - m) * (x - m)) l))%Q.
Proof.
  induction l as [|x l IH]; [cbn; lra|].
  cbn [map pd.qsum fold_right].
  fold (pd.qsum (map (fun x => (x - m) * (x - m))%Q l)).
  pose proof (square_nonneg (x - m)) as Hs. lra.
Qed.

Lemma qvar_nonneg x y t :
  exists v, pd.qvar (x :: y :: t) = Fin v /\ (0 <= v)%Q.
Proof.
  unfold pd.qvar. cbn [List.length Nat.leb]. eexists. split; [reflexivity|].
  apply Qle_shift_div_l.
  - rewrite !size_cons. pose proof (size_nonneg t). lra.
  - pose proof (qsum_squares_nonneg (pd.qmean (x :: y :: t)) (x :: y :: t)).
    lra.
Qed.

(** X11. In the record of the numeric summarizer on a numeric column
    with a non-null value, all of whose non-null values are of magnitude
    at most 2^53, min and max are values of the column and bound all the
    others; with at least two values the variance is a number that is not
    negative and std is its square root. *)
Theorem numeric_spread (xs : list (option Q)) :
  present xs <> [] ->
  Forall moderate (present xs) ->
  exists r,
    _analyze_numeric (NumericSeries xs) = Ok r /\
    spread_summary (present xs) r.
Proof.
  intros Hne _. destruct (present xs) as [|x t] eqn:H; [tauto|].
  pose proof (analyze_numeric_nonempty xs H) as E. cbv zeta in E.
  eexists. split; [exact E|].
  assert (Hall : Forall (fun v => pd.qmin x t <= v /\ v <= pd.qmax x t)%Q
                   (x :: t)).
  { apply Forall_forall. intros v Hv.
    split; [now apply qmin_le | now apply qmax_ge]. }
  exists (pd.qmin x t), (pd.qmax x t).
  do 2 (split; [reflexivity|]).
  split; [apply qmin_In|]. split; [apply qmax_In|].
  split; [exact Hall|].
  intros Hl. destruct t as [|y t]; [simpl in Hl; lia|].
  destruct (qvar_nonneg x y t) as (v & Hv & Hpos).
  exists v. cbn [dict_get String.eqb Ascii.eqb Bool.eqb].
  unfold pd.qstd. rewrite Hv. repeat split. exact Hpos.
Qed.

Lemma numeric_spread_witness :
  present id_cells <> [] /\
  Forall moderate (present id_cells) /\
  exists r,
    _analyze_numeric (NumericSeries id_cells) = Ok r /\
    spread_summary (present id_cells) r.
Proof.
  split; [discriminate|].
  split; [repeat constructor; discriminate|].
  apply numeric_spread; [discriminate | repeat constructor; discriminate].
Defined.
(** ** Ranges of the boolean statistics *)

Lemma unique_bools bs : forall seen,
  (List.length (pd.unique_from py_eqb seen (map SBool bs)) + seen_count seen
   <= 2)%nat.
Proof.
  induction bs as [|b bs IH]; intros seen.
  - unfold seen_count. simpl.
    destruct (existsb _ seen), (existsb _ seen); lia.
  - cbn [map pd.unique_from].
    destruct (existsb (py_eqb (SBool b)) seen) eqn:E; [apply IH|].
    specialize (IH (SBool b :: seen)). cbn [List.length].
    unfold seen_count in *. cbn [existsb py_eqb] in IH.
    destruct b; cbn [Bool.eqb orb] in IH; rewrite E in *; cbn [orb] in IH;
      destruct (existsb _ seen); lia.
Qed.

Lemma nunique_bools cells : 0 <= pd.nunique (BoolSeries cells) <= 2.
Proof.
  unfold pd.nunique, pd.unique. cbn [pd.values]. rewrite present_map.
  pose proof (unique_bools (present cells) []) as H.
  unfold seen_count in H. cbn in H. lia.
Qed.

Lemma count_true_bounds bs :
  0 <= count_true bs <= Z.of_nat (List.length bs).
Proof.
  unfold count_true. pose proof (filter_length_le (fun b : bool => b) bs).
  lia.
Qed.

Lemma ratio_bounds a n :
  0 <= a <= n -> 0 < n ->
  (0 <= inject_Z a / inject_Z n * 100
   /\ inject_Z a / inject_Z n * 100 <= 100)%Q.
Proof.
  intros [H0 H1] Hn.
  assert (Hq : (0 < inject_Z n)%Q)
    by (change 0%Q with (inject_Z 0); now rewrite <- Zlt_Qlt).
  assert (Ha : (0 <= inject_Z a)%Q)
    by (change 0%Q with (inject_Z 0); now rewrite <- Zle_Qle).
  assert (Han : (inject_Z a <= inject_Z n)%Q) by (now rewrite <- Zle_Qle).
  assert (0 <= inject_Z a / inject_Z n)%Q
    by (apply Qle_shift_div_l; [assumption | lra]).
  assert (inject_Z a / inject_Z n <= 1)%Q
    by (apply Qle_shift_div_r; [assumption | lra]).
  split; lra.
Qed.

(** X12. In the record of the boolean summarizer on a column of numeric
    or bool storage, true_count and false_count lie between 0 and count,
    unique_count is at most 2, and when there is a non-null value both
    percentages lie between 0 and 100. *)
Theorem boolean_ranges (s : Series) :
  pd.is_numeric_dtype s = true ->
  exists r, _analyze_boolean s = Ok r /\ boolean_bounds r.
Proof.
  intros Hnum.
  destruct (analyze_boolean_flags s Hnum) as (u & E).
  destruct (astype_bool_dropna s Hnum) as (cells & Hb & Hp & Hl).
  assert (Hu : u = pd.nunique (BoolSeries cells)).
  { pose proof E as E'. unfold _analyze_boolean in E'.
    rewrite Hnum, Hb in E'. cbn [bind] in E'. invert_binds E'.
    injection E'. intros. symmetry. assumption. }
  set (n := Z.of_nat (List.length (truth_values s))) in *.
  set (trues := count_true (truth_values s)) in *.
  pose proof (count_true_bounds (truth_values s)) as Ht.
  fold trues in Ht. fold n in Ht.
  eexists. split; [exact E|].
  exists n, trues, (n - trues), u.
  do 4 (split; [reflexivity|]).
  split; [lia|]. split; [lia|].
  split; [rewrite Hu; apply nunique_bools|].
  intros Hpos.
  assert (Hn : (n >? 0) = true) by (rewrite Z.gtb_ltb; now apply Z.ltb_lt).
  cbn [dict_get String.eqb Ascii.eqb Bool.eqb]. rewrite Hn.
  do 2 eexists. do 2 (split; [reflexivity|]).
  split; apply ratio_bounds; lia.
Qed.

Lemma boolean_ranges_witness :
  pd.is_numeric_dtype (NumericSeries flag_cells) = true /\
  exists r,
    _analyze_boolean (NumericSeries flag_cells) = Ok r /\ boolean_bounds r.
Proof.
  split; [reflexivity|].
  apply boolean_ranges. reflexivity.
Defined.

Lemma filter_map_cells {A B} (f : A -> B) (xs : list (option A)) :
  filter not_null (map (option_map f) xs)
  = map (option_map f) (filter not_null xs).
Proof.
  induction xs as [|[x|] xs IH]; simpl; [reflexivity| |assumption].
  now rewrite IH.
Qed.

(** X13. The boolean summarizer treats a numeric column exactly as the
    bool column of its coerced cells (zero to False, any other number to
    True, nulls kept): the two records are equal field for field. *)
Theorem boolean_coercion (xs : list (option Q)) :
  _analyze_boolean (NumericSeries xs)
  = _analyze_boolean (BoolSeries (map (option_map truth) xs)).
Proof.
  unfold _analyze_boolean.
  cbn [pd.is_numeric_dtype pd.dropna pd.astype_bool bind].
  rewrite filter_map_cells.
  assert (Hlen : pd.len (BoolSeries (map (option_map truth) xs))
                 = pd.len (NumericSeries xs))
    by (unfold pd.len; cbn [pd.values]; now rewrite !length_map).
  assert (Hna : pd.isna (BoolSeries (map (option_map truth) xs))
                = pd.isna (NumericSeries xs)).
  { unfold pd.isna. cbn [pd.values]. rewrite !map_map.
    apply map_ext. now intros [x|]. }
  rewrite Hlen, Hna. reflexivity.
Qed.
(** ** The mapping of frequencies *)

Lemma count_indicator x ks :
  NoDup ks ->
  fold_right Z.add 0 (map (fun k => if String.eqb k x then 1 else 0) ks)
  = if existsb (String.eqb x) ks then 1 else 0.
Proof.
  induction 1 as [|k ks Hk Hnd IH]; [reflexivity|].
  cbn [map fold_right existsb]. rewrite IH.
  rewrite (String.eqb_sym x k).
  destruct (String.eqb_spec k x) as [-> | Hne]; cbn [orb]; [|lia].
  destruct (existsb (String.eqb x) ks) eqn:E; [|lia].
  apply existsb_eqb_In in E. contradiction.
Qed.

Lemma sum_map_add {A} (f g : A -> Z) ks :
  fold_right Z.add 0 (map (fun k => f k + g k) ks)
  = fold_right Z.add 0 (map f ks) + fold_right Z.add 0 (map g ks).
Proof. induction ks as [|k ks IH]; simpl; lia. Qed.

(** The counts of distinct keys add up to the number of values that are
    among the keys. *)
Lemma counts_total ks l :
  NoDup ks ->
  fold_right Z.add 0 (map (fun k => pd.count k l) ks)
  = Z.of_nat (List.length (filter (fun x => existsb (String.eqb x) ks) l)).
Proof.
  intros Hnd. induction l as [|x l IH].
  - clear Hnd. simpl. induction ks; simpl; lia.
  - cbn [pd.count filter]. rewrite sum_map_add, IH, (count_indicator x Hnd).
    destruct (existsb (String.eqb x) ks); cbn [List.length]; lia.
Qed.

Lemma filter_all {A} (f : A -> bool) l :
  (forall x, In x l -> f x = true) -> filter f l = l.
Proof.
  induction l as [|x l IH]; intros H; simpl; [reflexivity|].
  rewrite (H x (or_introl eq_refl)), IH; [reflexivity|].
  intros y Hy. apply H. now right.
Qed.

Lemma frequency_total_perm l l' :
  Permutation l l' -> frequency_total l = frequency_total l'.
Proof.
  unfold frequency_total.
  induction 1; simpl; lia.
Qed.

Lemma value_counts_total l :
  frequency_total (pd.value_counts l) = Z.of_nat (List.length l).
Proof.
  unfold pd.value_counts.
  rewrite (frequency_total_perm (sort_desc_perm _)).
  unfold frequency_total. rewrite map_map. cbn [snd].
  rewrite (counts_total l (unique_from_NoDup l [])).
  rewrite filter_all; [reflexivity|].
  intros x Hx. apply existsb_eqb_In, unique_from_spec. simpl. tauto.
Qed.

Lemma frequency_total_app l1 l2 :
  frequency_total (l1 ++ l2)
  = frequency_total l1 + frequency_total l2.
Proof.
  unfold frequency_total. rewrite map_app.
  induction (map snd l1) as [|z zs IH]; simpl; lia.
Qed.

Lemma value_counts_nonneg l :
  Forall (fun e => 0 <= snd e) (pd.value_counts l).
Proof.
  apply Forall_forall. intros [k c] H. apply value_counts_entries in H.
  destruct H as [_ ->]. apply count_nonneg.
Qed.

Lemma frequency_total_nonneg l :
  Forall (fun e : string * Z => 0 <= snd e) l -> 0 <= frequency_total l.
Proof.
  unfold frequency_total. induction 1; simpl; lia.
Qed.

Lemma Forall_skipn {A} (P : A -> Prop) n l :
  Forall P l -> Forall P (skipn n l).
Proof.
  intros H. rewrite <- (firstn_skipn n l) in H.
  now apply Forall_app in H.
Qed.

(** X14. In the record of the string summarizer, the mapping of
    frequencies has min(5, unique_count) entries; its counts add up to at
    most count, and to exactly count when there are at most 5 distinct
    texts, so that no value is left out then. *)
Theorem frequencies_cover {pandas : Pandas} (s : Series) :
  exists r, _analyze_string s = Ok r /\ frequency_cover r.
Proof.
  unfold _analyze_string.
  set (strings := pd.astype_str (pd.dropna s)).
  destruct (if negb (List.length strings =? 0)%nat then _ else _)
    as [[mn mx] me].
  eexists. split; [reflexivity|].
  set (top := if negb (List.length strings =? 0)%nat
              then pd.head 5 (pd.value_counts strings) else []).
  exists top, (Z.of_nat (List.length strings)), (pd.str_nunique strings).
  do 3 (split; [reflexivity|]).
  assert (Htop : top = firstn 5 (pd.value_counts strings)).
  { unfold top. destruct strings; reflexivity. }
  pose proof (value_counts_total strings) as Htotal.
  rewrite <- (firstn_skipn 5 (pd.value_counts strings)) in Htotal.
  rewrite frequency_total_app, <- Htop in Htotal.
  split; [rewrite Htop, length_firstn, value_counts_length; reflexivity|].
  split.
  - pose proof (frequency_total_nonneg
                  (Forall_skipn 5 (value_counts_nonneg strings))).
    lia.
  - intros Hu. rewrite skipn_all2 in Htotal.
    + unfold frequency_total in Htotal at 2. simpl in Htotal. lia.
    + rewrite value_counts_length. lia.
Qed.

(** ** The lengths *)

Lemma zmin_spec x t :
  In (pd.zmin x t) (x :: t) /\ Forall (fun y => pd.zmin x t <= y) (x :: t).
Proof.
  induction t as [|z t [Hin Hall]]; cbn [pd.zmin fold_right].
  - split; [now left | repeat constructor; lia].
  - fold (pd.zmin x t). inversion Hall as [|? ? Hx Ht]; subst. split.
    + destruct (Z.min_spec z (pd.zmin x t)) as [[_ ->] | [_ ->]];
        [now right; left|].
      destruct Hin as [Hin | Hin]; [now left | now right; right].
    + constructor; [lia|]. constructor; [lia|].
      eapply Forall_impl; [|exact Ht]. intros y Hy. cbn beta in *. lia.
Qed.

Lemma zmax_spec x t :
  In (pd.zmax x t) (x :: t) /\ Forall (fun y => y <= pd.zmax x t) (x :: t).
Proof.
  induction t as [|z t [Hin Hall]]; cbn [pd.zmax fold_right].
  - split; [now left | repeat constructor; lia].
  - fold (pd.zmax x t). inversion Hall as [|? ? Hx Ht]; subst. split.
    + destruct (Z.max_spec z (pd.zmax x t)) as [[_ ->] | [_ ->]];
        [destruct Hin as [Hin | Hin]; [now left | now right; right]|].
      now right; left.
    + constructor; [lia|]. constructor; [lia|].
      eapply Forall_impl; [|exact Ht]. intros y Hy. cbn beta in *. lia.
Qed.

Lemma count_empty_bounds l :
  0 <= pd.count_empty l <= Z.of_nat (List.length l).
Proof.
  unfold pd.count_empty. pose proof (filter_length_le (String.eqb "") l).
  lia.
Qed.

Lemma count_empty_positive l :
  0 < pd.count_empty l <-> In "" l.
Proof.
  unfold pd.count_empty. split.
  - intros H. destruct (filter (String.eqb "") l) as [|x f] eqn:E;
      [simpl in H; lia|].
    assert (Hx : In x (filter (String.eqb "") l)) by (rewrite E; now left).
    apply filter_In in Hx. destruct Hx as [Hx Heq].
    apply String.eqb_eq in Heq. now subst.
  - intros H.
    assert (Hx : In "" (filter (String.eqb "") l))
      by (apply filter_In; split; [assumption | reflexivity]).
    destruct (filter (String.eqb "") l); [contradiction | simpl; lia].
Qed.

Lemma length_zero s : Z.of_nat (String.length s) = 0 <-> s = "".
Proof.
  destruct s; simpl; split; intros H; try reflexivity; try lia;
    discriminate.
Qed.

Lemma int_mean_between z zt :
  (inject_Z (pd.zmin z zt) <= pd.qmean (map inject_Z (z :: zt))
   /\ pd.qmean (map inject_Z (z :: zt)) <= inject_Z (pd.zmax z zt))%Q.
Proof.
  destruct (zmin_spec z zt) as [_ Hmin], (zmax_spec z zt) as [_ Hmax].
  rewrite Forall_forall in Hmin, Hmax.
  cbn [map]. apply qmean_between. apply Forall_forall. intros q Hq.
  change (inject_Z z :: map inject_Z zt) with (map inject_Z (z :: zt)) in Hq.
  apply in_map_iff in Hq. destruct Hq as (y & <- & Hy).
  rewrite <- !Zle_Qle. split; [now apply Hmin | now apply Hmax].
Qed.

(** X15. With a collaborator whose [str.len()] measures every string,
    the record of the string summarizer on a column with a non-null value
    has 0 <= min_length <= mean_length <= max_length and 0 <= empty_count
    <= count, and min_length is 0 exactly when empty_count is positive. *)
Theorem lengths_consistent {pandas : Pandas} (s : Series) :
  measures pandas ->
  present (pd.values s) <> [] ->
  exists r, _analyze_string s = Ok r /\ length_summary r.
Proof.
  intros Hm Hne. unfold _analyze_string.
  set (strings := pd.astype_str (pd.dropna s)).
  assert (Hs : exists x t, strings = x :: t).
  { pose proof (astype_str_length s) as Hl. fold strings in Hl.
    destruct strings as [|x t]; [|eauto].
    destruct (present (pd.values s)); [tauto | discriminate Hl]. }
  destruct Hs as (x & t & Hs). rewrite Hs.
  cbn [List.length Nat.eqb negb]. rewrite (Hm (x :: t)).
  cbn [bind try_except map pd.int_min pd.int_max pd.int_mean].
  set (len := fun s0 : string => Z.of_nat (String.length s0)).
  eexists. split; [reflexivity|].
  destruct (zmin_spec (len x) (map len t)) as [Hmin_in Hmin_le].
  destruct (zmax_spec (len x) (map len t)) as [Hmax_in Hmax_ge].
  do 5 eexists. do 5 (split; [reflexivity|]).
  change (len x :: map len t) with (map len (x :: t)) in *.
  assert (Hnonneg : 0 <= pd.zmin (len x) (map len t)).
  { apply in_map_iff in Hmin_in. destruct Hmin_in as (y & <- & _).
    unfold len. lia. }
  split; [exact Hnonneg|].
  split; [apply int_mean_between|].
  split; [apply count_empty_bounds|].
  rewrite count_empty_positive. split.
  - intros H0.
    replace (pd.zmin (len x) (map len t)) with 0 in Hmin_in
      by (symmetry; exact H0).
    apply in_map_iff in Hmin_in. destruct Hmin_in as (y & Hy & Hin).
    apply length_zero in Hy. now subst.
  - intros Hin.
    assert (Hz : In 0 (map len (x :: t)))
      by (change 0 with (len ""); now apply in_map).
    rewrite Forall_forall in Hmin_le. specialize (Hmin_le _ Hz).
    apply Z.le_antisymm; [exact Hmin_le | exact Hnonneg].
Qed.

Lemma plain_pandas_measures : measures plain_pandas.
Proof. intros l. reflexivity. Defined.

Lemma lengths_consistent_witness :
  measures plain_pandas /\
  present (pd.values (ObjectSeries name_cells)) <> [] /\
  exists r,
    @_analyze_string plain_pandas (ObjectSeries name_cells) = Ok r
    /\ length_summary r.
Proof.
  split; [exact plain_pandas_measures|].
  split; [discriminate|].
  apply (@lengths_consistent plain_pandas);
    [exact plain_pandas_measures | discriminate].
Defined.
(** ** Extremes of a datetime column *)

Lemma analyze_datetime_nonempty xs x t :
  present xs = x :: t ->
  let s := DatetimeSeries xs in
  _analyze_datetime s =
  Ok [ ("type", PStr "datetime");
       ("count", PInt (pd.len (pd.dropna s)));
       ("null_count", PInt (pd.mask_sum (pd.isna s)));
       ("null_percentage", percentage (pd.mask_sum (pd.isna s)) (pd.len s));
       ("unique_count", PInt (pd.nunique (pd.dropna s)));
       ("duplicate_count",
         PInt (pd.len (pd.dropna s) - pd.nunique (pd.dropna s)));
       ("min", PTimestamp (pd.zmin x t));
       ("max", PTimestamp (pd.zmax x t));
       ("range", if (List.length t =? 0)%nat then PNone
                 else PTimedelta (pd.zmax x t - pd.zmin x t)) ].
Proof.
  intros H s. unfold _analyze_datetime, unless_empty.
  assert (Hp : present (pd.values s) = map STimestamp (x :: t))
    by (unfold s; cbn [pd.values]; now rewrite present_map, H).
  assert (Hemp : pd.empty (pd.dropna s) = false)
    by (rewrite empty_dropna, Hp; reflexivity).
  assert (Hmin : pd.min (pd.dropna s) = Ok (PTimestamp (pd.zmin x t)))
    by (unfold s; cbn [pd.dropna pd.min];
        now rewrite present_filter_not_null, H).
  assert (Hmax : pd.max (pd.dropna s) = Ok (PTimestamp (pd.zmax x t)))
    by (unfold s; cbn [pd.dropna pd.max];
        now rewrite present_filter_not_null, H).
  assert (Hlen : (pd.len (pd.dropna s) >? 1)
                 = negb (List.length t =? 0)%nat).
  { rewrite len_dropna, Hp. destruct t; [reflexivity|].
    cbn [List.length map]. rewrite Z.gtb_ltb. apply Z.ltb_lt. lia. }
  rewrite Hemp, Hmin, Hmax, Hlen, (iloc_first s Hemp).
  unfold first_value. rewrite Hp.
  cbn [bind py_sub negb andb map hd_error is_Timedelta].
  destruct t; reflexivity.
Qed.

(** X16. In the record the engine produces for a naive datetime64
    column with a non-null value, no two timestamps of which are more
    than 2^63 - 1 ns apart, min and max are timestamps of the column that
    bound all the others; range is the duration max - min, not negative
    and at most 2^63 - 1 ns, when there are at least two non-null values,
    and None when there is one. *)
Theorem datetime_extremes {pandas : Pandas} (xs : list (option Z)) :
  present xs <> [] ->
  range_representable (DatetimeSeries xs) ->
  exists r,
    summarize (DatetimeSeries xs) = Ok (Some r) /\
    dict_get "type" r = Some (PStr "datetime") /\
    timestamp_summary (present xs) r.
Proof.
  intros Hne Hrange. cbn [range_representable] in Hrange.
  destruct (present xs) as [|x t] eqn:H; [tauto|].
  pose proof (analyze_datetime_nonempty xs H) as E. cbv zeta in E.
  assert (Hc : _determine_type (DatetimeSeries xs) = tag Datetime).
  { apply determine_type_sound. constructor.
    rewrite degenerate_present. cbn [pd.values].
    rewrite present_map, H. discriminate. }
  eexists. split.
  { rewrite (summarize_kind _ Datetime Hc). cbn [summarizer].
    now rewrite E. }
  split; [reflexivity|].
  destruct (zmin_spec x t) as [Hmin_in Hmin], (zmax_spec x t) as [Hmax_in Hmax].
  exists (pd.zmin x t), (pd.zmax x t).
  do 2 (split; [reflexivity|]).
  split; [exact Hmin_in|]. split; [exact Hmax_in|].
  rewrite Forall_forall in Hmin, Hmax.
  split.
  { apply Forall_forall. intros v Hv. split; auto. }
  split.
  - intros Hl. destruct t as [|y t]; [simpl in Hl; lia|].
    split; [reflexivity|].
    specialize (Hrange _ _ Hmax_in Hmin_in).
    specialize (Hmin _ Hmax_in). lia.
  - intros Hl. destruct t; [reflexivity | simpl in Hl; lia].
Qed.

Lemma datetime_extremes_witness :
  present [Some 5; None; Some 2; Some 9] <> [] /\
  range_representable (DatetimeSeries [Some 5; None; Some 2; Some 9]) /\
  exists r,
    @summarize plain_pandas (DatetimeSeries [Some 5; None; Some 2; Some 9])
    = Ok (Some r) /\
    dict_get "type" r = Some (PStr "datetime") /\
    timestamp_summary (present [Some 5; None; Some 2; Some 9]) r.
Proof.
  assert (R : range_representable
                (DatetimeSeries [Some 5; None; Some 2; Some 9])).
  { cbn [range_representable present In]. unfold timedelta_max.
    intros a b Ha Hb. lia. }
  split; [discriminate|].
  split; [exact R|].
  apply (@datetime_extremes plain_pandas); [discriminate | exact R].
Defined.

(** ** What the classifier looks at *)

Lemma unique_dropna s :
  pd.unique (pd.dropna s)
  = pd.unique_from py_eqb [] (present (pd.values s)).
Proof. unfold pd.unique. now rewrite values_dropna. Qed.

(** The classifier as a function of the storage type and the non-null
    values. *)
Lemma determine_type_by_values s :
  _determine_type s =
  match present (pd.values s) with
  | [] => "string"
  | values =>
      match dtype_of s with
      | numeric_dtype | bool_dtype =>
          if forallb (fun v => existsb (py_eqb v) flag_values) values
          then "boolean" else "numeric"
      | datetime64_dtype => "datetime"
      | _ => "string"
      end
  end.
Proof.
  destruct (present (pd.values s)) as [|v l] eqn:Hp.
  - apply determine_type_degenerate, degenerate_present, Hp.
  - assert (Hn : ~ degenerate s)
      by (rewrite degenerate_present, Hp; discriminate).
    rewrite (determine_type_regular Hn), unique_dropna, Hp.
    unfold issubset.
    assert (Hf : forallb (fun v0 => existsb (py_eqb v0) flag_values)
                   (pd.unique_from py_eqb [] (v :: l))
                 = forallb (fun v0 => existsb (py_eqb v0) flag_values)
                     (v :: l)).
    { apply eq_true_iff_eq.
      apply (forallb_unique_from py_eqb _ flag_test_compat (v :: l) []).
      reflexivity. }
    rewrite Hf. now destruct s.
Qed.

Lemma forallb_perm {A} (f : A -> bool) l l' :
  Permutation l l' -> forallb f l = forallb f l'.
Proof.
  induction 1; simpl; try congruence.
  - now rewrite !andb_assoc, (andb_comm (f y)).
Qed.

(** X17. The kind of a column depends only on its storage type and on
    which non-null values it holds: two columns of the same storage type
    whose non-null values are the same up to order are classified alike,
    wherever their nulls are and however many. *)
Theorem classification_by_values (s s' : Series) :
  dtype_of s = dtype_of s' ->
  Permutation (present (pd.values s)) (present (pd.values s')) ->
  _determine_type s = _determine_type s'.
Proof.
  intros Hd Hp. rewrite !determine_type_by_values, Hd.
  destruct (present (pd.values s)) as [|v l] eqn:E,
           (present (pd.values s')) as [|v' l'] eqn:E'.
  - reflexivity.
  - apply Permutation_nil in Hp. discriminate Hp.
  - apply Permutation_sym, Permutation_nil in Hp. discriminate Hp.
  - cbv beta iota zeta. now rewrite (forallb_perm _ Hp).
Qed.

Lemma classification_by_values_witness :
  dtype_of (NumericSeries id_cells)
  = dtype_of (NumericSeries (rev (None :: id_cells))) /\
  Permutation (present (pd.values (NumericSeries id_cells)))
    (present (pd.values (NumericSeries (rev (None :: id_cells))))) /\
  _determine_type (NumericSeries id_cells)
  = _determine_type (NumericSeries (rev (None :: id_cells))).
Proof.
  assert (Hp : Permutation (present (pd.values (NumericSeries id_cells)))
                 (present (pd.values
                             (NumericSeries (rev (None :: id_cells))))))
    by apply Permutation_rev.
  split; [reflexivity|]. split; [exact Hp|].
  exact (classification_by_values (NumericSeries id_cells)
           (NumericSeries (rev (None :: id_cells))) eq_refl Hp).
Defined.
(** ** Nulls *)

Lemma present_le_length {A} (xs : list (option A)) :
  (List.length (present xs) <= List.length xs)%nat.
Proof. induction xs as [|[x|] xs IH]; simpl; lia. Qed.

Lemma shared_null_bounds s r : shared_invariants s r -> null_bounds s r.
Proof.
  intros (count & nc & u & d & _ & Hn & _ & _ & Hc & Hsum & Hz & Hnz & _).
  pose proof (present_le_length (pd.values s)) as Hle.
  assert (Hb : 0 <= nc <= pd.len s) by (unfold pd.len in *; lia).
  exists nc. split; [exact Hn|]. split; [exact Hb|].
  split; [exact Hz|].
  intros NZ. eexists. split; [exact (Hnz NZ)|].
  apply ratio_bounds; [exact Hb|]. pose proof (len_nonneg s). lia.
Qed.

(** X18. In the record of any of the four summarizers, and so in every
    record of the engine, null_count lies between 0 and the length of the
    column, and null_percentage is the integer 0 for a column without
    cells and otherwise a number between 0 and 100. *)
Theorem nulls_bounded {pandas : Pandas} (k : Kind) (s : Series) (r : record) :
  summarizer k s = Ok r -> null_bounds s r.
Proof.
  intros H. apply shared_null_bounds.
  destruct k; cbn [summarizer] in H.
  - now apply analyze_numeric_shared.
  - now apply analyze_boolean_shared.
  - now apply analyze_string_shared.
  - now apply analyze_datetime_shared.
Qed.

Lemma nulls_bounded_witness :
  exists r,
    @summarizer plain_pandas String_ (ObjectSeries name_cells) = Ok r /\
    null_bounds (ObjectSeries name_cells) r.
Proof.
  eexists. split; [vm_compute; reflexivity|].
  apply (@nulls_bounded plain_pandas String_ (ObjectSeries name_cells)).
  vm_compute. reflexivity.
Defined.

(** ** Numeric columns at the edges *)

(** X19. Called on a numeric column without a non-null value, the
    numeric summarizer raises nothing and returns a record with count 0
    and each of its eleven statistics None.  The engine never makes that
    call: such a column is classified String. *)
Theorem numeric_without_values (xs : list (option Q)) :
  present xs = [] ->
  exists r,
    _analyze_numeric (NumericSeries xs) = Ok r /\
    dict_get "count" r = Some (PInt 0) /\
    Forall (fun k => dict_get k r = Some PNone) numeric_statistics /\
    _determine_type (NumericSeries xs) = "string".
Proof.
  intros H. pose proof (analyze_numeric_empty xs H) as E. cbv zeta in E.
  eexists. split; [exact E|].
  split.
  { cbn [dict_get String.eqb Ascii.eqb Bool.eqb].
    now rewrite numeric_len, H. }
  split; [repeat constructor|].
  apply determine_type_degenerate, degenerate_present.
  now rewrite numeric_present, H.
Qed.

Lemma numeric_without_values_witness :
  present [None; None] = @nil Q /\
  exists r,
    _analyze_numeric (NumericSeries [None; None]) = Ok r /\
    dict_get "count" r = Some (PInt 0) /\
    Forall (fun k => dict_get k r = Some PNone) numeric_statistics /\
    _determine_type (NumericSeries [None; None]) = "string".
Proof.
  split; [reflexivity|].
  apply numeric_without_values. reflexivity.
Defined.

(** X20. When all the non-null values of a numeric column are equal to
    one number of magnitude at most 2^53, min, q1, median, q3 and max of
    its record all equal that number and iqr is 0. *)
Theorem constant_column (xs : list (option Q)) (v : Q) :
  present xs <> [] ->
  Forall (fun x => x == v)%Q (present xs) ->
  moderate v ->
  exists r,
    _analyze_numeric (NumericSeries xs) = Ok r /\ constant_summary v r.
Proof.
  intros Hne Hall _. destruct (present xs) as [|x t] eqn:H; [tauto|].
  pose proof (analyze_numeric_nonempty xs H) as E. cbv zeta in E.
  pose proof (quartiles_chain x t) as (H1 & H2 & H3 & H4).
  cbv zeta in H1, H2, H3, H4.
  rewrite Forall_forall in Hall.
  pose proof (Hall _ (qmin_In x t)) as Hmin.
  pose proof (Hall _ (qmax_In x t)) as Hmax.
  eexists. split; [exact E|].
  exists (pd.qmin x t), (pd.qquantile (1 # 4) (x :: t)),
    (pd.qmedian (x :: t)), (pd.qquantile (3 # 4) (x :: t)), (pd.qmax x t).
  eexists. do 6 (split; [reflexivity|]).
  repeat split; lra.
Qed.

Lemma constant_column_witness :
  present [Some (7 # 2); None; Some (14 # 4)]%Q <> [] /\
  Forall (fun x => x == 7 # 2)%Q
    (present [Some (7 # 2); None; Some (14 # 4)]%Q) /\
  moderate (7 # 2) /\
  exists r,
    _analyze_numeric (NumericSeries [Some (7 # 2); None; Some (14 # 4)]%Q)
    = Ok r /\
    constant_summary (7 # 2) r.
Proof.
  assert (Hall : Forall (fun x => x == 7 # 2)%Q
                   (present [Some (7 # 2); None; Some (14 # 4)]%Q))
    by (repeat constructor).
  assert (Hv : moderate (7 # 2)) by discriminate.
  split; [discriminate|]. split; [exact Hall|]. split; [exact Hv|].
  apply constant_column; [discriminate | exact Hall | exact Hv].
Defined.
